(* ===== verification/_CoqProject ===== *)
-Q . S2P
Prelude.v
JsString.v
JsNumber.v
JsSort.v
Store.v
Paging.v
NotesStore.v
NotesQuery.v
NotesQueryProps.v
UploadPage.v
Auth.v
App.v
Navigation.v
NoteCard.v
NoteDetails.v
ListPage.v
ProfilePage.v
Routing.v
