(* ===== verification/Prelude.v ===== *)
(** * NotesBuddy: a verification development of the browser-only note store

    The program (src/src) is a React single-page application with no
    server.  Two context providers share one [localStorage]:
    AuthContext.jsx keeps the users array and the current user, and
    NotesContext.jsx keeps the notes array and the like records.  The
    pages and components call their handlers: NotesList.jsx with
    SearchBar.jsx and Pagination.jsx, NoteCard.jsx, NoteDetails.jsx,
    Upload.jsx with FileUpload.jsx, and Profile.jsx.  Navbar.jsx,
    NoteCard.jsx and NoteDetails.jsx ask for confirmation through
    ConfirmModal.jsx; Dashboard.jsx only reads the AuthProvider.
    App.jsx nests the two providers and routes each URL to a page; a
    card's link carries the note's id, which NoteDetails reads back.
    UPDATE_Upload.jsx and CHANGES_NEEDED.js hold an alternative upload
    handler.

    ** Files, in dependency order

    - [Prelude] (this file): the handlers' answer [result] ([Success]
      or [Failure message status], notation [fail: m] in [nb_scope]),
      JavaScript's [a || b] on strings ([js_or], [js_or_opt]), the array
      operations the handlers use ([find_index] for [findIndex], [None]
      being -1; [splice1]; [slice] with relative indices; [update_at] for
      [arr[i] = f(arr[i])]), the hint databases [nb] and [nb_rw], the
      tactic [nb_bool], and the list lemmas the components share.
    - [JsString]: [toLowerCase] (ASCII), [includes], [trim], [length].
    - [JsNumber]: an integer printed as text ([number_to_string], from
      the Standard Library's decimal representation) and ECMAScript's
      [parseInt] (white space, sign, [0x] prefix, longest digit prefix,
      [NaN] as [None]), with their round trip.
    - [JsSort]: [Array.prototype.sort] as a stable insertion sort
      [js_sort].  It is a permutation; it is ordered for any comparator
      monotone in a key; it is stable for [by_key_desc]; it depends on
      the comparator's answers only ([js_sort_ext]).  For a comparator
      that always answers -1 it reverses the array, a choice the
      standard leaves to the engine, which no property relies on.
    - [Store]: the four storage keys as the record [storage]; the note,
      like and user records; the React state of both providers; and the
      whole state [app].
    - [Paging]: [calculatePagination] (NotesContext.jsx), the page
      window of Pagination.jsx, its [for] loop [push_pages] (an
      [Equations] definition by well-founded recursion on
      [endPage - i + 1]) and the pages its buttons pass to [onPageChange].
    - [NotesStore]: the NotesContext handlers that write
      ([uploadNote], [getNoteById], [downloadNote], [deleteNote],
      [likeNote], [unlikeNote], [toggleNotePrivacy], [updateNote]), and
      [uploadNote] on a plain object.  Also the invariant [store_ok] and
      its preservation by each handler, and the equivalence of
      [likeNote], [unlikeNote] and [deleteNote] (index-based: findIndex
      and splice) with updates by id.
    - [NotesQuery], [NotesQueryProps]: [fetchNotes], [searchNotes],
      [getMyNotes] and [getLikedNotes], with JavaScript's relational
      comparison on the values [searchNotes] sorts by, and what they
      return: privacy, filters, order, liked notes.
    - [UploadPage]: Upload.jsx and FileUpload.jsx as a transition system
      ([upload_step]), and UPDATE_Upload.jsx as the same page with the
      alternative [handleSubmit] ([updated_run]).  [fu_render] is what
      FileUpload shows, the size as the exact [toFixed(2)] of the size
      in MB ([size_label]).
    - [Auth]: the AuthContext handlers, the invariants [users_ok] and
      [session_ok] and their preservation, and what each handler does.
    - [App]: the application as a transition system.  An [event] is one
      handler call or a page reload, [step] runs one, [reachable] is
      [rtc step init_app], and [reachable_ok] is the invariant of every
      reachable state.  [owner_can_delete] is a liveness property of it.
    - [Navigation]: ConfirmModal (generic over its parent's state), the
      Navbar as a step function [navbar_run], and Dashboard's links.
    - [NoteCard]: written against the typeclass [NotesApi] (what
      [useNotes()] and [useAuth()] give it); its events are the step
      function [card_run].  Its agreement with the store is proved against
      the laws [LikeLaws] and [PrivacyLaws], which [app_like_laws] and
      [app_privacy_laws] implement for the providers' store.
      [card_render] is what the card shows: texts, tags, counters, the
      [View Details] link, the buttons and the open modal.
    - [NoteDetails]: the step function [details_run] over its load
      effect, buttons and privacy modal.
    - [ListPage]: SearchBar.jsx and NotesList.jsx; [list_run] is the page
      with its SearchBar, Pagination and NoteCards (whose [onDelete] is
      NotesList's [handleDelete]).
    - [ProfilePage]: Profile.jsx; [profile_run] is the page with its
      password and deletion forms (behind the browser's [required] and
      [minLength] validation) and its NoteCards.
    - [Routing]: App.jsx's [<Routes>] ([app_routes]) with react-router
      v6's matching ([compile_path], [match_path], [computeScore],
      [matchRoutes]) and the fallback's [Navigate] ([visit]);
      NoteDetails opened on a URL ([details_open], [loadNote_param]);
      and [useNotes] under App.jsx's providers.

    ** How the model follows the code

    Every handler is a function [app -> args -> app * result _].  The
    early returns are the [Failure]s, in the code's order, and a
    [setItem] is a functional update of [storage].  [Date.now()] is an
    argument [now], and an ISO date is the millisecond value it prints.
    JavaScript numbers are [Z]: ids are millisecond timestamps and
    counters are small, all far below 2^53, where doubles are exact.  A
    [TypeError] or [ReferenceError] caught by a handler is the
    [Failure] its [catch] returns.  Every recursion is structural
    except Pagination's loop, which is well-founded on the number of
    pages left to push, and [visit], which follows [Navigate] elements
    with fuel: only the fallback route navigates, to [/], which has a
    page, so fuel 2 is enough and [every_url_settles] proves that with
    it every pathname shows a page.  A page or
    component is a step function over its own events (the clicks it
    handles, with [window.confirm]'s answer as an argument), run on
    lists of events by [fold_left].

    ** The theorems

    The claims are named in the doc comments ([C1] ... ).  They group as
    follows:
    - invariants: of every reachable application state (the store, the
      users and the session; the links the Navbar and the Dashboard
      show), of the Upload page, and of NoteDetails along any of its
      paths (its privacy badge is the stored privacy); all page paths
      use [fold_left_invariant] below;
    - NotesList, composed with its SearchBar, Pagination and cards, keeps
      its page and the pages it offers within the provider's
      [totalPages] (which a deletion leaves stale);
    - the Profile page never reaches AuthContext, on any path;
    - refinement: NoteCard's like count and privacy badge follow the
      store, proved against the interfaces [LikeLaws] and [PrivacyLaws];
    - liveness: from any reachable state the owner of a note can log in
      and delete it; every URL settles on a page within one redirect;
    - routing: a card's link opens NoteDetails on a parameter from which
      [parseInt] reads the note's id back, so the page loads that note;
      every link of the Navbar and the Dashboard opens its page;
    - the Navbar logs out only through its ConfirmModal;
    - UPDATE_Upload.jsx keeps the same form as Upload.jsx on every path
      and never stores a note;
    - termination of Pagination's loop, and the bounds of the pages its
      buttons ask for;
    - equivalences of the index-based handlers with updates by id;
    - round trips: like then unlike; register, logout, login; password
      change then login; the privacy checkbox through [FormData]; an id
      printed into a link and read back by [parseInt] (a lemma, used by
      the routing theorem);
    - functional results and errors of each handler;
    - privacy: what [getNoteById], [fetchNotes] and [searchNotes] show;
    - pagination bounds and the partition of a list into pages;
    - findings, proved as theorems:
      - a like is recorded for a missing note, or for a private note
        the user may not see;
      - [deleteAccount] keeps the account's like records;
      - the SearchBar's 'ASC' order sorts newest first, and with its
        'views'/'likes'/'popularity' keys the comparator answers -1 to
        every pair: the order is left to the engine, and the chosen
        order has no effect;
      - NoteCard cannot unlike a note it was shown already liked;
      - Profile's password change and deletion never reach AuthContext,
        and two of its error toasts are unreachable behind the
        browser's form validation;
      - a deletion on NotesList leaves the pagination stale, which can
        strand the user on an empty page ([list_stranded_after_delete]);
      - the alternative upload page never uploads;
      - a URL such as [/notes/12abc] opens note 12, since [parseInt]
        reads the leading digits ([notes_url_suffix]).

    The one assumption on the environment is [clock_fresh] in [App]: the
    [Date.now()] an upload or a registration takes as its id is not an
    id in use.  The code relies on it and does not check it.

    ** Not modelled

    Toasts, except as the only outcome of Profile's handlers, and the
    JSON encoding of the flat records.  [FileReader], whose result is an
    option.  Styling, icons and date formatting ([toLocaleDateString]);
    the rendering of pages other than NoteCard and FileUpload; the Loader
    component, which only draws a spinner; the Navbar's theme toggle
    (hooks/useTheme).  The percent-decoding of URLs (the links of the
    code contain no escapes), route paths with optional segments or a
    trailing [/*] (App.jsx has none), and characters beyond ASCII in
    strings.  Asynchrony: each handler runs to
    completion in one step, so [setLoading(true)] is never an observable
    state.  The modules the sources import but the repository does
    not contain: hooks/useAuth, hooks/useTheme, components/ProtectedRoute,
    pages/Login and pages/Register; a route's [ProtectedRoute] wrapper is
    recorded and not interpreted.  [useAuth] is read as the
    AuthProvider's [user] and [isAuthenticated].  [updateNote] is
    modelled but no page calls it, so it is not an [event]. *)

From stdpp Require Export base list strings.
From Stdlib Require Export ZArith Sorted Permutation Lia.

(** ** Scope, results and hint database shared by every component *)

Declare Scope nb_scope.
Delimit Scope nb_scope with nb.
Open Scope Z_scope.

Create HintDb nb.
Create Rewrite HintDb nb_rw.

(** The handlers of the two React contexts answer with an object
    [{ success: true, data }] or [{ success: false, message }]
    ([downloadNote] adds [status: 401] to one of its failures). *)
Inductive result (A : Type) : Type :=
| Success (data : A)
| Failure (message : string) (status : option Z).
Arguments Success {A} data.
Arguments Failure {A} message status.

Notation "'fail:' m" := (Failure m%string None) (at level 10) : nb_scope.
Open Scope nb_scope.

Definition is_success {A} (r : result A) : bool :=
  match r with Success _ => true | Failure _ _ => false end.

Definition message_of {A} (r : result A) : option string :=
  match r with Success _ => None | Failure m _ => Some m end.

(** ** JavaScript values used by the code

    [a || b] on strings: the empty string is falsy. *)
Definition js_or (a b : string) : string :=
  if String.eqb a "" then b else a.
Notation "a '?||' b" := (js_or a b) (at level 50, left associativity) : nb_scope.

(** [a || b] where [a] may be [undefined] ([user?.name]). *)
Definition js_or_opt (a : option string) (b : string) : string :=
  match a with Some s => s ?|| b | None => b end.

(** ** Arrays: [findIndex], [find], [some], [splice(i, 1)], [slice] *)

Section JsArray.
  Context {A : Type}.

  (** [arr.findIndex(p)]: [None] is the [-1] of the code. *)
Fixpoint find_index (p : A -> bool) (l : list A) : option nat :=
    match l with
    | [] => None
    | x :: l' => if p x then Some 0%nat else S <$> find_index p l'
    end.

  (** [arr.splice(i, 1)] on an index returned by [findIndex]. *)
Definition splice1 (i : nat) (l : list A) : list A := delete i l.

  (** A relative index of [slice]: negative counts from the end,
      then clamped to [0, length]. *)
Definition rel_index (len k : Z) : Z :=
    if k <? 0 then Z.max (len + k) 0 else Z.min k len.

  (** [arr.slice(start, end)]. *)
Definition slice (l : list A) (start stop : Z) : list A :=
    let len := Z.of_nat (length l) in
    let s := rel_index len start in
    let e := rel_index len stop in
    take (Z.to_nat (e - s)) (drop (Z.to_nat s) l).

  (** [arr[i] = f(arr[i])] for an index returned by [findIndex]. *)
Definition update_at (i : nat) (f : A -> A) (l : list A) : list A :=
    match l !! i with Some x => <[i := f x]> l | None => l end.

  (** [arr.filter(p).length], as a JavaScript number. *)
Definition count_where (p : A -> bool) (l : list A) : Z :=
    Z.of_nat (length (List.filter p l)).
End JsArray.

(** ** Generic lemmas on the array helpers *)

Section JsArrayFacts.
  Context {A : Type}.
  Implicit Types (p : A -> bool) (l : list A).

Lemma find_index_Some p l i :
    find_index p l = Some i ->
    exists x, l !! i = Some x /\ p x = true /\
      forall j y, (j < i)%nat -> l !! j = Some y -> p y = false.
  Proof.
    revert i; induction l as [|x l IH]; intros i H; simpl in H; [done|].
    destruct (p x) eqn:Hx.
    - injection H as <-. exists x. split_and!; [done|done|]. intros j y Hj. lia.
    - destruct (find_index p l) as [k|] eqn:Hk; simpl in H; [|done].
      injection H as <-. destruct (IH k eq_refl) as (y & Hy & Hpy & Hfirst).
      exists y. split_and!; [done|done|].
      intros [|j] z Hj Hz; simpl in Hz; [by injection Hz as <-|].
      apply (Hfirst j); [lia|done].
  Qed.

Lemma find_index_None p l :
    find_index p l = None <-> Forall (fun x => p x = false) l.
  Proof.
    induction l as [|x l IH]; simpl; [split; auto|].
    rewrite Forall_cons. destruct (p x) eqn:Hx; [split; [done|intros []; congruence]|].
    destruct (find_index p l); simpl; [split; [done|intros [_ ?%IH]; done]|].
    split; [intros _; split; [done|by apply IH]|done].
  Qed.

Lemma find_index_lt p l i : find_index p l = Some i -> (i < length l)%nat.
  Proof.
    intros (x & Hx & _)%find_index_Some. by eapply lookup_lt_Some.
  Qed.

Lemma count_where_nonneg p l : 0 <= count_where p l.
  Proof. unfold count_where. lia. Qed.

Lemma count_where_app p l1 l2 :
    count_where p (l1 ++ l2) = count_where p l1 + count_where p l2.
  Proof. unfold count_where. rewrite List.filter_app, length_app. lia. Qed.

Lemma count_where_cons p x l :
    count_where p (x :: l) = (if p x then 1 else 0) + count_where p l.
  Proof. unfold count_where. simpl. destruct (p x); simpl; lia. Qed.

Lemma count_where_nil p : count_where p [] = 0.
  Proof. reflexivity. Qed.

Lemma filter_all_false p l :
    (forall x, In x l -> p x = false) -> List.filter p l = [].
  Proof.
    induction l as [|x l IH]; intros H; simpl; [done|].
    rewrite (H x (or_introl eq_refl)). apply IH. intros y Hy. apply H. by right.
  Qed.

Lemma count_where_ext p q l :
    (forall x, In x l -> p x = q x) -> count_where p l = count_where q l.
  Proof.
    intros H. unfold count_where. f_equal. f_equal.
    induction l as [|x l IH]; simpl; [done|].
    rewrite (H x (or_introl eq_refl)). rewrite IH; [done|]. intros y Hy. apply H. by right.
  Qed.
Lemma take_add_drop (n m : nat) l :
    take (n + m) l = take n l ++ take m (drop n l).
  Proof.
    revert l; induction n as [|n IH]; intros [|x l]; simpl; try done.
    - by rewrite take_nil.
    - by rewrite IH.
  Qed.

  (** [slice] from a non-negative start is [take] after [drop]. *)
Lemma slice_nonneg l (s e : Z) :
    0 <= s <= e -> slice l s e = take (Z.to_nat (e - s)) (drop (Z.to_nat s) l).
  Proof.
    intros [Hs He]. unfold slice, rel_index.
    destruct (Z.ltb_spec s 0), (Z.ltb_spec e 0); try lia.
    destruct (decide (Z.of_nat (length l) <= s)) as [Hge|Hlt].
    - rewrite !drop_ge by lia. by rewrite !take_nil.
    - rewrite (Z.min_l s) by lia.
      destruct (decide (e <= Z.of_nat (length l))).
      + by rewrite Z.min_l by lia.
      + rewrite Z.min_r by lia. rewrite !take_ge; [done| |]; rewrite length_drop; lia.
  Qed.
Lemma filter_all_true p l :
    (forall x, In x l -> p x = true) -> List.filter p l = l.
  Proof.
    induction l as [|x l IH]; intros H; simpl; [done|].
    rewrite (H x (or_introl eq_refl)). f_equal. apply IH. intros y Hy. apply H. by right.
  Qed.

  (** If [x] satisfies [p] and at most one element of [x :: l] does,
      no element of [l] does. *)
Lemma count_le1_rest p x l :
    p x = true -> count_where p (x :: l) <= 1 -> forall y, In y l -> p y = false.
  Proof.
    intros Hx Hc y Hy. rewrite count_where_cons, Hx in Hc.
    destruct (p y) eqn:Hpy; [|done].
    assert (In y (List.filter p l)) by (by apply List.filter_In).
    unfold count_where in Hc. destruct (List.filter p l); simpl in *; [done|lia].
  Qed.

  (** When at most one element satisfies [p], updating the one
      [findIndex] found is updating every element that satisfies [p]. *)
Lemma update_at_unique p (f : A -> A) l i :
    find_index p l = Some i -> count_where p l <= 1 ->
    update_at i f l = map (fun x => if p x then f x else x) l.
  Proof.
    unfold update_at. revert i; induction l as [|x l IH]; intros i Hi Hc; simpl in Hi; [done|].
    destruct (p x) eqn:Hx.
    - injection Hi as <-. simpl. rewrite Hx. f_equal. symmetry.
      rewrite <- (map_id l) at 2. apply map_ext_in. intros y Hy.
      by rewrite (count_le1_rest p x l Hx Hc y Hy).
    - rewrite count_where_cons, Hx in Hc.
      destruct (find_index p l) as [k|] eqn:Hk; simpl in Hi; [|done]. injection Hi as <-.
      specialize (IH k eq_refl ltac:(lia)). simpl. rewrite Hx.
      destruct (l !! k) eqn:Hl; [|by apply lookup_ge_None in Hl; apply find_index_lt in Hk; lia].
      simpl. by rewrite <- IH.
  Qed.

Lemma map_if_none p (f : A -> A) l :
    find_index p l = None -> map (fun x => if p x then f x else x) l = l.
  Proof.
    intros Hn%find_index_None. induction Hn as [|x l Hx _ IH]; simpl; [done|].
    by rewrite Hx, IH.
  Qed.

  (** When at most one element satisfies [p], [splice]-ing the one
      [findIndex] found is filtering out every element that satisfies [p]. *)
Lemma splice1_unique p l i :
    find_index p l = Some i -> count_where p l <= 1 ->
    splice1 i l = List.filter (fun x => negb (p x)) l.
  Proof.
    unfold splice1. revert i; induction l as [|x l IH]; intros i Hi Hc; simpl in Hi; [done|].
    destruct (p x) eqn:Hx; simpl; rewrite Hx; simpl.
    - injection Hi as <-. simpl. symmetry. apply filter_all_true.
      intros y Hy. by rewrite (count_le1_rest p x l Hx Hc y Hy).
    - rewrite count_where_cons, Hx in Hc.
      destruct (find_index p l) as [k|] eqn:Hk; simpl in Hi; [|done]. injection Hi as <-.
      simpl. f_equal. apply IH; [done|lia].
  Qed.

  (** stdpp's [fmap] on lists is [List.map]. *)
Lemma fmap_list_map {B} (f : A -> B) l : f <$> l = map f l.
  Proof. induction l as [|x l IH]; simpl; [done|]. by rewrite <- IH. Qed.

Lemma count_where_zero p l :
    (forall x, In x l -> p x = false) -> count_where p l = 0.
  Proof. intros H. unfold count_where. by rewrite filter_all_false. Qed.

  (** Filtering out the elements of [q] removes them from the count of
      [p], when [q] implies [p]. *)
Lemma count_where_filter_sub p q l :
    (forall x, q x = true -> p x = true) ->
    count_where p (List.filter (fun x => negb (q x)) l) = count_where p l - count_where q l.
  Proof.
    intros Hqp. induction l as [|x l IH]; [done|]. simpl.
    destruct (q x) eqn:Hq; simpl; rewrite !count_where_cons, ?Hq, ?(Hqp x Hq), IH; [lia|].
    destruct (p x); lia.
  Qed.

  (** Filtering out elements that [p] does not count leaves its count. *)
Lemma count_where_filter_disj p q l :
    (forall x, In x l -> q x = true -> p x = false) ->
    count_where p (List.filter (fun x => negb (q x)) l) = count_where p l.
  Proof.
    induction l as [|x l IH]; intros H; [done|]. simpl.
    assert (IH' : count_where p (List.filter (fun x => negb (q x)) l) = count_where p l)
      by (apply IH; intros y Hy; apply H; by right).
    destruct (q x) eqn:Hq; simpl; rewrite !count_where_cons, IH';
      [by rewrite (H x (or_introl eq_refl) Hq)|done].
  Qed.

Lemma find_index_find p l i : find_index p l = Some i -> List.find p l = l !! i.
  Proof.
    revert i; induction l as [|x l IH]; intros i Hi; simpl in *; [done|].
    destruct (p x); [by injection Hi as <-|].
    destruct (find_index p l) as [k|] eqn:Hk; simpl in Hi; [|done]. injection Hi as <-.
    by apply IH.
  Qed.

Lemma find_index_find_None p l : find_index p l = None -> List.find p l = None.
  Proof.
    intros Hn%find_index_None. induction Hn as [|x l Hx _ IH]; simpl; [done|]. by rewrite Hx.
  Qed.

Lemma find_some_in p l x : List.find p l = Some x -> In x l /\ p x = true.
  Proof. apply List.find_some. Qed.

Lemma find_None_false p l : List.find p l = None -> forall x, In x l -> p x = false.
  Proof.
    induction l as [|y l IH]; intros H x Hx; simpl in *; [done|].
    destruct (p y) eqn:Hy; [done|]. destruct Hx as [<-|Hx]; [done|]. by apply IH.
  Qed.

Lemma find_index_Some_true p l i x : find_index p l = Some i -> l !! i = Some x -> p x = true.
  Proof. intros (y & Hy & Hp & _)%find_index_Some Hx. congruence. Qed.

Lemma NoDup_fmap_filter {K} (f : A -> K) q l :
    NoDup (f <$> l) -> NoDup (f <$> List.filter q l).
  Proof.
    induction l as [|x l IH]; intros Hnd; simpl; [constructor|].
    inversion Hnd as [|? ? Hnin Hnd']; subst. destruct (q x); simpl; [|by apply IH].
    constructor; [|by apply IH]. intros Hin. apply Hnin.
    apply list_elem_of_fmap in Hin as (y & -> & Hy). apply list_elem_of_fmap.
    exists y. split; [done|]. apply list_elem_of_In in Hy. apply list_elem_of_In.
    by apply List.filter_In in Hy as [? _].
  Qed.

Lemma Forall_filter_sub (P : A -> Prop) q l : Forall P l -> Forall P (List.filter q l).
  Proof.
    induction 1 as [|x l Hx _ IH]; simpl; [constructor|]. destruct (q x); [by constructor|done].
  Qed.

Lemma find_index_count p l i : find_index p l = Some i -> 1 <= count_where p l.
  Proof.
    intros (x & Hx & Hp & _)%find_index_Some. apply list_elem_of_lookup_2 in Hx.
    apply list_elem_of_In in Hx. unfold count_where.
    assert (In x (List.filter p l)) by (by apply List.filter_In).
    destruct (List.filter p l); simpl in *; [done|lia].
  Qed.

Lemma count_where_mono p q l :
    (forall x, q x = true -> p x = true) -> count_where q l <= count_where p l.
  Proof.
    intros H. induction l as [|x l IH]; [done|]. rewrite !count_where_cons.
    destruct (q x) eqn:Hq; [rewrite (H x Hq); lia|]. destruct (p x); lia.
  Qed.

Lemma find_index_app_last p l x :
    find_index p l = None -> p x = true -> find_index p (l ++ [x]) = Some (length l).
  Proof.
    intros Hn Hx. induction l as [|y l IH]; simpl in *; [by rewrite Hx|].
    destruct (p y); [done|]. destruct (find_index p l); [done|]. by rewrite IH.
  Qed.

Lemma splice1_app_last l x : splice1 (length l) (l ++ [x]) = l.
  Proof. unfold splice1. induction l as [|y l IH]; simpl; [done|]. by rewrite IH. Qed.

Lemma find_app_Some p l x : List.find p l = None -> p x = true -> List.find p (l ++ [x]) = Some x.
  Proof.
    intros Hn Hx. induction l as [|y l IH]; simpl in *; [by rewrite Hx|].
    destruct (p y); [done|]. by apply IH.
  Qed.

Lemma map_if_map_if p (f g : A -> A) l :
    (forall x, p (f x) = p x) ->
    map (fun x => if p x then g x else x) (map (fun x => if p x then f x else x) l) =
    map (fun x => if p x then g (f x) else x) l.
  Proof.
    intros H. rewrite map_map. apply map_ext. intros x. destruct (p x) eqn:Hx; [by rewrite H, Hx|by rewrite Hx].
  Qed.

Lemma find_index_map_if p (f : A -> A) l :
    (forall x, p (f x) = p x) ->
    find_index p (map (fun x => if p x then f x else x) l) = find_index p l.
  Proof.
    intros H. induction l as [|x l IH]; simpl; [done|].
    destruct (p x) eqn:Hx; [by rewrite H, Hx|by rewrite Hx, IH].
  Qed.

Lemma map_if_id p (f : A -> A) l :
    Forall (fun x => p x = true -> f x = x) l -> map (fun x => if p x then f x else x) l = l.
  Proof.
    induction 1 as [|x l Hx _ IH]; simpl; [done|]. rewrite IH. destruct (p x); [by rewrite Hx|done].
  Qed.

  (** Writing at index [i] a value that no other index holds keeps
      the elements distinct. *)
Lemma NoDup_insert_fresh l i (x : A) :
    NoDup l -> (forall j y, l !! j = Some y -> j <> i -> y <> x) -> NoDup (<[i := x]> l).
  Proof.
    revert i; induction l as [|z l IH]; intros i Hnd Hx; [done|].
    inversion Hnd as [|? ? Hnin Hnd']; subst. destruct i as [|i]; simpl.
    - constructor; [|done]. intros Hin. apply list_elem_of_lookup in Hin as [j Hj].
      by apply (Hx (S j) x).
    - constructor.
      + intros Hin. apply list_elem_of_lookup in Hin as [j Hj].
        destruct (decide (j = i)) as [->|Hne].
        * rewrite list_lookup_insert_eq in Hj; [|by apply lookup_lt_Some in Hj; rewrite length_insert in Hj].
          injection Hj as Hxz. apply (Hx 0%nat z); [done|lia|by rewrite Hxz].
        * rewrite list_lookup_insert_ne in Hj by done. apply Hnin. by apply list_elem_of_lookup_2 in Hj.
      + apply IH; [done|]. intros j y Hj Hne. apply (Hx (S j)); [done|lia].
  Qed.

Lemma update_at_In (f : A -> A) l i x :
    In x l -> exists y, In y (update_at i f l) /\ (y = x \/ y = f x).
  Proof.
    intros Hin. unfold update_at. destruct (l !! i) as [z|] eqn:Hz; [|by exists x; auto].
    apply list_elem_of_In, list_elem_of_lookup in Hin as [j Hj].
    destruct (decide (j = i)) as [->|Hne].
    - rewrite Hz in Hj. injection Hj as ->. exists (f x). split; [|by right].
      apply list_elem_of_In, list_elem_of_lookup. exists i.
      apply list_lookup_insert_eq. by apply lookup_lt_Some in Hz.
    - exists x. split; [|by left]. apply list_elem_of_In, list_elem_of_lookup. exists j.
      by rewrite list_lookup_insert_ne.
  Qed.

Lemma update_at_lookup_In (f : A -> A) l i x :
    update_at i f l !! i = Some x -> In x (update_at i f l).
  Proof. intros H. apply list_elem_of_In. by apply list_elem_of_lookup_2 in H. Qed.

Lemma find_all_false p l : (forall x, In x l -> p x = false) -> List.find p l = None.
  Proof.
    induction l as [|y l IH]; intros H; simpl; [done|].
    rewrite (H y (or_introl eq_refl)). apply IH. intros x Hx. apply H. by right.
  Qed.

  (** [find] through an update of the elements [q] accepts by an [f]
      that [p] does not see. *)
Lemma find_map_if p (q : A -> bool) (f : A -> A) l :
    (forall x, p (f x) = p x) ->
    List.find p (map (fun x => if q x then f x else x) l) =
    option_map (fun x => if q x then f x else x) (List.find p l).
  Proof.
    intros H. induction l as [|x l IH]; simpl; [done|].
    destruct (q x) eqn:Hq; [rewrite H|]; destruct (p x); simpl; rewrite ?Hq; done.
  Qed.

Lemma map_if_self p l : map (fun x => if p x then x else x) l = l.
  Proof. rewrite <- (map_id l) at 2. apply map_ext. intros x. by destruct (p x). Qed.

Lemma find_map_if_same p (f : A -> A) l :
    (forall x, p (f x) = p x) ->
    List.find p (map (fun x => if p x then f x else x) l) = option_map f (List.find p l).
  Proof.
    intros Hf. rewrite find_map_if by done.
    destruct (List.find p l) eqn:Hx; [|done]. simpl. apply find_some_in in Hx as [_ ->]. done.
  Qed.

Lemma count_where_pos p l x : In x l -> p x = true -> 1 <= count_where p l.
  Proof.
    intros Hx Hp. destruct (find_index p l) eqn:Hi; [by eapply find_index_count|].
    apply find_index_None in Hi. rewrite List.Forall_forall in Hi. specialize (Hi x Hx). congruence.
  Qed.

Lemma existsb_filter_negb p l : existsb p (List.filter (fun x => negb (p x)) l) = false.
  Proof. induction l as [|x l IH]; simpl; [done|]. destruct (p x) eqn:Hp; simpl; [exact IH|by rewrite Hp]. Qed.

Lemma find_filter_negb p l : List.find p (List.filter (fun x => negb (p x)) l) = None.
  Proof.
    apply find_all_false. intros x (_ & Hx)%List.filter_In. by apply negb_true_iff in Hx.
  Qed.

  (** When [x] is the only element of [l] that [q] accepts,
      [find (q && r)] finds [x] exactly when [r x] holds. *)
Lemma find_unique_and (q r : A -> bool) l x :
    In x l -> q x = true -> (forall y, In y l -> q y = true -> y = x) ->
    List.find (fun y => q y && r y) l = if r x then Some x else None.
  Proof.
    intros Hin Hq Hu. induction l as [|y l IH]; simpl; [done|].
    destruct (q y) eqn:Hqy; simpl.
    - assert (y = x) as -> by (apply Hu; [by left|done]).
      destruct (r x) eqn:Hr; [done|]. apply find_all_false. intros z Hz.
      destruct (q z) eqn:Hqz; [|done]. simpl. by rewrite (Hu z (or_intror Hz) Hqz).
    - destruct Hin as [->|Hin]; [congruence|]. apply IH; [done|]. intros z Hz. apply Hu. by right.
  Qed.

Lemma NoDup_fmap_inj {K} (f : A -> K) l x y :
    NoDup (f <$> l) -> In x l -> In y l -> f x = f y -> x = y.
  Proof.
    intros Hnd Hx Hy Hf.
    apply list_elem_of_In, list_elem_of_lookup in Hx as [i Hi].
    apply list_elem_of_In, list_elem_of_lookup in Hy as [j Hj].
    assert (i = j) as ->.
    { apply (NoDup_lookup (f <$> l) i j (f x)); [done|by rewrite list_lookup_fmap, Hi|].
      by rewrite list_lookup_fmap, Hj, Hf. }
    congruence.
  Qed.

  (** Unique keys: at most one element has a given key. *)
Lemma nodup_count_le1 {K} (key : A -> K) (p : A -> bool) (k : K) l :
    NoDup (key <$> l) -> (forall x, p x = true -> key x = k) -> count_where p l <= 1.
  Proof.
    induction l as [|x l IH]; intros Hnd Hk; [done|]. simpl in Hnd.
    inversion Hnd as [|? ? Hnin Hnd']; subst. rewrite count_where_cons.
    destruct (p x) eqn:Hx; [|specialize (IH Hnd' Hk); lia].
    rewrite count_where_zero; [lia|]. intros y Hy. destruct (p y) eqn:Hpy; [|done].
    exfalso. apply Hnin. rewrite (Hk x Hx), <- (Hk y Hpy).
    apply list_elem_of_fmap. exists y. split; [done|]. by apply list_elem_of_In.
  Qed.

Lemma slice_In l s e x : In x (slice l s e) -> In x l.
  Proof.
    unfold slice. intros H%list_elem_of_In. apply list_elem_of_In.
    apply subseteq_take in H. by apply subseteq_drop in H.
  Qed.

Lemma Sorted_drop (R : A -> A -> Prop) l n : Sorted R l -> Sorted R (drop n l).
  Proof.
    intros H. revert n. induction H as [|y l Hl IH Hhd]; intros [|m]; simpl; try constructor; auto.
  Qed.

Lemma Sorted_take (R : A -> A -> Prop) l n : Sorted R l -> Sorted R (take n l).
  Proof.
    intros H. revert n. induction H as [|y l Hl IH Hhd]; intros [|m]; simpl; try constructor; auto.
    destruct l as [|z l], m as [|m]; simpl; constructor. by inversion Hhd.
  Qed.

Lemma Sorted_impl (R R' : A -> A -> Prop) l :
    (forall x y, R x y -> R' x y) -> Sorted R l -> Sorted R' l.
  Proof.
    intros Himp. induction 1 as [|y l Hl IH Hhd]; constructor; [done|].
    destruct Hhd; constructor. by apply Himp.
  Qed.

  (** A page of an ordered list is ordered. *)
Lemma Sorted_slice (R : A -> A -> Prop) l s e : Sorted R l -> Sorted R (slice l s e).
  Proof. intros H. unfold slice. by apply Sorted_take, Sorted_drop. Qed.

End JsArrayFacts.

(** ** Paths of a step function

    A page or component is a step function [run] over its events; a path
    is [fold_left run es].  A property established at the start and
    preserved by every step holds after every path. *)
Lemma fold_left_invariant {S E} (run : S -> E -> S) (I : S -> Prop) :
  (forall s e, I s -> I (run s e)) -> forall es s, I s -> I (fold_left run es s).
Proof. intros Hpres es. induction es as [|e es IH]; intros s Hs; [done|]. apply IH, Hpres, Hs. Qed.

#[export] Hint Resolve count_where_nonneg find_index_lt : nb.
#[export] Hint Rewrite @count_where_app @count_where_cons @count_where_nil : nb_rw.

(** [nb_bool] turns the boolean tests of the code into propositions. *)
Ltac nb_bool :=
  repeat match goal with
  | H : (_ =? _)%Z = true |- _ => apply Z.eqb_eq in H
  | H : (_ =? _)%Z = false |- _ => apply Z.eqb_neq in H
  | H : String.eqb _ _ = true |- _ => apply String.eqb_eq in H
  | H : String.eqb _ _ = false |- _ => apply String.eqb_neq in H
  | H : (_ && _)%bool = true |- _ => apply andb_prop in H as [? ?]
  | H : negb _ = true |- _ => apply negb_true_iff in H
  | H : negb _ = false |- _ => apply negb_false_iff in H
  end.
