(* ===== verification/JsString.v ===== *)
(** * JsString: the string methods the code calls

    [String.prototype.toLowerCase], [includes] and [trim] as executable
    functions on Rocq strings.  Characters are 8-bit [ascii]: the case
    mapping covers A-Z and [trim] the ASCII whitespace of ECMAScript
    (space, tab, LF, VT, FF, CR); characters beyond ASCII are not
    modelled.  Used by [searchNotes] (NotesContext.jsx) and by the
    form validation of Upload.jsx. *)

From S2P Require Import Prelude.
From Stdlib Require Import Ascii String.

Definition lower_ascii (c : ascii) : ascii :=
  let n := nat_of_ascii c in
  if (65 <=? n)%nat && (n <=? 90)%nat then ascii_of_nat (n + 32) else c.

(** [s.toLowerCase()]. *)
Fixpoint to_lower (s : string) : string :=
  match s with
  | EmptyString => EmptyString
  | String c s' => String (lower_ascii c) (to_lower s')
  end.

(** [s.includes(t)]: [t] occurs at some position of [s]. *)
Fixpoint includes (s t : string) : bool :=
  String.prefix t s ||
  match s with
  | EmptyString => false
  | String _ s' => includes s' t
  end.

Definition is_js_space (c : ascii) : bool :=
  let n := nat_of_ascii c in
  (n =? 32)%nat || ((9 <=? n)%nat && (n <=? 13)%nat).

Fixpoint trim_start (s : string) : string :=
  match s with
  | EmptyString => EmptyString
  | String c s' => if is_js_space c then trim_start s' else s
  end.

Fixpoint rev_string (s : string) : string :=
  match s with
  | EmptyString => EmptyString
  | String c s' => (rev_string s' ++ String c EmptyString)%string
  end.

(** [s.trim()]: leading and trailing whitespace removed. *)
Definition trim (s : string) : string :=
  rev_string (trim_start (rev_string (trim_start s))).

(** [s.length] for the characters modelled. *)
Definition js_length (s : string) : Z := Z.of_nat (String.length s).

(** ** Lemmas *)

Lemma prefix_correct (t s : string) :
  String.prefix t s = true <-> exists u, s = (t ++ u)%string.
Proof.
  revert s; induction t as [|c t IH]; intros [|d s].
  - split; [intros _; by exists EmptyString|done].
  - split; [intros _; by exists (String d s)|done].
  - split; [done|]. intros [u Hu]. discriminate.
  - cbn [String.prefix]. destruct (Ascii.ascii_dec c d) as [->|Hne].
    + rewrite IH. split; intros [u Hu]; exists u; [by rewrite Hu|by injection Hu].
    + split; [done|]. intros [u Hu]. injection Hu. congruence.
Qed.

(** [includes] is exactly substring occurrence. *)
Lemma includes_correct (s t : string) :
  includes s t = true <-> exists p u, s = (p ++ t ++ u)%string.
Proof.
  induction s as [|c s IH]; cbn [includes].
  - rewrite orb_false_r, prefix_correct. split.
    + intros [u Hu]. exists EmptyString, u. done.
    + intros [p [u Hu]]. destruct p; [by exists u|discriminate].
  - rewrite orb_true_iff, prefix_correct, IH. split.
    + intros [[u Hu]|(p & u & Hu)].
      * by exists EmptyString, u.
      * exists (String c p), u. by rewrite Hu.
    + intros [[|d p] [u Hu]]; simpl in Hu; [left; by exists u|].
      right. injection Hu as -> ->. by exists p, u.
Qed.

Lemma includes_empty (s : string) : includes s "" = true.
Proof. destruct s; reflexivity. Qed.

(** stdpp declares [String.append] [simpl never]: its two equations. *)
Lemma string_app_cons (c : ascii) (s t : string) :
  (String c s ++ t)%string = String c (s ++ t).
Proof. reflexivity. Qed.

Lemma string_app_nil_r (s : string) : (s ++ "")%string = s.
Proof. induction s as [|c s IH]; [done|]. by rewrite string_app_cons, IH. Qed.

Lemma includes_refl (s : string) : includes s s = true.
Proof.
  apply includes_correct. exists EmptyString, EmptyString. simpl.
  by rewrite string_app_nil_r.
Qed.

Lemma lower_ascii_idem (c : ascii) : lower_ascii (lower_ascii c) = lower_ascii c.
Proof. destruct c as [[] [] [] [] [] [] [] []]; reflexivity. Qed.

Lemma to_lower_idem (s : string) : to_lower (to_lower s) = to_lower s.
Proof. induction s as [|c s IH]; simpl; [done|]. by rewrite lower_ascii_idem, IH. Qed.

#[export] Hint Resolve includes_empty includes_refl : nb.
#[export] Hint Rewrite to_lower_idem : nb_rw.

Example to_lower_ex : to_lower "Data STRUCTURES 101" = "data structures 101"%string.
Proof. reflexivity. Qed.

Example includes_ex : includes (to_lower "Operating Systems") "sys" = true.
Proof. reflexivity. Qed.

Example trim_ex : trim "  Algorithms	 " = "Algorithms"%string.
Proof. reflexivity. Qed.
