(* ===== verification/JsNumber.v ===== *)
(** * JsNumber: printing an integer and [parseInt]

    A note's id is the number [Date.now()] gave it.  NoteCard.jsx prints
    it into its link ([`/notes/${note.id}`]), the router hands the text
    back to NoteDetails.jsx as [useParams().id], and NotesContext.jsx
    compares every stored id with [parseInt(id)].  This file models the
    two conversions of the JavaScript runtime the round trip goes
    through:
    - [number_to_string]: [Number::toString] on an integer, through the
      Standard Library's decimal representation ([Z.to_int]) and
      [DecimalString.NilEmpty.string_of_int];
    - [parseInt]: ECMAScript's [parseInt(string)] without a radix, step
      by step: leading white space ([trim_start] of [JsString]), an
      optional sign, the [0x]/[0X] prefix that selects radix 16, then the
      longest prefix of digits of the radix; no digit at all is [NaN]
      ([None]).
    Numbers are exact integers: this is the behaviour of the runtime
    below [2^53], which the ids of [Date.now()] are. *)

From S2P Require Import Prelude JsString.
From Stdlib Require Import Ascii String DecimalString DecimalPos DecimalZ.

(** [String(n)] and [`${n}`] for an integer [n]. *)
Definition number_to_string (z : Z) : string :=
  NilEmpty.string_of_int (Z.to_int z).

(** The value of a character as a digit: [0-9], then [a-z] and [A-Z]
    from 10 to 35. *)
Definition digit_value (c : ascii) : option Z :=
  let n := Z.of_nat (nat_of_ascii c) in
  if (48 <=? n) && (n <=? 57) then Some (n - 48)
  else if (65 <=? n) && (n <=? 90) then Some (n - 55)
  else if (97 <=? n) && (n <=? 122) then Some (n - 87)
  else None.

Definition radix_digit (R : Z) (c : ascii) : option Z :=
  match digit_value c with
  | Some d => if d <? R then Some d else None
  | None => None
  end.

(** The longest prefix of [s] made of digits of radix [R], as values. *)
Fixpoint scan_digits (R : Z) (s : string) : list Z :=
  match s with
  | EmptyString => []
  | String c s' =>
    match radix_digit R c with
    | Some d => d :: scan_digits R s'
    | None => []
    end
  end.

Definition digits_value (R : Z) (ds : list Z) : Z :=
  fold_left (fun acc d => acc * R + d) ds 0.

(** Steps 4-5 of the algorithm: a leading [-] makes the sign negative,
    a leading [+] or [-] is removed. *)
Definition parse_sign (s : string) : Z * string :=
  match s with
  | String c s' =>
    if Ascii.eqb c "-" then (-1, s')
    else if Ascii.eqb c "+" then (1, s')
    else (1, s)
  | EmptyString => (1, s)
  end.

(** Steps 8-10 without a radix argument: [0x] or [0X] selects radix 16
    and is removed, otherwise the radix is 10. *)
Definition parse_radix (s : string) : Z * string :=
  match s with
  | String c (String x s') =>
    if Ascii.eqb c "0" && (Ascii.eqb x "x" || Ascii.eqb x "X") then (16, s') else (10, s)
  | _ => (10, s)
  end.

(** Steps 11-16: the longest prefix of digits of the radix, [NaN] when
    there is none, otherwise its value. *)
Definition parse_digits (s : string) : option Z :=
  let '(R, s2) := parse_radix s in
  match scan_digits R s2 with
  | [] => None
  | ds => Some (digits_value R ds)
  end.

(** [parseInt(s)]: [None] is [NaN].  [-0] is [0]: the code only compares
    the result with [===], for which they are equal. *)
Definition parseInt (s : string) : option Z :=
  let '(sign, s1) := parse_sign (trim_start s) in
  Z.mul sign <$> parse_digits s1.

(** ** The digits of a printed number *)

Lemma scan_digits_cons (R : Z) (c : ascii) (s : string) (d : Z) :
  radix_digit R c = Some d -> scan_digits R (String c s) = d :: scan_digits R s.
Proof. intros Hc. cbn [scan_digits]. by rewrite Hc. Qed.

(** Evaluates the value of the concrete digit [scan_digits] produced. *)
Ltac eval_digit :=
  match goal with
  | |- context [Z.of_nat ?x - 48] =>
    let v := eval vm_compute in (Z.of_nat x - 48) in change (Z.of_nat x - 48) with v
  end.

Lemma scan_uint_acc (u : Decimal.uint) (t : string) (acc : positive) :
  scan_digits 10 t = [] ->
  fold_left (fun a d => a * 10 + d) (scan_digits 10 (NilEmpty.string_of_uint u ++ t)) (Zpos acc) =
  Zpos (Pos.of_uint_acc u acc).
Proof.
  intros Ht. revert acc.
  induction u; intros acc; cbn [NilEmpty.string_of_uint Pos.of_uint_acc];
    [change (EmptyString ++ t)%string with t; by rewrite Ht|..];
    rewrite string_app_cons; erewrite scan_digits_cons by reflexivity; cbn [fold_left];
    rewrite <- IHu; f_equal; eval_digit; lia.
Qed.

Lemma scan_uint (u : Decimal.uint) (t : string) :
  scan_digits 10 t = [] ->
  digits_value 10 (scan_digits 10 (NilEmpty.string_of_uint u ++ t)) = Z.of_uint u.
Proof.
  intros Ht. unfold digits_value, Z.of_uint.
  induction u; cbn [NilEmpty.string_of_uint Pos.of_uint];
    [change (EmptyString ++ t)%string with t; by rewrite Ht|..];
    rewrite string_app_cons; erewrite scan_digits_cons by reflexivity; cbn [fold_left];
    [rewrite <- IHu; reflexivity|..]; cbn [Z.of_N]; rewrite <- (scan_uint_acc _ t) by done; reflexivity.
Qed.

(** Printed without leading zeros: [Pos.to_uint] starts with a nonzero
    digit. *)
Lemma nzhead_not_D0 (d x : Decimal.uint) : Decimal.nzhead d <> Decimal.D0 x.
Proof. induction d; simpl; congruence. Qed.

Lemma to_uint_head (p : positive) (d : Decimal.uint) : Pos.to_uint p <> Decimal.D0 d.
Proof.
  intros H. pose proof (Unsigned.of_to p) as E1. rewrite H in E1. cbn [Pos.of_uint] in E1.
  pose proof (Unsigned.to_of d) as E2. rewrite E1 in E2. cbn [N.to_uint] in E2. rewrite H in E2.
  unfold Decimal.unorm in E2. pose proof (nzhead_not_D0 d) as Hn.
  destruct (Decimal.nzhead d); try discriminate; [|by edestruct Hn].
  injection E2 as ->. by apply (Unsigned.to_uint_nonzero p).
Qed.

Lemma parse_prefix_uint (u : Decimal.uint) (t : string) :
  u <> Decimal.Nil ->
  parse_sign (trim_start (NilEmpty.string_of_uint u ++ t)) = (1, NilEmpty.string_of_uint u ++ t)%string.
Proof. destruct u; [done|..]; intros _; cbn [NilEmpty.string_of_uint]; by rewrite string_app_cons. Qed.

Lemma parse_digits_uint (u : Decimal.uint) (t : string) :
  u <> Decimal.Nil -> scan_digits 10 t = [] ->
  (forall d, u <> Decimal.D0 d) \/ t = EmptyString ->
  parse_digits (NilEmpty.string_of_uint u ++ t) = Some (Z.of_uint u).
Proof.
  intros Hu Ht Hh. unfold parse_digits.
  assert (parse_radix (NilEmpty.string_of_uint u ++ t) = (10, NilEmpty.string_of_uint u ++ t)%string) as ->.
  { destruct u as [|u|u|u|u|u|u|u|u|u|u]; [done| |..];
      cbn [NilEmpty.string_of_uint]; rewrite string_app_cons; unfold parse_radix;
      [|destruct (_ ++ t)%string; reflexivity ..].
    destruct Hh as [Hh | ->]; [by edestruct Hh|]. rewrite string_app_nil_r.
    destruct u; reflexivity. }
  rewrite <- (scan_uint u t Ht).
  destruct u; [done|..]; cbn [NilEmpty.string_of_uint]; rewrite string_app_cons;
    erewrite scan_digits_cons by reflexivity; reflexivity.
Qed.

Lemma parse_sign_minus (s : string) : parse_sign (trim_start (String "-" s)) = (-1, s).
Proof. reflexivity. Qed.

Lemma parse_digits_pos (p : positive) (t : string) :
  scan_digits 10 t = [] ->
  parse_digits (NilEmpty.string_of_uint (Pos.to_uint p) ++ t) = Some (Zpos p).
Proof.
  intros Ht. rewrite parse_digits_uint; [|apply Unsigned.to_uint_nonnil|done|left; apply to_uint_head].
  unfold Z.of_uint. by rewrite Unsigned.of_to.
Qed.

(** What [parseInt] reads back from a printed integer followed by a text
    [t] that does not start with a decimal digit ([0] alone is followed by
    nothing, lest [t] start with [x]). *)
Lemma parseInt_number_app (z : Z) (t : string) :
  scan_digits 10 t = [] -> z <> 0 \/ t = EmptyString ->
  parseInt (number_to_string z ++ t) = Some z.
Proof.
  intros Ht Hz. unfold parseInt, number_to_string.
  destruct z as [|p|p]; cbn [Z.to_int NilEmpty.string_of_int].
  - by destruct Hz as [Hz | ->].
  - rewrite parse_prefix_uint by apply Unsigned.to_uint_nonnil. by rewrite parse_digits_pos.
  - rewrite string_app_cons, parse_sign_minus. by rewrite parse_digits_pos.
Qed.

(** ** Properties *)

(** printing an integer and reading it back with [parseInt] gives
    the integer: the id a NoteCard puts in its link is the id
    NotesContext's [getNoteById] looks for. *)
Theorem parseInt_number_to_string (z : Z) : parseInt (number_to_string z) = Some z.
Proof.
  rewrite <- (string_app_nil_r (number_to_string z)).
  apply parseInt_number_app; [done|destruct (Z.eq_dec z 0); [right|left]; done].
Qed.

Example parseInt_ex :
  map parseInt [" 12"; "-42abc"; "0x1A"; "abc"; ""; "-"; "+7"; "12.5"; "undefined"]%string =
  [Some 12; Some (-42); Some 26; None; None; None; Some 7; Some 12; None].
Proof. vm_compute. reflexivity. Qed.

Example number_to_string_ex :
  (number_to_string 1731000000000, number_to_string 0, number_to_string (-5)) =
  ("1731000000000", "0", "-5")%string.
Proof. reflexivity. Qed.
