(* ===== verification/JsSort.v ===== *)
(** * JsSort: [Array.prototype.sort] with a comparator

    ECMAScript (since 2019) requires [sort] to be stable; for a
    consistent comparator the result is then unique, and a stable
    insertion sort computes it.  [js_sort cmp l] inserts the elements of
    [l] in order, each one before the first element it compares strictly
    below ([cmp x y < 0]), hence after every element it ties with.  For an
    inconsistent comparator (the one of [searchNotes], which never
    answers 0) the order is implementation-defined and [js_sort] is one
    admissible implementation.

    The comparators of [fetchNotes], [getMyNotes] and [getLikedNotes]
    are [(a, b) => new Date(b.t) - new Date(a.t)]: [by_key_desc]. *)

From S2P Require Import Prelude.

Section Sort.
  Context {A : Type}.
  Implicit Types (cmp : A -> A -> Z) (l : list A).

Fixpoint sort_insert cmp (x : A) l : list A :=
    match l with
    | [] => [x]
    | y :: l' => if cmp x y <? 0 then x :: l else y :: sort_insert cmp x l'
    end.

Definition js_sort cmp l : list A :=
    fold_left (fun acc x => sort_insert cmp x acc) l [].

  (** [(a, b) => key(b) - key(a)]: most recent first. *)
Definition by_key_desc (key : A -> Z) : A -> A -> Z := fun a b => key b - key a.

Lemma sort_insert_perm cmp x l : Permutation (sort_insert cmp x l) (x :: l).
  Proof.
    induction l as [|y l IH]; simpl; [done|].
    destruct (cmp x y <? 0); [done|].
    rewrite IH. apply perm_swap.
  Qed.

Lemma js_sort_acc_perm cmp l acc :
    Permutation (fold_left (fun acc x => sort_insert cmp x acc) l acc) (rev l ++ acc).
  Proof.
    revert acc; induction l as [|x l IH]; intros acc; simpl; [done|].
    rewrite IH, sort_insert_perm, <- app_assoc. simpl.
    done.
  Qed.

  (** [sort] reorders: it neither drops nor duplicates elements. *)
(** The sort sees its comparator only through its answers. *)
Lemma js_sort_ext cmp1 cmp2 l :
  (forall x y, cmp1 x y = cmp2 x y) -> js_sort cmp1 l = js_sort cmp2 l.
Proof.
  intros Hc. unfold js_sort. generalize (@nil A) as acc.
  assert (forall x acc, sort_insert cmp1 x acc = sort_insert cmp2 x acc) as Hi.
  { intros x acc. induction acc as [|y acc IH]; simpl; [done|]. by rewrite Hc, IH. }
  induction l as [|x l IH]; intros acc; simpl; [done|]. by rewrite Hi, IH.
Qed.

Lemma js_sort_perm cmp l : Permutation (js_sort cmp l) l.
  Proof. unfold js_sort. rewrite js_sort_acc_perm, app_nil_r. symmetry. apply Permutation_rev. Qed.

Lemma js_sort_length cmp l : length (js_sort cmp l) = length l.
  Proof. apply Permutation_length, js_sort_perm. Qed.

Lemma js_sort_In cmp l x : In x (js_sort cmp l) <-> In x l.
  Proof. split; apply Permutation_in; [|symmetry]; apply js_sort_perm. Qed.

  Section KeyOrder.
    Variable key : A -> Z.
Let desc := by_key_desc key.
Let R (a b : A) : Prop := key b <= key a.

    (** A comparator that puts [x] before [y] ([cmp x y < 0]) only when
        [key y <= key x], and after it only when [key x <= key y]. *)
    Section Monotone.
      Variable cmp : A -> A -> Z.
      Hypothesis cmp_before : forall x y, cmp x y < 0 -> key y <= key x.
      Hypothesis cmp_after : forall x y, 0 <= cmp x y -> key x <= key y.

Lemma sort_insert_sorted_gen x l :
        Sorted R l -> Sorted R (sort_insert cmp x l).
      Proof.
        induction 1 as [|y l Hl IH Hhd]; simpl; [repeat constructor|].
        destruct (Z.ltb_spec (cmp x y) 0) as [Hlt|Hge].
        - constructor; [by constructor|]. constructor. by apply cmp_before.
        - constructor; [done|]. destruct l as [|z l]; simpl.
          + constructor. by apply cmp_after.
          + inversion Hhd; subst. destruct (Z.ltb_spec (cmp x z) 0);
              constructor; [by apply cmp_after|done].
      Qed.

Lemma js_sort_sorted_gen l : Sorted R (js_sort cmp l).
      Proof.
        unfold js_sort. generalize (@nil A) (Sorted_nil R).
        induction l as [|x l IH]; intros acc Hacc; simpl; [done|].
        apply IH, sort_insert_sorted_gen, Hacc.
      Qed.
    End Monotone.

    (** With the comparator of [fetchNotes], the result is ordered by
        decreasing key. *)
Lemma js_sort_sorted l : Sorted R (js_sort desc l).
    Proof. apply js_sort_sorted_gen; unfold desc, by_key_desc; intros; lia. Qed.

Lemma sort_insert_sorted x l :
      Sorted R l -> Sorted R (sort_insert desc x l).
    Proof. apply sort_insert_sorted_gen; unfold desc, by_key_desc; intros; lia. Qed.

Definition same_key (k : Z) (a : A) : bool := key a =? k.

    (** Inserting [x] keeps the elements of [x]'s key in their order,
        with [x] after them. *)
Lemma sort_insert_stable x l k :
      Sorted R l ->
      List.filter (same_key k) (sort_insert desc x l) =
      if same_key k x then List.filter (same_key k) l ++ [x]
      else List.filter (same_key k) l.
    Proof.
      unfold same_key, desc, by_key_desc.
      induction 1 as [|y l Hl IH Hhd]; simpl; [by destruct (key x =? k)|].
      destruct (Z.ltb_spec (key y - key x) 0) as [Hlt|Hge]; simpl.
      - destruct (Z.eqb_spec (key x) k), (Z.eqb_spec (key y) k); try lia; simpl; try done.
        rewrite filter_all_false; [done|].
        intros z Hz. apply Z.eqb_neq.
        assert (Hall : Forall (R y) l) by (apply Sorted_extends; [intros ? ? ?; unfold R; lia|]; by constructor).
        rewrite List.Forall_forall in Hall. specialize (Hall z Hz). unfold R in Hall. lia.
      - rewrite IH. destruct (key y =? k), (key x =? k); simpl; done.
    Qed.

Lemma js_sort_acc_stable l acc k :
      Sorted R acc ->
      List.filter (same_key k) (fold_left (fun acc x => sort_insert desc x acc) l acc) =
      List.filter (same_key k) acc ++ List.filter (same_key k) l.
    Proof.
      revert acc; induction l as [|x l IH]; intros acc Hacc; simpl; [by rewrite app_nil_r|].
      rewrite IH by (by apply sort_insert_sorted).
      rewrite sort_insert_stable by done.
      destruct (same_key k x); simpl; [by rewrite <- app_assoc|done].
    Qed.

    (** Stability: the elements of one key appear in the order they had
        in the input. *)
Lemma js_sort_stable l k :
      List.filter (same_key k) (js_sort desc l) = List.filter (same_key k) l.
    Proof. unfold js_sort. rewrite js_sort_acc_stable; [done|constructor]. Qed.
  End KeyOrder.
End Sort.

#[export] Hint Resolve js_sort_perm js_sort_sorted : nb.

Example js_sort_ex :
  js_sort (by_key_desc fst) [(1, "a"); (3, "b"); (1, "c"); (2, "d")]%string =
  [(3, "b"); (2, "d"); (1, "a"); (1, "c")]%string.
Proof. reflexivity. Qed.

(** A comparator that always answers "before" reverses the array.  This
    is the insertion sort's choice: for such an inconsistent comparator
    ECMAScript leaves the order to the engine, so no theorem about the
    program relies on it. *)
Lemma js_sort_always_before {A} (cmp : A -> A -> Z) (l : list A) :
  (forall x y, cmp x y < 0) -> js_sort cmp l = rev l.
Proof.
  intros Hc. unfold js_sort.
  assert (Hacc : forall acc, fold_left (fun acc x => sort_insert cmp x acc) l acc = rev l ++ acc).
  { induction l as [|x l IH]; intros acc; simpl; [done|].
    rewrite IH, <- app_assoc. f_equal. destruct acc as [|y acc]; simpl; [done|].
    by rewrite (proj2 (Z.ltb_lt _ _) (Hc x y)). }
  by rewrite Hacc, app_nil_r.
Qed.
