(* ===== verification/Store.v ===== *)
(** * Store: the records kept in [localStorage] and the application state

    Both React contexts read and write one [localStorage]: the keys
    [notesBuddy_notes], [notesBuddy_likes], [notesBuddy_users] (JSON
    arrays, read as [JSON.parse(getItem(k) || '[]')], so a missing key
    is the empty array) and [notesBuddy_currentUser] (a JSON object or
    absent).  [storage] holds the four values already parsed; the JSON
    encoding of these flat records is not modelled.  Times
    ([Date.now()], [new Date().toISOString()]) are the millisecond value
    of the [Date], a [Z].

    [app] is the whole state: the storage shared by the two providers
    and the React state each provider keeps ([NotesProvider]: [notes],
    [loading], [pagination]; [AuthProvider]: [user], [loading],
    [isAuthenticated]). *)

From S2P Require Import Prelude.

(** A user as [register] stores it (AuthContext.jsx). *)
Record user := mkUser {
  uid : Z; name : string; email : string; password : string; createdAt : Z
}.

(** The current user, stored without its password. *)
Record session_user := mkSession {
  su_id : Z; su_name : string; su_email : string; su_createdAt : Z
}.

(** [const userWithoutPassword = { ...newUser }; delete userWithoutPassword.password]. *)
Definition without_password (u : user) : session_user :=
  mkSession (uid u) (name u) (email u) (createdAt u).

(** A note as [uploadNote] builds it (NotesContext.jsx). *)
Record note := mkNote {
  nid : Z; title : string; description : string; schoolName : string;
  disciplineName : string; subject : string; semester : string;
  filePath : string; fileName : string; uploadedBy : Z; uploaderName : string;
  isPrivate : bool; downloads : Z; viewCount : Z; likeCount : Z; uploadedAt : Z
}.

(** A like as [likeNote] builds it. *)
Record like := mkLike { lid : Z; userId : Z; noteId : Z; likedAt : Z }.

Record storage := mkStorage {
  notesBuddy_notes : list note;
  notesBuddy_likes : list like;
  notesBuddy_users : list user;
  notesBuddy_currentUser : option session_user
}.

(** The empty store, as both providers' [useEffect] initialise it. *)
Definition init_storage : storage := mkStorage [] [] [] None.

Definition set_notes (ns : list note) (s : storage) : storage :=
  mkStorage ns (notesBuddy_likes s) (notesBuddy_users s) (notesBuddy_currentUser s).
Definition set_likes (ls : list like) (s : storage) : storage :=
  mkStorage (notesBuddy_notes s) ls (notesBuddy_users s) (notesBuddy_currentUser s).
Definition set_users (us : list user) (s : storage) : storage :=
  mkStorage (notesBuddy_notes s) (notesBuddy_likes s) us (notesBuddy_currentUser s).
Definition set_current (cu : option session_user) (s : storage) : storage :=
  mkStorage (notesBuddy_notes s) (notesBuddy_likes s) (notesBuddy_users s) cu.

(** Field assignments [note.f = v] of the code. *)
Definition set_viewCount (v : Z) (n : note) : note :=
  mkNote (nid n) (title n) (description n) (schoolName n) (disciplineName n)
    (subject n) (semester n) (filePath n) (fileName n) (uploadedBy n)
    (uploaderName n) (isPrivate n) (downloads n) v (likeCount n) (uploadedAt n).
Definition set_downloads (v : Z) (n : note) : note :=
  mkNote (nid n) (title n) (description n) (schoolName n) (disciplineName n)
    (subject n) (semester n) (filePath n) (fileName n) (uploadedBy n)
    (uploaderName n) (isPrivate n) v (viewCount n) (likeCount n) (uploadedAt n).
Definition set_likeCount (v : Z) (n : note) : note :=
  mkNote (nid n) (title n) (description n) (schoolName n) (disciplineName n)
    (subject n) (semester n) (filePath n) (fileName n) (uploadedBy n)
    (uploaderName n) (isPrivate n) (downloads n) (viewCount n) v (uploadedAt n).
Definition set_isPrivate (v : bool) (n : note) : note :=
  mkNote (nid n) (title n) (description n) (schoolName n) (disciplineName n)
    (subject n) (semester n) (filePath n) (fileName n) (uploadedBy n)
    (uploaderName n) v (downloads n) (viewCount n) (likeCount n) (uploadedAt n).
Definition set_uploaderName (v : string) (n : note) : note :=
  mkNote (nid n) (title n) (description n) (schoolName n) (disciplineName n)
    (subject n) (semester n) (filePath n) (fileName n) (uploadedBy n)
    v (isPrivate n) (downloads n) (viewCount n) (likeCount n) (uploadedAt n).

(** ** React state of the providers *)

Record pagination := mkPagination {
  currentPage : Z; totalPages : Z; itemsPerPage : Z; totalItems : Z
}.

(** A note as the handlers return it: the note's own fields (with
    [uploaderName] possibly filled in) plus [userName], [userEmail] and,
    for some handlers, [isLiked]. *)
Record note_view := mkView {
  v_note : note; userName : string; userEmail : string; isLiked : option bool
}.

Record notes_provider := mkNotesProvider {
  pv_notes : list note_view; pv_loading : bool; pv_pagination : pagination
}.

(** [useState([])], [useState(false)], [useState({1, 1, 20, 0})]. *)
Definition init_notes_provider : notes_provider :=
  mkNotesProvider [] false (mkPagination 1 1 20 0).

Record auth_provider := mkAuthProvider {
  au_user : option session_user; au_loading : bool; au_isAuthenticated : bool
}.

Definition init_auth_provider : auth_provider := mkAuthProvider None true false.

Record app := mkApp {
  store : storage; notes_pv : notes_provider; auth_pv : auth_provider
}.

Definition set_store (s : storage) (a : app) : app := mkApp s (notes_pv a) (auth_pv a).
Definition set_notes_pv (p : notes_provider) (a : app) : app := mkApp (store a) p (auth_pv a).
Definition set_auth_pv (p : auth_provider) (a : app) : app := mkApp (store a) (notes_pv a) p.

Definition set_loading (b : bool) (p : notes_provider) : notes_provider :=
  mkNotesProvider (pv_notes p) b (pv_pagination p).

(** ** Decidable equality, so that [decide] and [simplify_eq] apply *)

#[export] Instance user_eq_dec : EqDecision user.
Proof. solve_decision. Defined.
#[export] Instance session_user_eq_dec : EqDecision session_user.
Proof. solve_decision. Defined.
#[export] Instance note_eq_dec : EqDecision note.
Proof. solve_decision. Defined.
#[export] Instance like_eq_dec : EqDecision like.
Proof. solve_decision. Defined.

(** ** Lookups shared by the handlers *)

(** [getCurrentUser()]. *)
Definition getCurrentUser (s : storage) : option session_user := notesBuddy_currentUser s.

(** [getUserById(userId)]: [users.find(u => u.id === userId)]. *)
Definition getUserById (s : storage) (userId : Z) : option user :=
  List.find (fun u => uid u =? userId) (notesBuddy_users s).

(** [currentUser && note.uploadedBy === currentUser.id]. *)
Definition owned_by (cu : option session_user) (n : note) : bool :=
  match cu with Some u => uploadedBy n =? su_id u | None => false end.

(** [!note.isPrivate || (currentUser && note.uploadedBy === currentUser.id)]. *)
Definition can_view (cu : option session_user) (n : note) : bool :=
  negb (isPrivate n) || owned_by cu n.

Lemma set_notes_notes ns s : notesBuddy_notes (set_notes ns s) = ns.
Proof. reflexivity. Qed.
Lemma set_notes_likes ns s : notesBuddy_likes (set_notes ns s) = notesBuddy_likes s.
Proof. reflexivity. Qed.
Lemma set_likes_notes ls s : notesBuddy_notes (set_likes ls s) = notesBuddy_notes s.
Proof. reflexivity. Qed.
Lemma set_likes_likes ls s : notesBuddy_likes (set_likes ls s) = ls.
Proof. reflexivity. Qed.

#[export] Hint Rewrite set_notes_notes set_notes_likes set_likes_notes set_likes_likes : nb_rw.
