(* ===== verification/Paging.v ===== *)
(** * Paging: [calculatePagination] and the [Pagination] component

    [calculatePagination(allNotes, page, limit)] (NotesContext.jsx)
    cuts one page out of a sorted list with [slice] and reports the page
    counts; [Pagination] (components/Pagination.jsx) computes the window
    of at most five page buttons around the current page.  [limit] is a
    [positive]: every caller passes the default 20.

    The page loop [for (let i = startPage; i <= endPage; i++)] is
    [push_pages], defined with Equations by well-founded recursion on the
    number of iterations left, [endPage - i + 1]; [clickable_pages] are
    the page numbers the component's buttons hand to [onPageChange]. *)

From Equations Require Import Equations.
From S2P Require Import Prelude Store.

Section CalculatePagination.
  Context {A : Type}.

  (** [Math.ceil(totalItems / limit)] for a positive [limit]. *)
Definition ceil_div (n : Z) (d : positive) : Z := (n + Z.pos d - 1) / Z.pos d.

Definition calculatePagination (allNotes : list A) (page : Z) (limit : positive)
      : list A * pagination :=
    let totalItems := Z.of_nat (length allNotes) in
    let totalPages := ceil_div totalItems limit in
    let startIndex := (page - 1) * Z.pos limit in
    let endIndex := startIndex + Z.pos limit in
    let paginatedNotes := slice allNotes startIndex endIndex in
    (paginatedNotes, mkPagination page totalPages (Z.pos limit) totalItems).

Definition page_of (l : list A) (page : Z) (limit : positive) : list A :=
    fst (calculatePagination l page limit).

Lemma page_of_take_drop l page limit :
    1 <= page ->
    page_of l page limit =
      take (Pos.to_nat limit) (drop (Z.to_nat ((page - 1) * Z.pos limit)) l).
  Proof.
    intros Hp. unfold page_of, calculatePagination. simpl.
    rewrite slice_nonneg by nia. f_equal. lia.
  Qed.

Lemma concat_pages l (limit : positive) (N : nat) :
    concat (map (fun i => page_of l (Z.of_nat i + 1) limit) (seq 0 N)) =
    take (N * Pos.to_nat limit) l.
  Proof.
    induction N as [|N IH]; [by rewrite take_0|].
    rewrite seq_S, map_app, concat_app, IH. cbn [map concat]. rewrite app_nil_r.
    rewrite page_of_take_drop by lia.
    replace (S N * Pos.to_nat limit)%nat with (N * Pos.to_nat limit + Pos.to_nat limit)%nat by lia.
    replace (Z.to_nat ((Z.of_nat (0 + N) + 1 - 1) * Z.pos limit)) with (N * Pos.to_nat limit)%nat by lia.
    by rewrite take_add_drop.
  Qed.
Lemma ceil_div_bounds (n : Z) (d : positive) :
    0 <= n -> ceil_div n d * Z.pos d - Z.pos d < n <= ceil_div n d * Z.pos d.
  Proof.
    intros Hn. unfold ceil_div.
    pose proof (Z.div_mod (n + Z.pos d - 1) (Z.pos d) ltac:(lia)).
    pose proof (Z.mod_pos_bound (n + Z.pos d - 1) (Z.pos d) ltac:(lia)). lia.
  Qed.

Lemma length_slice_le (l : list A) (s e : Z) :
    s <= e -> Z.of_nat (length (slice l s e)) <= e - s.
  Proof.
    intros H. unfold slice, rel_index. rewrite length_take, length_drop.
    destruct (Z.ltb_spec s 0), (Z.ltb_spec e 0); lia.
  Qed.

  (** A page that holds a note exists: it is at most [totalPages]. *)
Lemma calculatePagination_nonempty (l : list A) (page : Z) (limit : positive) :
    1 <= page -> fst (calculatePagination l page limit) <> [] ->
    page <= totalPages (snd (calculatePagination l page limit)).
  Proof.
    intros Hp Hne. simpl in *. unfold slice, rel_index in Hne.
    pose proof (ceil_div_bounds (Z.of_nat (length l)) limit ltac:(lia)) as Hc.
    destruct (Z.ltb_spec ((page - 1) * Z.pos limit) 0); [nia|].
    destruct (Z.ltb_spec ((page - 1) * Z.pos limit + Z.pos limit) 0); [nia|].
    assert ((page - 1) * Z.pos limit < Z.of_nat (length l)) as Hlt.
    { destruct (Z.lt_ge_cases ((page - 1) * Z.pos limit) (Z.of_nat (length l))) as [|Hge]; [done|].
      exfalso. apply Hne. rewrite drop_ge; [by rewrite take_nil|lia]. }
    nia.
  Qed.
End CalculatePagination.

(** The window of [Pagination]: [None] is its [return null]. *)
Record page_controls := mkControls {
  startPage : Z; endPage : Z; pages : list Z;
  prevDisabled : bool; nextDisabled : bool;
  showFirst : bool; leftEllipsis : bool; showLast : bool; rightEllipsis : bool
}.

Definition maxPagesToShow : Z := 5.

(** The loop [for (let i = startPage; i <= endPage; i++) pages.push(i)]. *)
Equations push_pages (i stop : Z) (acc : list Z) : list Z by wf (Z.to_nat (stop - i + 1)) lt :=
push_pages i stop acc with Z_le_gt_dec i stop := {
  | left _ => push_pages (i + 1) stop (acc ++ [i]);
  | right _ => acc }.
Next Obligation. lia. Qed.

Definition page_range (s e : Z) : list Z := push_pages s e [].

Definition pagination_controls (currentPage totalPages : Z) : option page_controls :=
  if totalPages <=? 1 then None else
  let startPage0 := Z.max 1 (currentPage - maxPagesToShow / 2) in
  let endPage := Z.min totalPages (startPage0 + maxPagesToShow - 1) in
  let startPage :=
    if endPage - startPage0 <? maxPagesToShow - 1
    then Z.max 1 (endPage - maxPagesToShow + 1) else startPage0 in
  Some (mkControls startPage endPage (page_range startPage endPage)
          (currentPage =? 1) (currentPage =? totalPages)
          (1 <? startPage) (2 <? startPage)
          (endPage <? totalPages) (endPage <? totalPages - 1)).

(** On a narrow screen only the current page and its neighbours are drawn. *)
Definition drawn_pages (isMobile : bool) (currentPage : Z) (c : page_controls) : list Z :=
  List.filter (fun p => negb (isMobile && (1 <? Z.abs (p - currentPage)))) (pages c).

(** The numbers the buttons pass to [onPageChange]: Previous (unless
    disabled), the first page and the last page (rendered [hidden
    sm:block], so not on a narrow screen), the drawn page buttons, and
    Next (unless disabled). *)
Definition clickable_pages (isMobile : bool) (currentPage totalPages : Z) : list Z :=
  match pagination_controls currentPage totalPages with
  | None => []
  | Some c =>
    (if prevDisabled c then [] else [currentPage - 1]) ++
    (if negb isMobile && showFirst c then [1] else []) ++
    drawn_pages isMobile currentPage c ++
    (if negb isMobile && showLast c then [totalPages] else []) ++
    (if nextDisabled c then [] else [currentPage + 1])
  end.

(** The loop pushes [i, i+1, ..., endPage] after what [pages] holds. *)
Lemma push_pages_spec i e acc : push_pages i e acc = acc ++ seqZ i (e - i + 1).
Proof.
  funelim (push_pages i e acc).
  - match goal with H : _ = _ ++ seqZ _ _ |- _ => rewrite H end.
    rewrite <- app_assoc. f_equal. rewrite (seqZ_cons i (stop - i + 1)) by lia. simpl.
    do 2 f_equal. lia.
  - rewrite seqZ_nil by lia. by rewrite app_nil_r.
Qed.

Lemma page_range_seqZ (s e : Z) : page_range s e = seqZ s (e - s + 1).
Proof. unfold page_range. by rewrite push_pages_spec. Qed.

Lemma page_range_In (s e p : Z) : In p (page_range s e) <-> s <= p <= e.
Proof. rewrite page_range_seqZ, <- list_elem_of_In, elem_of_seqZ. lia. Qed.

Lemma length_page_range (s e : Z) : s <= e -> Z.of_nat (length (page_range s e)) = e - s + 1.
Proof. intros H. rewrite page_range_seqZ, length_seqZ. lia. Qed.

(** ** Properties of [calculatePagination] *)

Section PaginationProps.
  Context {A : Type}.

  (** every page holds at most [limit] notes, whatever page is asked. *)
Lemma calculatePagination_page_length (l : list A) (page : Z) (limit : positive) :
    Z.of_nat (length (fst (calculatePagination l page limit))) <= Z.pos limit.
  Proof.
    unfold calculatePagination. simpl.
    pose proof (length_slice_le l ((page - 1) * Z.pos limit) ((page - 1) * Z.pos limit + Z.pos limit)). lia.
  Qed.

  (** C34: [totalPages] is the least number of pages of [limit] notes
      that hold all [totalItems] notes. *)
Theorem calculatePagination_totalPages (l : list A) (page : Z) (limit : positive) :
    let pg := snd (calculatePagination l page limit) in
    totalItems pg = Z.of_nat (length l) /\
    totalPages pg * Z.pos limit - Z.pos limit < totalItems pg <= totalPages pg * Z.pos limit.
  Proof. simpl. split; [done|]. apply ceil_div_bounds. lia. Qed.

  (** C33: pages [1 .. totalPages], concatenated, give back the whole
      sorted list: nothing is lost or repeated between pages. *)
Theorem calculatePagination_partition (l : list A) (limit : positive) :
    let N := Z.to_nat (totalPages (snd (calculatePagination l 1 limit))) in
    concat (map (fun i => fst (calculatePagination l (Z.of_nat i + 1) limit)) (seq 0 N)) = l.
  Proof.
    simpl. rewrite (concat_pages l limit). apply take_ge.
    pose proof (ceil_div_bounds (Z.of_nat (length l)) limit ltac:(lia)).
    assert (0 <= ceil_div (Z.of_nat (length l)) limit) by (unfold ceil_div; apply Z.div_pos; lia).
    nia.
  Qed.
End PaginationProps.

(** ** Properties of the [Pagination] window *)

Lemma pagination_controls_some (currentPage totalPages : Z) :
  1 < totalPages -> 1 <= currentPage <= totalPages ->
  exists c, pagination_controls currentPage totalPages = Some c /\
    1 <= startPage c <= currentPage /\ currentPage <= endPage c <= totalPages /\
    endPage c - startPage c + 1 = Z.min maxPagesToShow totalPages /\
    pages c = page_range (startPage c) (endPage c) /\
    prevDisabled c = (currentPage =? 1) /\ nextDisabled c = (currentPage =? totalPages) /\
    In currentPage (pages c).
Proof.
  intros Ht Hc. unfold pagination_controls, maxPagesToShow.
  change (5 / 2) with 2.
  destruct (Z.leb_spec totalPages 1); [lia|].
  eexists; split; [reflexivity|]. simpl. rewrite page_range_In.
  match goal with |- context [if ?a <? ?b then _ else _] => destruct (Z.ltb_spec a b) end;
    simpl; split_and!; try reflexivity; lia.
Qed.

(** with more than one page and a current page in range, the
    component shows a window of [min 5 totalPages] consecutive pages
    that lies within [1 .. totalPages] and contains the current page. *)
Theorem pagination_controls_window (currentPage totalPages : Z) :
  1 < totalPages -> 1 <= currentPage <= totalPages ->
  exists c, pagination_controls currentPage totalPages = Some c /\
    1 <= startPage c <= currentPage /\ currentPage <= endPage c <= totalPages /\
    endPage c - startPage c + 1 = Z.min maxPagesToShow totalPages /\
    pages c = page_range (startPage c) (endPage c) /\
    In currentPage (pages c).
Proof.
  intros Ht Hc. destruct (pagination_controls_some _ _ Ht Hc) as (c & ? & ? & ? & ? & ? & _ & _ & ?).
  by exists c.
Qed.

Lemma pagination_controls_witness :
  (1 < 12 /\ 1 <= 7 <= 12) /\
  exists c, pagination_controls 7 12 = Some c /\
    1 <= startPage c <= 7 /\ 7 <= endPage c <= 12 /\
    endPage c - startPage c + 1 = Z.min maxPagesToShow 12 /\
    pages c = page_range (startPage c) (endPage c) /\ In 7 (pages c).
Proof. split; [lia|]. apply pagination_controls_window; lia. Defined.

Example calculatePagination_ex :
  calculatePagination [1; 2; 3; 4; 5]%Z 2 2 = ([3; 4]%Z, mkPagination 2 3 2 5).
Proof. reflexivity. Qed.

Example pagination_controls_ex :
  option_map pages (pagination_controls 9 10) = Some [6; 7; 8; 9; 10].
Proof. reflexivity. Qed.

(** C37: the page loop of Pagination terminates from any bounds: it runs
    [max 0 (endPage - i + 1)] iterations and pushes exactly
    [i, i + 1, ..., endPage] after what the array held. *)
Theorem push_pages_terminates (i e : Z) (acc : list Z) :
  push_pages i e acc = acc ++ seqZ i (e - i + 1) /\
  length (push_pages i e acc) = (length acc + Z.to_nat (e - i + 1))%nat.
Proof. rewrite push_pages_spec, length_app, length_seqZ. done. Qed.

Ltac click_case Hq := simpl in Hq; first [done | destruct Hq as [<-|[]]; lia].

Lemma clickable_pages_bounds (isMobile : bool) (currentPage totalPages : Z) :
  1 < totalPages -> 1 <= currentPage <= totalPages ->
  forall p, In p (clickable_pages isMobile currentPage totalPages) -> 1 <= p <= totalPages.
Proof.
  intros Ht Hc p. destruct (pagination_controls_some _ _ Ht Hc) as (c & Hpc & Hs & He & _ & Hp & Hprev & Hnext & _).
  unfold clickable_pages. rewrite Hpc, Hprev, Hnext. rewrite !in_app_iff.
  intros [Hq|[Hq|[Hq|[Hq|Hq]]]].
  - destruct (Z.eqb_spec currentPage 1); click_case Hq.
  - destruct (negb isMobile && showFirst c); click_case Hq.
  - unfold drawn_pages in Hq. apply filter_In in Hq as [Hq _]. rewrite Hp, page_range_In in Hq. lia.
  - destruct (negb isMobile && showLast c); click_case Hq.
  - destruct (Z.eqb_spec currentPage totalPages); click_case Hq.
Qed.

(** with more than one page and the current page in range, every
    page number a Pagination button hands to [onPageChange] (Previous,
    Next, first, last or a page button, on any screen) is a page that
    exists: between 1 and [totalPages]. *)
Theorem clickable_pages_in_range (isMobile : bool) (currentPage totalPages : Z) :
  1 < totalPages -> 1 <= currentPage <= totalPages ->
  forall p, In p (clickable_pages isMobile currentPage totalPages) -> 1 <= p <= totalPages.
Proof. apply clickable_pages_bounds. Qed.

Lemma clickable_pages_in_range_witness :
  Forall (fun p => 1 <= p <= 12) (clickable_pages false 12 12).
Proof. apply List.Forall_forall. apply clickable_pages_in_range; lia. Defined.

Example clickable_pages_ex : clickable_pages false 7 12 = [6; 1; 5; 6; 7; 8; 9; 12; 8].
Proof. reflexivity. Qed.
