(* ===== verification/NotesStore.v ===== *)
(** * NotesStore: the handlers of NotesContext.jsx that write the store,
    their invariant and their behaviour

    [uploadNote], [getNoteById] (which counts a view), [downloadNote],
    [deleteNote], [likeNote], [unlikeNote], [toggleNotePrivacy] and
    [updateNote], each a function [app -> ... -> app * result _] that
    follows the handler line by line: the early returns of the code are
    the [Failure]s, in the code's order; [localStorage.setItem] is a
    [set_notes]/[set_likes] on the [storage]; [setNotes]/[setLoading]
    update the [notes_provider].  The clock ([Date.now()]) is an
    argument [now].  The read of [currentUser] is [getCurrentUser] on the
    storage, as in the code (not the AuthProvider's [user]).

    After the handlers: the invariant [store_ok] and its preservation by
    every handler, the reference definitions by id ([likeNote_by_id],
    [unlikeNote_by_id], [deleteNote_by_id]) with the equivalence
    theorems, and what the handlers do, findings included. *)

From S2P Require Import Prelude JsString Store.

(** ** Inputs *)

(** The [File] given to [FileReader.readAsDataURL]: [file_dataURL] is
    what [reader.result] holds on [onload], [None] when [onerror] fires
    (the promise rejects and [uploadNote] answers ['Upload failed']). *)
Record js_file := mkFile {
  file_name : string; file_type : string; file_size : Z; file_dataURL : option string
}.

(** The [FormData] of Upload.jsx: [append] turns every value into a
    string, [isPrivate] included ([formData.get('isPrivate') === 'true']). *)
Record upload_form := mkForm {
  fd_title : string; fd_description : string; fd_schoolName : string;
  fd_disciplineName : string; fd_subject : string; fd_semester : string;
  fd_isPrivate : string; fd_file : option js_file
}.

(** The fields an [updates] object of [updateNote] may carry ([None]:
    the key is absent).  [id], [uploadedBy] and [uploadedAt] are listed
    because the code overwrites them back. *)
Record note_update := mkUpdate {
  up_id : option Z; up_title : option string; up_description : option string;
  up_schoolName : option string; up_disciplineName : option string;
  up_subject : option string; up_semester : option string;
  up_filePath : option string; up_fileName : option string;
  up_uploadedBy : option Z; up_uploaderName : option string;
  up_isPrivate : option bool; up_downloads : option Z; up_viewCount : option Z;
  up_likeCount : option Z; up_uploadedAt : option Z
}.

(** ** Helpers of the handlers *)

(** [{ ...note, uploaderName: note.uploaderName || user?.name ||
    'Anonymous', userName: (same), userEmail: user?.email || '' }]. *)
Definition with_user_info (s : storage) (n : note) : note_view :=
  let user := getUserById s (uploadedBy n) in
  let nm := uploaderName n ?|| js_or_opt (name <$> user) "Anonymous" in
  mkView (set_uploaderName nm n) nm (js_or_opt (email <$> user) "") None.

(** [n => n.id === parseInt(id)] ([id] is already the number). *)
Definition has_id (id : Z) (n : note) : bool := nid n =? id.

(** [like => like.userId === currentUser.id && like.noteId === id]. *)
Definition like_of (u : Z) (id : Z) (l : like) : bool := (userId l =? u) && (noteId l =? id).

Definition stop_loading (a : app) : app := set_notes_pv (set_loading false (notes_pv a)) a.

Definition with_store (s : storage) (a : app) : app := set_store s a.

(** ** The handlers *)

Definition uploadNote (a : app) (formData : upload_form) (now : Z) : app * result note :=
  let s := store a in
  match getCurrentUser s with
  | None => (stop_loading a, fail: "Not authenticated")
  | Some currentUser =>
    let file :=
      match fd_file formData with
      | None => Some ("", "")%string
      | Some f => (fun b64 => (b64, file_name f)) <$> file_dataURL f
      end in
    match file with
    | None => (stop_loading a, fail: "Upload failed")
    | Some (fileBase64, fileName) =>
      let allNotes := notesBuddy_notes s in
      let newNote :=
        mkNote now (fd_title formData) (fd_description formData ?|| "")
          (fd_schoolName formData) (fd_disciplineName formData)
          (fd_subject formData) (fd_semester formData) fileBase64 fileName
          (su_id currentUser) (su_name currentUser)
          (String.eqb (fd_isPrivate formData) "true") 0 0 0 now in
      (stop_loading (with_store (set_notes (allNotes ++ [newNote]) s) a), Success newNote)
    end
  end.

(** The plain object that the [handleSubmit] of CHANGES_NEEDED.js and
    UPDATE_Upload.jsx pass to [uploadNote] instead of a [FormData]. *)
Record note_data := mkNoteData {
  nd_title : string; nd_description : string; nd_schoolName : string;
  nd_disciplineName : string; nd_subject : string; nd_semester : string;
  nd_isPrivate : bool; nd_filePath : string; nd_fileName : string
}.

(** What [uploadNote(formData)] receives.  A plain object has no [get]
    method: [formData.get('file')] throws a [TypeError] once the session
    check has passed, and the [catch] answers "Upload failed". *)
Inductive upload_arg := FormDataArg (fd : upload_form) | PlainObject (o : note_data).

Definition uploadNote_arg (a : app) (arg : upload_arg) (now : Z) : app * result note :=
  match arg with
  | FormDataArg fd => uploadNote a fd now
  | PlainObject _ =>
    match getCurrentUser (store a) with
    | None => (stop_loading a, fail: "Not authenticated")
    | Some _ => (stop_loading a, fail: "Upload failed")
    end
  end.

Definition getNoteById (a : app) (id : Z) : app * result note_view :=
  let s := store a in
  let allNotes := notesBuddy_notes s in
  match List.find (has_id id) allNotes with
  | None => (stop_loading a, fail: "Note not found")
  | Some note =>
    let currentUser := getCurrentUser s in
    if isPrivate note && negb (owned_by currentUser note) then
      (stop_loading a, fail: "Unauthorized")
    else
      let note' := set_viewCount (viewCount note + 1) note in
      let allNotes' :=
        match find_index (has_id id) allNotes with
        | Some noteIndex => <[noteIndex := note']> allNotes
        | None => allNotes
        end in
      let s' := set_notes allNotes' s in
      let v := with_user_info s' note' in
      let v' :=
        match currentUser with
        | Some cu =>
          mkView (v_note v) (userName v) (userEmail v)
            (Some (existsb (like_of (su_id cu) (nid note)) (notesBuddy_likes s')))
        | None => v
        end in
      (stop_loading (with_store s' a), Success v')
  end.

(** On success the link downloads [note.filePath] as [`${title}.pdf`]:
    the pair is the handler's observable effect. *)
Definition downloadNote (a : app) (id : Z) (title : string) : app * result (string * string) :=
  let s := store a in
  match getCurrentUser s with
  | None => (a, Failure "Not authenticated" (Some 401))
  | Some currentUser =>
    let allNotes := notesBuddy_notes s in
    match find_index (has_id id) allNotes with
    | None => (a, fail: "Note not found")
    | Some noteIndex =>
      match allNotes !! noteIndex with
      | None => (a, fail: "Note not found")
      | Some note =>
        if isPrivate note && negb (uploadedBy note =? su_id currentUser) then
          (a, fail: "Unauthorized")
        else
          let allNotes' := update_at noteIndex (fun n => set_downloads (downloads n + 1) n) allNotes in
          (with_store (set_notes allNotes' s) a,
           Success (filePath note, title ++ ".pdf")%string)
      end
    end
  end.

Definition deleteNote (a : app) (id : Z) : app * result unit :=
  let s := store a in
  match getCurrentUser s with
  | None => (a, fail: "Not authenticated")
  | Some currentUser =>
    let allNotes := notesBuddy_notes s in
    match find_index (has_id id) allNotes with
    | None => (a, fail: "Note not found")
    | Some noteIndex =>
      match allNotes !! noteIndex with
      | None => (a, fail: "Note not found")
      | Some note =>
        if negb (uploadedBy note =? su_id currentUser) then (a, fail: "Unauthorized")
        else
          let s1 := set_notes (splice1 noteIndex allNotes) s in
          let likes := notesBuddy_likes s1 in
          let s2 := set_likes (List.filter (fun l => negb (noteId l =? id)) likes) s1 in
          let pv := notes_pv a in
          let pv' := mkNotesProvider (List.filter (fun v => negb (nid (v_note v) =? id)) (pv_notes pv))
                       (pv_loading pv) (pv_pagination pv) in
          (mkApp s2 pv' (auth_pv a), Success tt)
      end
    end
  end.

Definition likeNote (a : app) (id : Z) (now : Z) : app * result unit :=
  let s := store a in
  match getCurrentUser s with
  | None => (a, fail: "Not authenticated")
  | Some currentUser =>
    let likes := notesBuddy_likes s in
    let allNotes := notesBuddy_notes s in
    match List.find (like_of (su_id currentUser) id) likes with
    | Some _ => (a, fail: "Already liked")
    | None =>
      let s1 := set_likes (likes ++ [mkLike now (su_id currentUser) id now]) s in
      match find_index (has_id id) allNotes with
      | Some noteIndex =>
        let allNotes' := update_at noteIndex (fun n => set_likeCount (likeCount n + 1) n) allNotes in
        (with_store (set_notes allNotes' s1) a, Success tt)
      | None => (with_store s1 a, Success tt)
      end
    end
  end.

Definition unlikeNote (a : app) (id : Z) : app * result unit :=
  let s := store a in
  match getCurrentUser s with
  | None => (a, fail: "Not authenticated")
  | Some currentUser =>
    let likes := notesBuddy_likes s in
    let allNotes := notesBuddy_notes s in
    match find_index (like_of (su_id currentUser) id) likes with
    | None => (a, fail: "Not liked")
    | Some likeIndex =>
      let s1 := set_likes (splice1 likeIndex likes) s in
      match find_index (has_id id) allNotes with
      | Some noteIndex =>
        let allNotes' :=
          update_at noteIndex (fun n => set_likeCount (Z.max (likeCount n - 1) 0) n) allNotes in
        (with_store (set_notes allNotes' s1) a, Success tt)
      | None => (with_store s1 a, Success tt)
      end
    end
  end.

Definition toggleNotePrivacy (a : app) (id : Z) : app * result bool :=
  let s := store a in
  match getCurrentUser s with
  | None => (a, fail: "Not authenticated")
  | Some currentUser =>
    let allNotes := notesBuddy_notes s in
    match find_index (has_id id) allNotes with
    | None => (a, fail: "Note not found")
    | Some noteIndex =>
      match allNotes !! noteIndex with
      | None => (a, fail: "Note not found")
      | Some note =>
        if negb (uploadedBy note =? su_id currentUser) then (a, fail: "Unauthorized")
        else
          let allNotes' := update_at noteIndex (fun n => set_isPrivate (negb (isPrivate n)) n) allNotes in
          (with_store (set_notes allNotes' s) a, Success (negb (isPrivate note)))
      end
    end
  end.

(** [{ ...allNotes[noteIndex], ...updates, id, uploadedBy, uploadedAt }]. *)
Definition apply_update (u : note_update) (n : note) : note :=
  mkNote (nid n) (default (title n) (up_title u)) (default (description n) (up_description u))
    (default (schoolName n) (up_schoolName u)) (default (disciplineName n) (up_disciplineName u))
    (default (subject n) (up_subject u)) (default (semester n) (up_semester u))
    (default (filePath n) (up_filePath u)) (default (fileName n) (up_fileName u))
    (uploadedBy n) (default (uploaderName n) (up_uploaderName u))
    (default (isPrivate n) (up_isPrivate u)) (default (downloads n) (up_downloads u))
    (default (viewCount n) (up_viewCount u)) (default (likeCount n) (up_likeCount u))
    (uploadedAt n).

Definition updateNote (a : app) (id : Z) (updates : note_update) : app * result unit :=
  let s := store a in
  match getCurrentUser s with
  | None => (a, fail: "Not authenticated")
  | Some currentUser =>
    let allNotes := notesBuddy_notes s in
    match find_index (has_id id) allNotes with
    | None => (a, fail: "Note not found")
    | Some noteIndex =>
      match allNotes !! noteIndex with
      | None => (a, fail: "Note not found")
      | Some note =>
        if negb (uploadedBy note =? su_id currentUser) then (a, fail: "Unauthorized")
        else
          let allNotes' := update_at noteIndex (apply_update updates) allNotes in
          (with_store (set_notes allNotes' s) a, Success tt)
      end
    end
  end.

(** ** The invariant of the note store and its preservation

    [store_ok] is what the like bookkeeping of NotesContext.jsx relies on:
    note ids are unique (every [findIndex(n => n.id === id)] finds the
    one note of that id), each note's [likeCount] is the number of like
    records of that note, a user likes a note at most once, and the
    download and view counters are non-negative.  Every handler of
    this file keeps it, [uploadNote] under the hypothesis that its
    [Date.now()] is not already the id of a note or of a liked note id,
    [updateNote] when [updates] does not carry [likeCount]. *)

Definition likes_of_note (id : Z) (l : like) : bool := noteId l =? id.

Definition like_key (l : like) : Z * Z := (userId l, noteId l).

Record store_ok (s : storage) : Prop := {
  ok_ids : NoDup (nid <$> notesBuddy_notes s);
  ok_counts : Forall (fun n => likeCount n = count_where (likes_of_note (nid n)) (notesBuddy_likes s))
                (notesBuddy_notes s);
  ok_like_keys : NoDup (like_key <$> notesBuddy_likes s);
  ok_counters : Forall (fun n => 0 <= downloads n /\ 0 <= viewCount n) (notesBuddy_notes s)
}.

(** [store_ok] is decidable, so a concrete store is checked by evaluation. *)
Lemma store_ok_iff s :
  store_ok s <->
  NoDup (nid <$> notesBuddy_notes s) /\
  Forall (fun n => likeCount n = count_where (likes_of_note (nid n)) (notesBuddy_likes s))
    (notesBuddy_notes s) /\
  NoDup (like_key <$> notesBuddy_likes s) /\
  Forall (fun n => 0 <= downloads n /\ 0 <= viewCount n) (notesBuddy_notes s).
Proof. split; [intros []; done|intros (? & ? & ? & ?); by constructor]. Qed.

#[export] Instance store_ok_dec s : Decision (store_ok s).
Proof.
  destruct (decide (NoDup (nid <$> notesBuddy_notes s) /\
    Forall (fun n => likeCount n = count_where (likes_of_note (nid n)) (notesBuddy_likes s))
      (notesBuddy_notes s) /\
    NoDup (like_key <$> notesBuddy_likes s) /\
    Forall (fun n => 0 <= downloads n /\ 0 <= viewCount n) (notesBuddy_notes s))) as [H|H];
    [left|right]; rewrite store_ok_iff; exact H.
Defined.

(** ** Uniqueness turns index updates into updates by id *)

Lemma has_id_le1 (ns : list note) id : NoDup (nid <$> ns) -> count_where (has_id id) ns <= 1.
Proof. intros H. apply (nodup_count_le1 nid _ id); [done|]. intros n. apply Z.eqb_eq. Qed.

Lemma like_of_le1 (ls : list like) u id :
  NoDup (like_key <$> ls) -> count_where (like_of u id) ls <= 1.
Proof.
  intros H. apply (nodup_count_le1 like_key _ (u, id)); [done|].
  intros l Hl. unfold like_of in Hl. nb_bool. unfold like_key. congruence.
Qed.

Lemma update_at_by_id s id i f :
  store_ok s -> find_index (has_id id) (notesBuddy_notes s) = Some i ->
  update_at i f (notesBuddy_notes s) =
  map (fun n => if has_id id n then f n else n) (notesBuddy_notes s).
Proof. intros Hok Hi. apply update_at_unique; [done|]. apply has_id_le1, ok_ids, Hok. Qed.

Lemma insert_update_at {A} (l : list A) i x f : l !! i = Some x -> <[i := f x]> l = update_at i f l.
Proof. intros H. unfold update_at. by rewrite H. Qed.

(** Rewriting the notes through a map that keeps ids and like counts. *)
Lemma store_ok_map_notes s (p : note -> bool) (f : note -> note) :
  store_ok s ->
  (forall n, nid (f n) = nid n) -> (forall n, likeCount (f n) = likeCount n) ->
  (forall n, 0 <= downloads n /\ 0 <= viewCount n -> 0 <= downloads (f n) /\ 0 <= viewCount (f n)) ->
  store_ok (set_notes (map (fun n => if p n then f n else n) (notesBuddy_notes s)) s).
Proof.
  intros [Hids Hcnt Hkeys Hctr] Hid Hlc Hc. constructor; simpl; [| | done|].
  - rewrite !fmap_list_map, map_map in *. erewrite map_ext; [done|]. intros n. by destruct (p n).
  - apply Forall_map. eapply Forall_impl; [exact Hcnt|]. intros n Hn. cbv beta. by destruct (p n); rewrite ?Hid, ?Hlc.
  - apply Forall_map. eapply Forall_impl; [exact Hctr|]. intros n Hn. cbv beta. destruct (p n); auto.
Qed.

(** ** Preservation, one handler at a time *)

Ltac op_cases :=
  repeat (case_match; simplify_eq/=); try done.

(** Appending a note with a fresh id and no likes. *)
Lemma store_ok_append_note s (n : note) :
  store_ok s -> nid n ∉ (nid <$> notesBuddy_notes s) ->
  count_where (likes_of_note (nid n)) (notesBuddy_likes s) = 0 ->
  likeCount n = 0 -> 0 <= downloads n /\ 0 <= viewCount n ->
  store_ok (set_notes (notesBuddy_notes s ++ [n]) s).
Proof.
  intros [Hids Hcnt Hkeys Hctr] Hfresh Hnolike Hlc Hctr'. constructor; simpl; [| |done|].
  - rewrite fmap_app. apply NoDup_app. split_and!; [done| |by apply NoDup_singleton].
    intros x Hx ->%list_elem_of_singleton. done.
  - apply Forall_app. split; [done|]. constructor; [|constructor]. lia.
  - apply Forall_app. split; [done|]. by constructor.
Qed.

Lemma uploadNote_ok a fd now :
  store_ok (store a) ->
  now ∉ (nid <$> notesBuddy_notes (store a)) ->
  count_where (likes_of_note now) (notesBuddy_likes (store a)) = 0 ->
  store_ok (store (fst (uploadNote a fd now))).
Proof.
  intros Hok Hfresh Hnolike. unfold uploadNote. op_cases;
    apply store_ok_append_note; simpl; auto with lia.
Qed.

Lemma getNoteById_ok a id : store_ok (store a) -> store_ok (store (fst (getNoteById a id))).
Proof.
  intros Hok. unfold getNoteById. op_cases; simpl.
  2: { match goal with H : find_index _ _ = None |- _ => apply find_index_find_None in H end.
       congruence. }
  match goal with H : find_index _ _ = Some ?i |- _ =>
    pose proof (find_index_find _ _ _ H) as Hl end.
  rewrite Hl in *.
  match goal with H : _ !! _ = Some _ |- _ =>
    rewrite (insert_update_at _ _ _ (fun n => set_viewCount (viewCount n + 1) n) H) end.
  erewrite update_at_by_id by done.
  apply store_ok_map_notes; [done|done|done|]. simpl. lia.
Qed.

Lemma set_notes_same s : set_notes (notesBuddy_notes s) s = s.
Proof. by destruct s. Qed.

Lemma set_likes_same s : set_likes (notesBuddy_likes s) s = s.
Proof. by destruct s. Qed.

Ltac by_id_update :=
  erewrite update_at_by_id by eassumption;
  apply store_ok_map_notes; [assumption|done|done|simpl; try lia].

Lemma downloadNote_ok a id t : store_ok (store a) -> store_ok (store (fst (downloadNote a id t))).
Proof. intros Hok. unfold downloadNote. op_cases. by_id_update. Qed.

Lemma toggleNotePrivacy_ok a id : store_ok (store a) -> store_ok (store (fst (toggleNotePrivacy a id))).
Proof. intros Hok. unfold toggleNotePrivacy. op_cases. by_id_update; done. Qed.

(** [updateNote] keeps the invariant when [updates] carries no
    [likeCount] and no negative counter. *)
Lemma updateNote_ok a id u :
  store_ok (store a) -> up_likeCount u = None ->
  (forall d, up_downloads u = Some d -> 0 <= d) -> (forall v, up_viewCount u = Some v -> 0 <= v) ->
  store_ok (store (fst (updateNote a id u))).
Proof.
  intros Hok Hlc Hd Hv. unfold updateNote. op_cases.
  erewrite update_at_by_id by eassumption.
  apply store_ok_map_notes; [done|done|intros m; simpl; by rewrite Hlc|].
  intros m [? ?]. simpl.
  destruct (up_downloads u) eqn:?, (up_viewCount u) eqn:?; simpl; split; eauto.
Qed.

(** ** The notes of one id after the single-note handlers

    [getNoteById] and [downloadNote] rewrite the note with the id by a
    function that keeps its id and its privacy (or change nothing);
    [toggleNotePrivacy] flips the privacy of that note and answers the
    new value; [deleteNote] removes every note with the id (or changes
    nothing). *)

Definition keeps_id_privacy (f : note -> note) : Prop :=
  forall n, nid (f n) = nid n /\ isPrivate (f n) = isPrivate n.

Definition notes_by_id (a a' : app) (id : Z) (f : note -> note) : Prop :=
  notesBuddy_notes (store a') = map (fun n => if has_id id n then f n else n) (notesBuddy_notes (store a)).

Lemma notes_by_id_same a a' id :
  notesBuddy_notes (store a') = notesBuddy_notes (store a) -> notes_by_id a a' id (fun n => n).
Proof. unfold notes_by_id. intros ->. by rewrite map_if_self. Qed.

Ltac notes_unchanged := exists (fun n => n); split; [done|apply notes_by_id_same; reflexivity].

Lemma getNoteById_notes a id : store_ok (store a) ->
  exists f, keeps_id_privacy f /\ notes_by_id a (fst (getNoteById a id)) id f.
Proof.
  intros Hok. unfold getNoteById. op_cases; try notes_unchanged.
  exists (fun n => set_viewCount (viewCount n + 1) n). split; [done|]. unfold notes_by_id. simpl.
  match goal with H : find_index _ _ = Some ?i |- _ =>
    pose proof (find_index_find _ _ _ H) as Hl end.
  rewrite Hl in *.
  match goal with H : _ !! _ = Some _ |- _ =>
    rewrite (insert_update_at _ _ _ (fun n => set_viewCount (viewCount n + 1) n) H) end.
  by erewrite update_at_by_id.
Qed.

(** What the page reads of a note it gets: the stored note's id and privacy. *)
Lemma getNoteById_Success a id a' v :
  getNoteById a id = (a', Success v) ->
  exists n, List.find (has_id id) (notesBuddy_notes (store a)) = Some n /\
    nid (v_note v) = id /\ isPrivate (v_note v) = isPrivate n.
Proof.
  intros Hg. unfold getNoteById in Hg. destruct (List.find _ _) as [n|] eqn:Hf; [|done].
  exists n. split; [done|]. apply find_some_in in Hf as [_ Hid]. unfold has_id in Hid. nb_bool.
  op_cases.
Qed.

Lemma downloadNote_notes a id t : store_ok (store a) ->
  exists f, keeps_id_privacy f /\ notes_by_id a (fst (downloadNote a id t)) id f.
Proof.
  intros Hok. unfold downloadNote. op_cases; try notes_unchanged.
  exists (fun n => set_downloads (downloads n + 1) n). split; [done|]. unfold notes_by_id. simpl.
  by erewrite update_at_by_id.
Qed.

Lemma toggleNotePrivacy_notes a id : store_ok (store a) ->
  match toggleNotePrivacy a id with
  | (a', Success b) => exists n, List.find (has_id id) (notesBuddy_notes (store a)) = Some n /\
      b = negb (isPrivate n) /\ notes_by_id a a' id (fun n => set_isPrivate (negb (isPrivate n)) n)
  | (a', Failure _ _) => store a' = store a
  end.
Proof.
  intros Hok. unfold toggleNotePrivacy. op_cases. eexists; split_and!.
  - by erewrite find_index_find.
  - done.
  - unfold notes_by_id. simpl. by erewrite update_at_by_id.
Qed.

Lemma deleteNote_notes a id : store_ok (store a) ->
  store (fst (deleteNote a id)) = store a \/
  notesBuddy_notes (store (fst (deleteNote a id))) = List.filter (fun n => negb (has_id id n)) (notesBuddy_notes (store a)).
Proof.
  intros Hok. unfold deleteNote. op_cases; auto. right. simpl.
  erewrite splice1_unique by (eassumption || apply has_id_le1, ok_ids, Hok). done.
Qed.

(** One more like, of user [u] on note [id], with its count. *)
Lemma store_ok_add_like s u id now :
  store_ok s -> List.find (like_of u id) (notesBuddy_likes s) = None ->
  store_ok (set_notes (map (fun n => if has_id id n then set_likeCount (likeCount n + 1) n else n)
                         (notesBuddy_notes s))
              (set_likes (notesBuddy_likes s ++ [mkLike now u id now]) s)).
Proof.
  intros [Hids Hcnt Hkeys Hctr] Hnone. constructor; simpl.
  - rewrite !fmap_list_map, map_map in *. erewrite map_ext; [done|]. intros n. by destruct (has_id id n).
  - apply Forall_map. eapply Forall_impl; [exact Hcnt|]. intros n Hn. cbv beta.
    rewrite count_where_app, count_where_cons, count_where_nil.
    unfold has_id, likes_of_note in *. simpl.
    destruct (Z.eqb_spec (nid n) id) as [Heq|Hne]; simpl.
    + rewrite Heq in Hn |- *. rewrite Z.eqb_refl, Hn. lia.
    + rewrite Hn. destruct (Z.eqb_spec id (nid n)); [congruence|lia].
  - rewrite fmap_app. apply NoDup_app. split_and!; [done| |by apply NoDup_singleton].
    intros k (l & -> & Hl)%list_elem_of_fmap Hk%list_elem_of_singleton.
    apply list_elem_of_In, (find_None_false _ _ Hnone) in Hl.
    unfold like_of, like_key in *. simpl in Hk. injection Hk as H1 H2.
    by rewrite H1, H2, !Z.eqb_refl in Hl.
  - apply Forall_map. eapply Forall_impl; [exact Hctr|]. intros n Hn. cbv beta.
    by destruct (has_id id n).
Qed.

Lemma likeNote_ok a id now : store_ok (store a) -> store_ok (store (fst (likeNote a id now))).
Proof.
  intros Hok. unfold likeNote. op_cases.
  - erewrite update_at_by_id by eassumption. by apply store_ok_add_like.
  - match goal with H : find_index (has_id _) _ = None |- _ =>
      rewrite <- (set_notes_same (set_likes _ _)); simpl;
      rewrite <- (map_if_none _ (fun n => set_likeCount (likeCount n + 1) n) _ H) end.
    by apply store_ok_add_like.
Qed.

(** One like of user [u] on note [id] less, with its count. *)
Lemma store_ok_remove_like s u id :
  store_ok s -> count_where (like_of u id) (notesBuddy_likes s) = 1 ->
  store_ok (set_notes (map (fun n => if has_id id n then set_likeCount (Z.max (likeCount n - 1) 0) n else n)
                         (notesBuddy_notes s))
              (set_likes (List.filter (fun l => negb (like_of u id l)) (notesBuddy_likes s)) s)).
Proof.
  intros [Hids Hcnt Hkeys Hctr] Hone. constructor; simpl.
  - rewrite !fmap_list_map, map_map in *. erewrite map_ext; [done|]. intros n. by destruct (has_id id n).
  - apply Forall_map. eapply Forall_impl; [exact Hcnt|]. intros n Hn. cbv beta.
    unfold has_id. destruct (Z.eqb_spec (nid n) id) as [Heq|Hne]; simpl.
    + assert (Himp : forall l, like_of u id l = true -> likes_of_note (nid n) l = true).
      { intros l Hl. unfold like_of, likes_of_note in *. nb_bool. apply Z.eqb_eq. congruence. }
      pose proof (count_where_mono _ _ (notesBuddy_likes s) Himp).
      rewrite (count_where_filter_sub _ _ _ Himp). cbv beta in Hn. lia.
    + rewrite count_where_filter_disj; [done|]. intros l _ Hl. unfold like_of, likes_of_note in *.
      nb_bool. apply Z.eqb_neq. congruence.
  - by apply NoDup_fmap_filter.
  - apply Forall_map. eapply Forall_impl; [exact Hctr|]. intros n Hn. cbv beta.
    by destruct (has_id id n).
Qed.

Lemma splice_like_by_key s u id k :
  store_ok s -> find_index (like_of u id) (notesBuddy_likes s) = Some k ->
  splice1 k (notesBuddy_likes s) = List.filter (fun l => negb (like_of u id l)) (notesBuddy_likes s).
Proof. intros Hok Hk. apply splice1_unique; [done|]. apply like_of_le1, ok_like_keys, Hok. Qed.

Lemma like_count_one s u id k :
  store_ok s -> find_index (like_of u id) (notesBuddy_likes s) = Some k ->
  count_where (like_of u id) (notesBuddy_likes s) = 1.
Proof.
  intros Hok Hk. pose proof (find_index_count _ _ _ Hk).
  pose proof (like_of_le1 _ u id (ok_like_keys _ Hok)). lia.
Qed.

Lemma unlikeNote_ok a id : store_ok (store a) -> store_ok (store (fst (unlikeNote a id))).
Proof.
  intros Hok. unfold unlikeNote. op_cases;
    match goal with Hk : find_index (like_of _ _) _ = Some _ |- _ =>
      rewrite (splice_like_by_key _ _ _ _ Hok Hk); pose proof (like_count_one _ _ _ _ Hok Hk) end.
  - erewrite update_at_by_id by eassumption. by apply store_ok_remove_like.
  - match goal with H : find_index (has_id _) _ = None |- _ =>
      rewrite <- (set_notes_same (set_likes _ _)); simpl;
      rewrite <- (map_if_none _ (fun n => set_likeCount (Z.max (likeCount n - 1) 0) n) _ H) end.
    by apply store_ok_remove_like.
Qed.

(** Removing note [id] and every like of it. *)
Lemma store_ok_delete_note s id :
  store_ok s ->
  store_ok (set_likes (List.filter (fun l => negb (noteId l =? id)) (notesBuddy_likes s))
              (set_notes (List.filter (fun n => negb (has_id id n)) (notesBuddy_notes s)) s)).
Proof.
  intros [Hids Hcnt Hkeys Hctr]. constructor; simpl.
  - by apply NoDup_fmap_filter.
  - apply List.Forall_forall. intros n (Hn & Hne)%List.filter_In.
    rewrite List.Forall_forall in Hcnt. rewrite (Hcnt n Hn).
    symmetry. apply (count_where_filter_disj _ (likes_of_note id)).
    intros l _ Hl. unfold has_id, likes_of_note in *. nb_bool. apply Z.eqb_neq. congruence.
  - by apply NoDup_fmap_filter.
  - by apply Forall_filter_sub.
Qed.

Lemma deleteNote_ok a id : store_ok (store a) -> store_ok (store (fst (deleteNote a id))).
Proof.
  intros Hok. unfold deleteNote. op_cases.
  erewrite splice1_unique by (eassumption || apply has_id_le1, ok_ids, Hok).
  by apply store_ok_delete_note.
Qed.

(** ** What the write handlers do

    Under [store_ok], each handler that finds a note or a like with
    [findIndex] and updates or [splice]s it is equal to an update by id:
    [likeNote_spec], [unlikeNote_spec], [deleteNote_spec].  From these:
    liking then unliking a note restores the store
    ([like_unlike_roundtrip]), a second like fails, only the owner
    deletes, a private note of another user is not shown and its view is
    not counted, and two findings: a like is recorded for an id that has
    no note, and for a private note of another user. *)

(** ** A concrete store: Alice (1) is logged in; note 10 is hers and
    public, note 20 is Bob's (2) and private; Bob liked note 10. *)

Definition alice : user := mkUser 1 "Alice" "alice@uni.edu" "pw-alice" 1000.
Definition bob : user := mkUser 2 "Bob" "bob@uni.edu" "pw-bob" 1001.

Definition note10 : note :=
  mkNote 10 "Data Structures" "trees and heaps" "MIT" "CS" "Algorithms" "3"
    "data:application/pdf;base64,AAA" "ds.pdf" 1 "Alice" false 0 0 1 5000.
Definition note20 : note :=
  mkNote 20 "Operating Systems" "" "MIT" "CS" "Systems" "4"
    "data:application/pdf;base64,BBB" "os.pdf" 2 "Bob" true 2 7 0 6000.

Definition ex_store : storage :=
  mkStorage [note10; note20] [mkLike 8000 2 10 8000] [alice; bob] (Some (without_password alice)).

Definition ex_app : app := mkApp ex_store init_notes_provider
  (mkAuthProvider (Some (without_password alice)) false true).

Definition ex_app_bob : app := set_store (set_current (Some (without_password bob)) ex_store) ex_app.
Definition ex_app_carol : app :=
  set_store (set_current (Some (mkSession 3 "Carol" "carol@uni.edu" 1002)) ex_store) ex_app.

Lemma ex_store_ok : store_ok ex_store.
Proof. apply (bool_decide_unpack _). vm_compute. reflexivity. Qed.

(** ** Helpers *)

Lemma existsb_find_None {A} (p : A -> bool) l : List.find p l = None -> existsb p l = false.
Proof.
  intros H. apply Bool.not_true_iff_false. rewrite List.existsb_exists.
  intros (x & Hx & Hp). by rewrite (find_None_false _ _ H x Hx) in Hp.
Qed.

Lemma existsb_find_Some {A} (p : A -> bool) l x : List.find p l = Some x -> existsb p l = true.
Proof.
  intros H. apply List.existsb_exists. exists x.
  split; [by apply List.find_some in H as []|by apply List.find_some in H as []].
Qed.

Lemma set_notes_set_likes_same s ns ls :
  set_notes (notesBuddy_notes s) (set_likes (notesBuddy_likes s) (set_notes ns (set_likes ls s))) = s.
Proof. by destruct s. Qed.

(** The update [likeNote] applies to the liked note, and the one of
    [unlikeNote]. *)
Definition bump_like (n : note) : note := set_likeCount (likeCount n + 1) n.
Definition drop_like (n : note) : note := set_likeCount (Z.max (likeCount n - 1) 0) n.

(** ** [likeNote] *)

(** The reference behaviour of [likeNote], by note id. *)
Definition likeNote_by_id (a : app) (id now : Z) : app * result unit :=
  match getCurrentUser (store a) with
  | None => (a, fail: "Not authenticated")
  | Some u =>
    if existsb (like_of (su_id u) id) (notesBuddy_likes (store a)) then (a, fail: "Already liked")
    else (with_store (set_notes (map (fun n => if has_id id n then bump_like n else n)
                                    (notesBuddy_notes (store a)))
                       (set_likes (notesBuddy_likes (store a) ++ [mkLike now (su_id u) id now])
                          (store a))) a, Success tt)
  end.

Lemma likeNote_by_id_eq a id now :
  store_ok (store a) -> likeNote a id now = likeNote_by_id a id now.
Proof.
  intros Hok. unfold likeNote, likeNote_by_id. destruct (getCurrentUser (store a)) as [u|]; [|done].
  destruct (List.find _ _) as [l|] eqn:Hf.
  - by rewrite (existsb_find_Some _ _ _ Hf).
  - rewrite (existsb_find_None _ _ Hf).
    destruct (find_index (has_id id) _) eqn:Hi.
    + by erewrite update_at_by_id by eassumption.
    + by rewrite (map_if_none _ _ _ Hi).
Qed.

(** C2: under the invariant, [likeNote] is [likeNote_by_id]: fail
    without a session, fail when the user already liked the note, else
    append the like record and add one to the [likeCount] of the note
    with that id (if any). *)
Theorem likeNote_spec a id now :
  store_ok (store a) -> likeNote a id now = likeNote_by_id a id now.
Proof. apply likeNote_by_id_eq. Qed.

Lemma likeNote_spec_witness :
  store_ok (store ex_app) /\ likeNote ex_app 20 9000 = likeNote_by_id ex_app 20 9000.
Proof. split; [exact ex_store_ok|]. apply likeNote_spec, ex_store_ok. Defined.

(** ** [unlikeNote] *)

(** The reference behaviour of [unlikeNote], by note id. *)
Definition unlikeNote_by_id (a : app) (id : Z) : app * result unit :=
  match getCurrentUser (store a) with
  | None => (a, fail: "Not authenticated")
  | Some u =>
    if existsb (like_of (su_id u) id) (notesBuddy_likes (store a)) then
      (with_store (set_notes (map (fun n => if has_id id n then drop_like n else n)
                                (notesBuddy_notes (store a)))
                   (set_likes (List.filter (fun l => negb (like_of (su_id u) id l))
                                 (notesBuddy_likes (store a))) (store a))) a, Success tt)
    else (a, fail: "Not liked")
  end.

Lemma unlikeNote_by_id_eq a id :
  store_ok (store a) -> unlikeNote a id = unlikeNote_by_id a id.
Proof.
  intros Hok. unfold unlikeNote, unlikeNote_by_id. destruct (getCurrentUser (store a)) as [u|]; [|done].
  destruct (find_index (like_of (su_id u) id) _) as [k|] eqn:Hk.
  - destruct (find_index_Some _ _ _ Hk) as (x & Hx & _).
    rewrite (existsb_find_Some _ _ x); [|by rewrite (find_index_find _ _ _ Hk)].
    rewrite (splice_like_by_key _ _ _ _ Hok Hk).
    destruct (find_index (has_id id) _) eqn:Hi.
    + by erewrite update_at_by_id by eassumption.
    + by rewrite (map_if_none _ _ _ Hi).
  - by rewrite (existsb_find_None _ _ (find_index_find_None _ _ Hk)).
Qed.

(** C3: under the invariant, [unlikeNote] is [unlikeNote_by_id]: fail
    without a session, fail when the user has not liked the note, else
    remove that like record and lower the [likeCount] of the note with
    that id (if any), never below 0. *)
Theorem unlikeNote_spec a id :
  store_ok (store a) -> unlikeNote a id = unlikeNote_by_id a id.
Proof. apply unlikeNote_by_id_eq. Qed.

Lemma unlikeNote_spec_witness :
  store_ok (store ex_app_bob) /\ unlikeNote ex_app_bob 10 = unlikeNote_by_id ex_app_bob 10.
Proof.
  assert (Hok : store_ok (store ex_app_bob)) by (apply (bool_decide_unpack _); vm_compute; reflexivity).
  split; [exact Hok|]. apply unlikeNote_spec, Hok.
Defined.

(** Liking and unliking rewrite only the [likeCount] of the note. *)
Lemma likeNote_notes a id now : store_ok (store a) ->
  exists f, keeps_id_privacy f /\ notes_by_id a (fst (likeNote a id now)) id f.
Proof.
  intros Hok. rewrite (likeNote_by_id_eq _ _ _ Hok). unfold likeNote_by_id.
  destruct (getCurrentUser _); [destruct (existsb _ _)|]; try notes_unchanged.
  exists bump_like. split; [by intros []|done].
Qed.

Lemma unlikeNote_notes a id : store_ok (store a) ->
  exists f, keeps_id_privacy f /\ notes_by_id a (fst (unlikeNote a id)) id f.
Proof.
  intros Hok. rewrite (unlikeNote_by_id_eq _ _ Hok). unfold unlikeNote_by_id.
  destruct (getCurrentUser _); [destruct (existsb _ _)|]; try notes_unchanged.
  exists drop_like. split; [by intros []|done].
Qed.

Lemma drop_bump_like n : 0 <= likeCount n -> drop_like (bump_like n) = n.
Proof. intros H. destruct n; unfold drop_like, bump_like, set_likeCount; simpl in *. f_equal. lia. Qed.

Lemma like_counts_nonneg s : store_ok s -> Forall (fun n => 0 <= likeCount n) (notesBuddy_notes s).
Proof.
  intros Hok. eapply Forall_impl; [apply ok_counts, Hok|]. intros n ->. apply count_where_nonneg.
Qed.

(** C5: liking a note and then unliking it gives back the store as it
    was: the like record is gone and every [likeCount] is restored. *)
Theorem like_unlike_roundtrip a id now :
  store_ok (store a) ->
  snd (likeNote a id now) = Success tt ->
  store (fst (unlikeNote (fst (likeNote a id now)) id)) = store a.
Proof.
  intros Hok Hs. pose proof (likeNote_ok a id now Hok) as Hok'.
  rewrite (unlikeNote_by_id_eq _ _ Hok'). rewrite (likeNote_by_id_eq _ _ _ Hok) in Hs |- *.
  unfold unlikeNote_by_id, likeNote_by_id in *.
  unfold getCurrentUser in *. simpl in *.
  destruct (notesBuddy_currentUser (store a)) as [u|] eqn:Hu; [|discriminate].
  destruct (existsb _ _) eqn:He; [discriminate|]. simpl. rewrite Hu.
  rewrite existsb_app. simpl. unfold like_of at 2. simpl. rewrite !Z.eqb_refl, orb_true_r. simpl.
  rewrite List.filter_app, filter_all_true.
  2: { intros l Hl. apply negb_true_iff. apply Bool.not_true_iff_false. intros Hl'.
       assert (existsb (like_of (su_id u) id) (notesBuddy_likes (store a)) = true) as Hc
         by (apply List.existsb_exists; by exists l). congruence. }
  unfold like_of. simpl. rewrite !Z.eqb_refl. simpl. rewrite app_nil_r.
  rewrite map_if_map_if by (intros n; unfold has_id; by destruct n).
  rewrite map_if_id; [apply set_notes_set_likes_same|].
  eapply Forall_impl; [apply like_counts_nonneg, Hok|]. intros n Hn _. by apply drop_bump_like.
Qed.

Lemma like_unlike_roundtrip_witness :
  store_ok (store ex_app) /\ snd (likeNote ex_app 10 9000) = Success tt /\
  store (fst (unlikeNote (fst (likeNote ex_app 10 9000)) 10)) = store ex_app.
Proof.
  assert (H : snd (likeNote ex_app 10 9000) = Success tt) by reflexivity.
  split; [exact ex_store_ok|split; [exact H|]].
  apply like_unlike_roundtrip; [exact ex_store_ok|exact H].
Defined.

(** Once a like succeeded, liking the same note again fails with
    ['Already liked'] and changes nothing. *)
Lemma likeNote_twice a id now now' :
  store_ok (store a) ->
  snd (likeNote a id now) = Success tt ->
  likeNote (fst (likeNote a id now)) id now' = (fst (likeNote a id now), fail: "Already liked").
Proof.
  intros Hok Hs. rewrite (likeNote_by_id_eq _ _ _ (likeNote_ok a id now Hok)).
  rewrite (likeNote_by_id_eq _ _ _ Hok) in Hs |- *. unfold likeNote_by_id in *.
  unfold getCurrentUser in *. simpl in *.
  destruct (notesBuddy_currentUser (store a)) as [u|] eqn:Hu; [|discriminate].
  destruct (existsb _ _) eqn:He; [discriminate|]. simpl. rewrite Hu.
  rewrite existsb_app. simpl. unfold like_of at 2. simpl. by rewrite !Z.eqb_refl, orb_true_r.
Qed.

Lemma likeNote_twice_witness :
  store_ok (store ex_app) /\ snd (likeNote ex_app 10 9000) = Success tt /\
  likeNote (fst (likeNote ex_app 10 9000)) 10 9500 = (fst (likeNote ex_app 10 9000), fail: "Already liked").
Proof.
  assert (H : snd (likeNote ex_app 10 9000) = Success tt) by reflexivity.
  split; [exact ex_store_ok|split; [exact H|]].
  apply likeNote_twice; [exact ex_store_ok|exact H].
Defined.

(** ** [deleteNote] *)

(** The reference behaviour of [deleteNote], by note id. *)
Definition deleteNote_by_id (a : app) (id : Z) : app * result unit :=
  match getCurrentUser (store a) with
  | None => (a, fail: "Not authenticated")
  | Some u =>
    match List.find (has_id id) (notesBuddy_notes (store a)) with
    | None => (a, fail: "Note not found")
    | Some n =>
      if uploadedBy n =? su_id u then
        (mkApp (set_likes (List.filter (fun l => negb (noteId l =? id)) (notesBuddy_likes (store a)))
                  (set_notes (List.filter (fun n => negb (has_id id n)) (notesBuddy_notes (store a)))
                     (store a)))
               (mkNotesProvider (List.filter (fun v => negb (nid (v_note v) =? id)) (pv_notes (notes_pv a)))
                  (pv_loading (notes_pv a)) (pv_pagination (notes_pv a)))
               (auth_pv a), Success tt)
      else (a, fail: "Unauthorized")
    end
  end.

Lemma deleteNote_by_id_eq a id :
  store_ok (store a) -> deleteNote a id = deleteNote_by_id a id.
Proof.
  intros Hok. unfold deleteNote, deleteNote_by_id. destruct (getCurrentUser (store a)) as [u|]; [|done].
  destruct (find_index (has_id id) _) as [i|] eqn:Hi.
  - rewrite (find_index_find _ _ _ Hi). destruct (_ !! i) as [n|] eqn:Hn; [|done].
    destruct (uploadedBy n =? su_id u); [|done]. simpl.
    by erewrite splice1_unique by (eassumption || apply has_id_le1, ok_ids, Hok).
  - by rewrite (find_index_find_None _ _ Hi).
Qed.

(** C4: under the invariant, [deleteNote] is [deleteNote_by_id]: fail
    without a session, fail when no note has the id, fail when the
    current user is not its uploader, else remove the note and every
    like of it from the store and the note from the provider's list. *)
Theorem deleteNote_spec a id :
  store_ok (store a) -> deleteNote a id = deleteNote_by_id a id.
Proof. apply deleteNote_by_id_eq. Qed.

Lemma deleteNote_spec_witness :
  store_ok (store ex_app) /\ deleteNote ex_app 10 = deleteNote_by_id ex_app 10.
Proof. split; [exact ex_store_ok|]. apply deleteNote_spec, ex_store_ok. Defined.

(** [deleteNote] changes the store only for the uploader of the
    note: for any other user (or no session) the store is unchanged. *)
Theorem deleteNote_owner_only a id :
  store (fst (deleteNote a id)) <> store a ->
  exists u n, getCurrentUser (store a) = Some u /\
    List.find (has_id id) (notesBuddy_notes (store a)) = Some n /\ uploadedBy n = su_id u.
Proof.
  unfold deleteNote. intros Hch. destruct (getCurrentUser (store a)) as [u|]; [|done].
  destruct (find_index (has_id id) _) as [i|] eqn:Hi; [|done].
  destruct (_ !! i) as [n|] eqn:Hn; [|done].
  destruct (Z.eqb_spec (uploadedBy n) (su_id u)); [|done].
  exists u, n. split_and!; [done| |done]. by rewrite (find_index_find _ _ _ Hi).
Qed.

Lemma deleteNote_owner_only_witness :
  store (fst (deleteNote ex_app 10)) <> store ex_app /\
  exists u n, getCurrentUser (store ex_app) = Some u /\
    List.find (has_id 10) (notesBuddy_notes (store ex_app)) = Some n /\ uploadedBy n = su_id u.
Proof.
  assert (H : store (fst (deleteNote ex_app 10)) <> store ex_app) by (vm_compute; congruence).
  split; [exact H|]. apply deleteNote_owner_only, H.
Defined.

(** ** Privacy *)

(** C22: asking for a private note of another user (or with no
    session) fails with ['Unauthorized']: the note is not returned and
    its [viewCount] is not incremented. *)
Theorem getNoteById_private a id n :
  List.find (has_id id) (notesBuddy_notes (store a)) = Some n ->
  isPrivate n = true -> owned_by (getCurrentUser (store a)) n = false ->
  getNoteById a id = (stop_loading a, fail: "Unauthorized").
Proof. intros Hf Hp Ho. unfold getNoteById. by rewrite Hf, Hp, Ho. Qed.

Lemma getNoteById_private_witness :
  (List.find (has_id 20) (notesBuddy_notes (store ex_app)) = Some note20 /\
   isPrivate note20 = true /\ owned_by (getCurrentUser (store ex_app)) note20 = false) /\
  getNoteById ex_app 20 = (stop_loading ex_app, fail: "Unauthorized").
Proof.
  split; [split_and!; reflexivity|]. apply (getNoteById_private ex_app 20 note20); reflexivity.
Defined.

(** ** Findings on [likeNote] *)

(** C26: [likeNote] does not check that a note has the id: it answers
    success and stores a like record whose [noteId] is no note's id,
    leaving the notes unchanged. *)
Theorem likeNote_orphan_like a id now u :
  store_ok (store a) -> getCurrentUser (store a) = Some u ->
  existsb (like_of (su_id u) id) (notesBuddy_likes (store a)) = false ->
  Forall (fun n => nid n <> id) (notesBuddy_notes (store a)) ->
  snd (likeNote a id now) = Success tt /\
  notesBuddy_notes (store (fst (likeNote a id now))) = notesBuddy_notes (store a) /\
  In (mkLike now (su_id u) id now) (notesBuddy_likes (store (fst (likeNote a id now)))).
Proof.
  intros Hok Hu He Hn. rewrite (likeNote_by_id_eq _ _ _ Hok). unfold likeNote_by_id. rewrite Hu, He. simpl. split_and!; [done| |].
  - apply map_if_id. eapply Forall_impl; [exact Hn|]. intros n Hne Hh.
    unfold has_id in Hh. nb_bool. congruence.
  - apply in_or_app. right. by left.
Qed.

Lemma likeNote_orphan_like_witness :
  (store_ok (store ex_app) /\ getCurrentUser (store ex_app) = Some (without_password alice) /\
   existsb (like_of 1 99) (notesBuddy_likes (store ex_app)) = false /\
   Forall (fun n => nid n <> 99) (notesBuddy_notes (store ex_app))) /\
  (snd (likeNote ex_app 99 9000) = Success tt /\
   notesBuddy_notes (store (fst (likeNote ex_app 99 9000))) = notesBuddy_notes (store ex_app) /\
   In (mkLike 9000 1 99 9000) (notesBuddy_likes (store (fst (likeNote ex_app 99 9000))))).
Proof.
  assert (Hn : Forall (fun n => nid n <> 99) (notesBuddy_notes (store ex_app)))
    by (repeat constructor; simpl; lia).
  split; [split_and!; [exact ex_store_ok|reflexivity|reflexivity|exact Hn]|].
  apply (likeNote_orphan_like ex_app 99 9000 (without_password alice));
    [exact ex_store_ok|reflexivity|reflexivity|exact Hn].
Defined.

(** C27: [likeNote] does not check privacy: a user who may not see a
    private note of another user ([getNoteById] answers 'Unauthorized')
    can still like it, and its [likeCount] goes up. *)
Theorem likeNote_private_note a id now u n :
  store_ok (store a) -> getCurrentUser (store a) = Some u ->
  List.find (has_id id) (notesBuddy_notes (store a)) = Some n ->
  isPrivate n = true -> uploadedBy n <> su_id u ->
  existsb (like_of (su_id u) id) (notesBuddy_likes (store a)) = false ->
  snd (getNoteById a id) = fail: "Unauthorized" /\
  snd (likeNote a id now) = Success tt /\
  In (bump_like n) (notesBuddy_notes (store (fst (likeNote a id now)))).
Proof.
  intros Hok Hu Hf Hp Hne He. split.
  - unfold getNoteById. rewrite Hf, Hp, Hu. simpl. by rewrite (proj2 (Z.eqb_neq _ _) Hne).
  - rewrite (likeNote_by_id_eq _ _ _ Hok). unfold likeNote_by_id. rewrite Hu, He. simpl. split; [done|].
    apply List.find_some in Hf as [Hin Hh]. apply in_map_iff. exists n. by rewrite Hh.
Qed.

Lemma likeNote_private_note_witness :
  (store_ok (store ex_app_carol) /\
   getCurrentUser (store ex_app_carol) = Some (mkSession 3 "Carol" "carol@uni.edu" 1002) /\
   List.find (has_id 20) (notesBuddy_notes (store ex_app_carol)) = Some note20 /\
   isPrivate note20 = true /\ uploadedBy note20 <> 3 /\
   existsb (like_of 3 20) (notesBuddy_likes (store ex_app_carol)) = false) /\
  (snd (getNoteById ex_app_carol 20) = fail: "Unauthorized" /\
   snd (likeNote ex_app_carol 20 9000) = Success tt /\
   In (bump_like note20) (notesBuddy_notes (store (fst (likeNote ex_app_carol 20 9000))))).
Proof.
  assert (Hok : store_ok (store ex_app_carol)) by (apply (bool_decide_unpack _); vm_compute; reflexivity).
  assert (Hne : uploadedBy note20 <> 3) by (simpl; lia).
  split; [split_and!; [exact Hok|reflexivity|reflexivity|reflexivity|exact Hne|reflexivity]|].
  apply (likeNote_private_note ex_app_carol 20 9000 (mkSession 3 "Carol" "carol@uni.edu" 1002) note20);
    [exact Hok|reflexivity|reflexivity|reflexivity|exact Hne|reflexivity].
Defined.
