(* ===== verification/NotesQuery.v ===== *)
(** * NotesQuery: the handlers of NotesContext.jsx that read the store

    [fetchNotes], [searchNotes], [getMyNotes] and [getLikedNotes]: each
    filters the stored notes, adds the uploader's name and email, sorts
    with [Array.prototype.sort] ([JsSort]) and, except [getLikedNotes],
    cuts a page with [calculatePagination] ([Paging]); the result goes to
    the provider's [notes] and [pagination] ([setNotes],
    [setPagination]) and [loading] ends [false].

    [searchNotes] sorts by an arbitrary property [a[sortBy]]:
    [view_field] gives the properties of the objects it sorts, as
    JavaScript values, and [js_lt]/[js_gt] the relational comparison
    ([<], [>]) on them: numbers by value, strings by code units, booleans
    as 0/1, [undefined] (and a string compared with a number) as NaN,
    for which every comparison is false. *)

From S2P Require Import Prelude JsString JsSort Store Paging NotesStore.

(** ** JavaScript values of note properties *)

Inductive jsval := JNum (z : Z) | JStr (s : string) | JBool (b : bool) | JUndef.

Definition to_number (v : jsval) : option Z :=
  match v with
  | JNum z => Some z | JBool b => Some (if b then 1 else 0)
  | JStr _ | JUndef => None
  end.

Definition js_lt (a b : jsval) : bool :=
  match a, b with
  | JStr s, JStr t => match String.compare s t with Lt => true | _ => false end
  | _, _ => match to_number a, to_number b with Some x, Some y => x <? y | _, _ => false end
  end.

Definition js_gt (a b : jsval) : bool := js_lt b a.

(** [obj[key]] on the objects [searchNotes] sorts. *)
Definition view_field (key : string) (v : note_view) : jsval :=
  let n := v_note v in
  let fields : list (string * jsval) :=
    [("id", JNum (nid n)); ("title", JStr (title n)); ("description", JStr (description n));
     ("schoolName", JStr (schoolName n)); ("disciplineName", JStr (disciplineName n));
     ("subject", JStr (subject n)); ("semester", JStr (semester n));
     ("filePath", JStr (filePath n)); ("fileName", JStr (fileName n));
     ("uploadedBy", JNum (uploadedBy n)); ("uploaderName", JStr (uploaderName n));
     ("isPrivate", JBool (isPrivate n)); ("downloads", JNum (downloads n));
     ("viewCount", JNum (viewCount n)); ("likeCount", JNum (likeCount n));
     ("uploadedAt", JNum (uploadedAt n)); ("userName", JStr (userName v));
     ("userEmail", JStr (userEmail v))]%string in
  match List.find (fun kv => String.eqb (fst kv) key) fields with
  | Some (_, x) => x
  | None => JUndef
  end.

(** The comparator of [searchNotes]: [aVal > bVal ? 1 : -1] when
    [sortOrder === 'asc'], [aVal < bVal ? 1 : -1] otherwise. *)
Definition search_cmp (sortBy sortOrder : string) (a b : note_view) : Z :=
  let aVal := view_field sortBy a in
  let bVal := view_field sortBy b in
  if String.eqb sortOrder "asc" then (if js_gt aVal bVal then 1 else -1)
  else (if js_lt aVal bVal then 1 else -1).

(** ** The filters of [searchNotes] *)

Record search_filters := mkFilters {
  q : option string; f_subject : option string; f_semester : option string;
  f_schoolName : option string; f_disciplineName : option string;
  f_userName : option string; sortBy : option string; sortOrder : option string
}.

(** [if (filters.x)]: absent and [''] are falsy. *)
Definition truthy (o : option string) : option string :=
  match o with Some s => if String.eqb s "" then None else Some s | None => None end.

Definition filter_if (o : option string) (keep : string -> note -> bool) (ns : list note) : list note :=
  match truthy o with Some t => List.filter (keep t) ns | None => ns end.

(** [note.title.toLowerCase().includes(searchTerm) || ... ]. *)
Definition matches_q (t : string) (n : note) : bool :=
  let searchTerm := to_lower t in
  includes (to_lower (title n)) searchTerm || includes (to_lower (description n)) searchTerm ||
  includes (to_lower (subject n)) searchTerm.

Definition field_has (field : note -> string) (t : string) (n : note) : bool :=
  includes (to_lower (field n)) (to_lower t).

(** [user?.name.toLowerCase().includes(...)]: no user is falsy. *)
Definition uploader_has (s : storage) (t : string) (n : note) : bool :=
  match getUserById s (uploadedBy n) with
  | Some u => includes (to_lower (name u)) (to_lower t)
  | None => false
  end.

(** ** The handlers *)

Definition most_recent_first : note_view -> note_view -> Z :=
  by_key_desc (fun v => uploadedAt (v_note v)).

Definition show_page (pageNotes : list note_view) (pg : pagination) (a : app) : app :=
  set_notes_pv (mkNotesProvider pageNotes false pg) a.

Definition fetchNotes (a : app) (page : Z) (limit : positive) : app * result (list note_view) :=
  let s := store a in
  let currentUser := getCurrentUser s in
  let allNotes := notesBuddy_notes s in
  let visibleNotes := List.filter (can_view currentUser) allNotes in
  let notesWithUserInfo := map (with_user_info s) visibleNotes in
  let sorted := js_sort most_recent_first notesWithUserInfo in
  let (pageNotes, pg) := calculatePagination sorted page limit in
  (show_page pageNotes pg a, Success pageNotes).

Definition search_filtered (s : storage) (filters : search_filters) : list note :=
  let currentUser := getCurrentUser s in
  let f0 := List.filter (can_view currentUser) (notesBuddy_notes s) in
  let f1 := filter_if (q filters) matches_q f0 in
  let f2 := filter_if (f_subject filters) (field_has subject) f1 in
  let f3 := filter_if (f_semester filters) (field_has semester) f2 in
  let f4 := filter_if (f_schoolName filters) (field_has schoolName) f3 in
  let f5 := filter_if (f_disciplineName filters) (field_has disciplineName) f4 in
  filter_if (f_userName filters) (uploader_has s) f5.

Definition searchNotes (a : app) (filters : search_filters) (page : Z) (limit : positive)
    : app * result (list note_view) :=
  let s := store a in
  let notesWithUserInfo := map (with_user_info s) (search_filtered s filters) in
  let sortBy := js_or_opt (sortBy filters) "uploadedAt" in
  let sortOrder := js_or_opt (sortOrder filters) "desc" in
  let sorted := js_sort (search_cmp sortBy sortOrder) notesWithUserInfo in
  let (pageNotes, pg) := calculatePagination sorted page limit in
  (show_page pageNotes pg a, Success pageNotes).

Definition getMyNotes (a : app) (page : Z) (limit : positive) : app * result (list note_view) :=
  let s := store a in
  match getCurrentUser s with
  | None => (stop_loading a, fail: "Not authenticated")
  | Some currentUser =>
    let myNotes := List.filter (fun n => uploadedBy n =? su_id currentUser) (notesBuddy_notes s) in
    let notesWithUserInfo :=
      map (fun n => mkView n (su_name currentUser) (su_email currentUser) None) myNotes in
    let sorted := js_sort most_recent_first notesWithUserInfo in
    let (pageNotes, pg) := calculatePagination sorted page limit in
    (show_page pageNotes pg a, Success pageNotes)
  end.

Definition liked_view (s : storage) (n : note) : note_view :=
  let user := getUserById s (uploadedBy n) in
  mkView n (js_or_opt (name <$> user) "Unknown User") (js_or_opt (email <$> user) "") (Some true).

Definition getLikedNotes (a : app) : app * result (list note_view) :=
  let s := store a in
  match getCurrentUser s with
  | None => (stop_loading a, fail: "Not authenticated")
  | Some currentUser =>
    let likes := notesBuddy_likes s in
    let myLikes := List.filter (fun l => userId l =? su_id currentUser) likes in
    let likedNoteIds := map noteId myLikes in
    let likedNotes := List.filter (fun n => existsb (Z.eqb (nid n)) likedNoteIds) (notesBuddy_notes s) in
    let notesWithUserInfo := map (liked_view s) likedNotes in
    let sortedLikes := js_sort (by_key_desc likedAt) myLikes in
    let sortedNotes :=
      omap (fun l => List.find (fun v => nid (v_note v) =? noteId l) notesWithUserInfo) sortedLikes in
    let pv := notes_pv a in
    (set_notes_pv (mkNotesProvider sortedNotes false (pv_pagination pv)) a, Success sortedNotes)
  end.
