(* ===== verification/NotesQueryProps.v ===== *)
(** * NotesQueryProps: what the reading handlers of NotesContext return

    [fetchNotes] shows only notes the current user may see, most recent
    first; [searchNotes]' chain of [filter]s is one conjunctive
    predicate, [search_pred], and its results satisfy it; its order is
    ascending only for the exact string ['asc'] (SearchBar.jsx sends
    ['ASC'], which sorts descending); [getMyNotes] returns the user's own
    notes; [getLikedNotes] returns exactly the stored notes the user has
    a like record for.  The values [searchNotes] sorts by have a type
    ([typeof]) fixed by the key; with a key no note has, the comparator
    is inconsistent, and what holds on every engine is stated. *)

From S2P Require Import Prelude JsString JsSort Store Paging NotesStore NotesQuery.

(** [if (filters.x) filtered = filtered.filter(keep)] as a test on one note. *)
Definition opt_test (o : option string) (keep : string -> note -> bool) (n : note) : bool :=
  match truthy o with Some t => keep t n | None => true end.

(** The conjunction of every filter [searchNotes] applies. *)
Definition search_pred (s : storage) (f : search_filters) (n : note) : bool :=
  can_view (getCurrentUser s) n && opt_test (q f) matches_q n &&
  opt_test (f_subject f) (field_has subject) n && opt_test (f_semester f) (field_has semester) n &&
  opt_test (f_schoolName f) (field_has schoolName) n &&
  opt_test (f_disciplineName f) (field_has disciplineName) n &&
  opt_test (f_userName f) (uploader_has s) n.

(** The notes a handler put in the provider. *)
Definition shown (r : app * result (list note_view)) : list note_view := pv_notes (notes_pv (fst r)).

Definition newest_first (x y : note_view) : Prop := uploadedAt (v_note y) <= uploadedAt (v_note x).
Definition oldest_first (x y : note_view) : Prop := uploadedAt (v_note x) <= uploadedAt (v_note y).

Lemma filter_if_opt_test o keep ns : filter_if o keep ns = List.filter (opt_test o keep) ns.
Proof. unfold filter_if, opt_test. destruct (truthy o); [done|]. symmetry. by apply filter_all_true. Qed.

Lemma filter_filter_and {A} (p r : A -> bool) l :
  List.filter r (List.filter p l) = List.filter (fun x => p x && r x) l.
Proof.
  induction l as [|x l IH]; simpl; [done|].
  destruct (p x); simpl; [destruct (r x); simpl; [f_equal|]|]; exact IH.
Qed.

Lemma view_field_uploadedAt v : view_field "uploadedAt" v = JNum (uploadedAt (v_note v)).
Proof. reflexivity. Qed.

Lemma with_user_info_note s n :
  uploadedAt (v_note (with_user_info s n)) = uploadedAt n /\
  isPrivate (v_note (with_user_info s n)) = isPrivate n /\
  uploadedBy (v_note (with_user_info s n)) = uploadedBy n /\ nid (v_note (with_user_info s n)) = nid n.
Proof. done. Qed.

Lemma In_map_with {A B} (f : A -> B) (p : A -> bool) l v :
  In v (map f (List.filter p l)) -> exists n, In n l /\ p n = true /\ v = f n.
Proof.
  intros (n & <- & Hn)%in_map_iff. apply filter_In in Hn as [Hn Hp]. by exists n.
Qed.

(** A public store for the examples: two public notes of one user. *)
Definition ex_q_note (id t likes : Z) : note :=
  mkNote id "Notes" "d" "MIT" "CS" "Algebra" "1" "data:x" "n.pdf" 1 "" false 0 0 likes t.
Definition ex_q_app : app :=
  mkApp (mkStorage [ex_q_note 10 1000 1; ex_q_note 20 2000 0] [mkLike 5 1 10 3000]
           [mkUser 1 "Ann" "ann@uni.edu" "pw" 0] (Some (mkSession 1 "Ann" "ann@uni.edu" 0)))
    init_notes_provider (mkAuthProvider (Some (mkSession 1 "Ann" "ann@uni.edu" 0)) false true).
(** The sort order the SearchBar select sends for "Ascending". *)
Definition ex_ASC : search_filters := mkFilters None None None None None None None (Some "ASC").

(** JavaScript's [typeof] on the values [searchNotes] compares. *)
Inductive js_type := TNumber | TString | TBoolean | TUndefined.

Definition typeof (x : jsval) : js_type :=
  match x with JNum _ => TNumber | JStr _ => TString | JBool _ => TBoolean | JUndef => TUndefined end.

(** The [sortBy] options of the SearchBar's select, in order. *)
Definition sortBy_options : list string := ["uploadedAt"; "downloads"; "views"; "likes"; "popularity"]%string.

Lemma fetchNotes_sorted a page limit : Sorted newest_first (shown (fetchNotes a page limit)).
Proof. apply Sorted_slice, (js_sort_sorted (fun v => uploadedAt (v_note v))). Qed.

Lemma getMyNotes_shown a page limit su v :
  In v (shown (getMyNotes a page limit)) -> getCurrentUser (store a) = Some su ->
  exists n, In n (notesBuddy_notes (store a)) /\
    uploadedBy n = su_id su /\ v = mkView n (su_name su) (su_email su) None.
Proof.
  intros Hv Hsu. revert Hv. unfold getMyNotes, shown. rewrite Hsu. simpl. intros Hv%slice_In. apply js_sort_In in Hv.
  apply In_map_with in Hv as (n & Hn & Hp & ->). exists n. split_and!; [done| |done]. by nb_bool.
Qed.

(** The single-predicate form of the filter chain of [searchNotes]. *)
Lemma search_filtered_spec s f : search_filtered s f = List.filter (search_pred s f) (notesBuddy_notes s).
Proof.
  unfold search_filtered. rewrite !filter_if_opt_test, !filter_filter_and.
  apply List.filter_ext. intros n. unfold search_pred. by rewrite !andb_assoc.
Qed.

(** C8: [fetchNotes] succeeds and shows a page of notes that are all
    stored notes the current user may see (public, or their own), each
    with its uploader's information, newest first. *)
Theorem fetchNotes_visible_sorted a page limit :
  let r := fetchNotes a page limit in
  snd r = Success (shown r) /\ Sorted newest_first (shown r) /\
  forall v, In v (shown r) -> exists n, In n (notesBuddy_notes (store a)) /\
    can_view (getCurrentUser (store a)) n = true /\ v = with_user_info (store a) n.
Proof.
  cbn zeta. split_and!; [done|apply fetchNotes_sorted|]. unfold fetchNotes, shown. simpl.
  intros v Hv%slice_In. apply js_sort_In in Hv. by apply In_map_with in Hv.
Qed.

(** C9: every note [searchNotes] shows is a stored note that passes all
    of its filters: visible to the current user, and matching each
    non-empty filter (text, subject, semester, school, discipline,
    uploader name). *)
Theorem searchNotes_sound a f page limit :
  let r := searchNotes a f page limit in
  snd r = Success (shown r) /\
  forall v, In v (shown r) -> exists n, In n (notesBuddy_notes (store a)) /\
    search_pred (store a) f n = true /\ v = with_user_info (store a) n.
Proof.
  cbn zeta. unfold searchNotes, shown. simpl. split; [done|].
  intros v Hv%slice_In. apply js_sort_In in Hv. rewrite search_filtered_spec in Hv.
  by apply In_map_with in Hv.
Qed.

Ltac search_cmp_tac Ho :=
  intros x y; unfold search_cmp; rewrite Ho, !view_field_uploadedAt; cbn;
  destruct (Z.ltb_spec (uploadedAt (v_note x)) (uploadedAt (v_note y)));
  destruct (Z.ltb_spec (uploadedAt (v_note y)) (uploadedAt (v_note x))); lia.

Lemma searchNotes_order_gen a f page limit :
  js_or_opt (sortBy f) "uploadedAt" = "uploadedAt"%string ->
  if String.eqb (js_or_opt (sortOrder f) "desc") "asc"
  then Sorted oldest_first (shown (searchNotes a f page limit))
  else Sorted newest_first (shown (searchNotes a f page limit)).
Proof.
  intros Hb. unfold searchNotes, shown. simpl. rewrite Hb.
  destruct (String.eqb (js_or_opt (sortOrder f) "desc") "asc") eqn:Ho; apply Sorted_slice.
  - eapply Sorted_impl; [|apply (js_sort_sorted_gen (fun v => - uploadedAt (v_note v)))].
    + unfold oldest_first. intros; lia.
    + search_cmp_tac Ho.
    + search_cmp_tac Ho.
  - apply (js_sort_sorted_gen (fun v => uploadedAt (v_note v))); search_cmp_tac Ho.
Qed.

(** C13: sorting by upload time, [searchNotes] orders oldest first only
    when the sort order is exactly ['asc']; any other value, the
    ['ASC'] the SearchBar sends included, orders newest first. *)
Theorem searchNotes_order a f page limit :
  js_or_opt (sortBy f) "uploadedAt" = "uploadedAt"%string ->
  if String.eqb (js_or_opt (sortOrder f) "desc") "asc"
  then Sorted oldest_first (shown (searchNotes a f page limit))
  else Sorted newest_first (shown (searchNotes a f page limit)).
Proof. apply searchNotes_order_gen. Qed.

Lemma searchNotes_order_witness :
  Sorted newest_first (shown (searchNotes ex_q_app ex_ASC 1 20)) /\
  map (fun v => nid (v_note v)) (shown (searchNotes ex_q_app ex_ASC 1 20)) = [20; 10].
Proof. split; [exact (searchNotes_order ex_q_app ex_ASC 1 20 eq_refl)|reflexivity]. Defined.

(** Without a session [getMyNotes] fails with "Not authenticated";
    with one it shows, newest first, only notes the user uploaded, with
    the session's name and e-mail. *)
Lemma getMyNotes_own a page limit :
  match getCurrentUser (store a) with
  | None => getMyNotes a page limit = (stop_loading a, fail: "Not authenticated")
  | Some su =>
    let r := getMyNotes a page limit in
    snd r = Success (shown r) /\ Sorted newest_first (shown r) /\
    forall v, In v (shown r) -> exists n, In n (notesBuddy_notes (store a)) /\
      uploadedBy n = su_id su /\ v = mkView n (su_name su) (su_email su) None
  end.
Proof.
  destruct (getCurrentUser (store a)) as [su|] eqn:Hsu; [|unfold getMyNotes; by rewrite Hsu].
  cbn zeta. split_and!; [unfold getMyNotes, shown; by rewrite Hsu| |intros v Hv; by apply (getMyNotes_shown _ _ _ _ v Hv)].
  unfold getMyNotes, shown. rewrite Hsu. simpl.
  apply Sorted_slice, (js_sort_sorted (fun v => uploadedAt (v_note v))).
Qed.

Lemma In_omap {A B} (f : A -> option B) l y : In y (omap f l) <-> exists x, In x l /\ f x = Some y.
Proof.
  rewrite <- list_elem_of_In, list_elem_of_omap.
  split; intros (x & Hx & Hf); exists x; split; try done; by apply list_elem_of_In.
Qed.

(** The views [getLikedNotes] builds are keyed by the note id. *)
Lemma liked_find_unique s (ns : list note) n :
  NoDup (nid <$> ns) -> In n ns ->
  List.find (fun v => nid (v_note v) =? nid n) (map (liked_view s) ns) = Some (liked_view s n).
Proof.
  intros Hnd Hn. destruct (List.find _ _) as [v|] eqn:Hf.
  - apply find_some_in in Hf as [(m & <- & Hm)%in_map_iff Hid]. simpl in Hid. nb_bool.
    f_equal. f_equal. by apply (NoDup_fmap_inj nid ns).
  - exfalso. pose proof (find_None_false _ _ Hf (liked_view s n) (in_map _ _ _ Hn)) as H.
    simpl in H. by rewrite Z.eqb_refl in H.
Qed.

(** C14: in a consistent store, [getLikedNotes] for a logged-in user
    shows exactly the stored notes the user has a like record for: each
    note shown is stored and liked by the user, and each stored note the
    user liked is shown (marked [isLiked]). *)
Theorem getLikedNotes_spec a su :
  store_ok (store a) -> getCurrentUser (store a) = Some su ->
  let r := getLikedNotes a in
  snd r = Success (shown r) /\
  (forall v, In v (shown r) -> In (v_note v) (notesBuddy_notes (store a)) /\ isLiked v = Some true /\
     exists l, In l (notesBuddy_likes (store a)) /\ userId l = su_id su /\ noteId l = nid (v_note v)) /\
  (forall n l, In n (notesBuddy_notes (store a)) -> In l (notesBuddy_likes (store a)) ->
     userId l = su_id su -> noteId l = nid n -> In (liked_view (store a) n) (shown r)).
Proof.
  intros Hok Hsu. cbn zeta. unfold getLikedNotes, shown. rewrite Hsu. simpl. split_and!; [done| |].
  - intros v (l & Hl & Hf)%In_omap. apply js_sort_In, filter_In in Hl as [Hl Hul].
    apply find_some_in in Hf as [(n & <- & Hn)%in_map_iff Hid].
    apply filter_In in Hn as [Hn _]. simpl in *. nb_bool. split_and!; [done|done|]. by exists l.
  - intros n l Hn Hl Hul Hnl. apply In_omap. exists l. split.
    + apply js_sort_In, filter_In. split; [done|]. by apply Z.eqb_eq.
    + rewrite Hnl. apply liked_find_unique.
      * apply NoDup_fmap_filter, (ok_ids _ Hok).
      * apply filter_In. split; [done|]. apply List.existsb_exists. exists (noteId l).
        split; [apply in_map, filter_In; split; [done|by apply Z.eqb_eq]|]. rewrite Hnl. apply Z.eqb_refl.
Qed.

Lemma getLikedNotes_spec_witness :
  In (liked_view (store ex_q_app) (ex_q_note 10 1000 1)) (shown (getLikedNotes ex_q_app)).
Proof.
  assert (Hok : store_ok (store ex_q_app)).
  { apply (bool_decide_unpack _). vm_compute. reflexivity. }
  refine (proj2 (proj2 (getLikedNotes_spec ex_q_app (mkSession 1 "Ann" "ann@uni.edu" 0) Hok eq_refl))
    (ex_q_note 10 1000 1) (mkLike 5 1 10 3000) _ _ eq_refl eq_refl); simpl; auto.
Defined.

(** C30: when the sort key is not a property of the notes (the "views",
    "likes" and "popularity" options of the SearchBar), every comparison
    in [searchNotes]' comparator is false and it answers -1 for every
    pair, both ways round: an inconsistent comparator, for which
    ECMAScript leaves the order to the engine.  What holds on every
    engine: the comparator, hence the result, is the same whatever
    [sortOrder] the SearchBar sends, and the page is cut from some
    permutation of the filtered notes. *)
Theorem searchNotes_unknown_sortBy a f page limit o :
  (forall v, view_field (js_or_opt (sortBy f) "uploadedAt") v = JUndef) ->
  (forall x y, search_cmp (js_or_opt (sortBy f) "uploadedAt") (js_or_opt (sortOrder f) "desc") x y = -1) /\
  searchNotes a (mkFilters (q f) (f_subject f) (f_semester f) (f_schoolName f) (f_disciplineName f)
                   (f_userName f) (sortBy f) o) page limit = searchNotes a f page limit /\
  exists l, Permutation l (map (with_user_info (store a)) (search_filtered (store a) f)) /\
    shown (searchNotes a f page limit) = page_of l page limit.
Proof.
  intros Hu. assert (forall o' x y, search_cmp (js_or_opt (sortBy f) "uploadedAt") o' x y = -1) as Hc.
  { intros o' x y. unfold search_cmp. rewrite !Hu. by destruct (String.eqb _ "asc"). }
  split_and!; [apply Hc| |].
  - destruct f as [q0 su0 se0 sc0 di0 us0 sb0 so0]. unfold searchNotes. simpl.
    erewrite js_sort_ext; [reflexivity|]. intros x y. simpl. by rewrite !Hc.
  - eexists. split; [apply js_sort_perm|]. reflexivity.
Qed.

Lemma searchNotes_unknown_sortBy_witness :
  searchNotes ex_q_app (mkFilters None None None None None None (Some "likes") (Some "ASC")) 1 20 =
  searchNotes ex_q_app (mkFilters None None None None None None (Some "likes") (Some "DESC")) 1 20.
Proof.
  apply (searchNotes_unknown_sortBy ex_q_app (mkFilters None None None None None None (Some "likes") (Some "DESC"))
           1 20 (Some "ASC")).
  intros v. reflexivity.
Defined.

(** The objects [searchNotes] sorts all have one shape: the type of
    [obj[key]] depends on the key only, never on the note, so a sort key
    compares numbers with numbers, strings with strings, or [undefined]
    with [undefined].  Of the SearchBar's options, "uploadedAt" and
    "downloads" are numbers, and "views", "likes" and "popularity" are
    [undefined] on every note (the hypothesis of [searchNotes_unknown_sortBy]). *)
Theorem view_field_typeof k v w :
  typeof (view_field k v) = typeof (view_field k w) /\
  map (fun k => typeof (view_field k v)) sortBy_options = [TNumber; TNumber; TUndefined; TUndefined; TUndefined].
Proof.
  split; [|reflexivity]. unfold view_field. cbn -[String.eqb].
  repeat (destruct (String.eqb _ k); [reflexivity|]). reflexivity.
Qed.
