(* ===== verification/UploadPage.v ===== *)
(** * UploadPage: the Upload page, its FileUpload and the alternative handlers

    Upload.jsx keeps [formData] (six text fields and the [isPrivate]
    checkbox), [file], [errors] and [loading]; FileUpload.jsx keeps the
    [selectedFile] and the [error] it shows, and hands a file that passes
    [validateFile] to the page ([onFileSelect = handleFileSelect]).  On
    submit the page validates, builds a [FormData] ([append] turns the
    boolean [isPrivate] into ['true'] or ['false']) and calls
    [uploadNote]; it navigates to [/notes] on success.

    The [handleSubmit] of UPDATE_Upload.jsx (and the identical one
    CHANGES_NEEDED.js proposes) validates the same way but passes a
    plain object to [uploadNote]: [updated_handleSubmit].  The rest of
    UPDATE_Upload.jsx is Upload.jsx line for line, so that page is
    [updated_run]: [upload_run] with the other submission.  On any list
    of inputs the two pages hold the same form, and UPDATE_Upload.jsx
    never changes the storage ([updated_page_same_form]).

    The [errors] object is an association list in insertion order, as
    [Object.keys] enumerates it.  [fu_render] is what FileUpload shows:
    the border, the hint or the selected file with its size rounded to
    hundredths of a MB as [toFixed(2)] does, and the error alert. *)

From stdpp Require Import relations.
From S2P Require Import Prelude JsString JsNumber Store NotesStore.

Record upload_fields := mkFields {
  in_title : string; in_description : string; in_schoolName : string;
  in_disciplineName : string; in_subject : string; in_semester : string; in_isPrivate : bool
}.

Record upload_page := mkUploadPage {
  pg_formData : upload_fields; pg_file : option js_file;
  pg_errors : list (string * string); pg_loading : bool;
  fu_selectedFile : option js_file; fu_error : string; fu_dragActive : bool
}.

(** The [useState] initial values of both components. *)
Definition init_upload_page : upload_page :=
  mkUploadPage (mkFields "" "" "" "" "" "" false) None [] false None "" false.

Definition set_formData (fd : upload_fields) (p : upload_page) : upload_page :=
  mkUploadPage fd (pg_file p) (pg_errors p) (pg_loading p) (fu_selectedFile p) (fu_error p) (fu_dragActive p).
Definition set_file (f : option js_file) (p : upload_page) : upload_page :=
  mkUploadPage (pg_formData p) f (pg_errors p) (pg_loading p) (fu_selectedFile p) (fu_error p) (fu_dragActive p).
Definition set_errors (e : list (string * string)) (p : upload_page) : upload_page :=
  mkUploadPage (pg_formData p) (pg_file p) e (pg_loading p) (fu_selectedFile p) (fu_error p) (fu_dragActive p).
Definition set_page_loading (b : bool) (p : upload_page) : upload_page :=
  mkUploadPage (pg_formData p) (pg_file p) (pg_errors p) b (fu_selectedFile p) (fu_error p) (fu_dragActive p).
Definition set_fu (sel : option js_file) (err : string) (p : upload_page) : upload_page :=
  mkUploadPage (pg_formData p) (pg_file p) (pg_errors p) (pg_loading p) sel err (fu_dragActive p).
Definition set_dragActive (b : bool) (p : upload_page) : upload_page :=
  mkUploadPage (pg_formData p) (pg_file p) (pg_errors p) (pg_loading p) (fu_selectedFile p) (fu_error p) b.

(** ** Upload.jsx *)

Definition err_if (c : bool) (k msg : string) : list (string * string) := if c then [(k, msg)] else [].

(** [!s || s.trim().length < n]. *)
Definition too_short (s : string) (n : Z) : bool := String.eqb s "" || (js_length (trim s) <? n).

Definition validateForm (fd : upload_fields) (file : option js_file) : list (string * string) :=
  err_if (too_short (in_title fd) 3) "title" "Title must be at least 3 characters" ++
  err_if (negb (String.eqb (in_description fd) "") && (2000 <? js_length (in_description fd)))
    "description" "Description must not exceed 2000 characters" ++
  err_if (too_short (in_schoolName fd) 2) "schoolName" "School name is required" ++
  err_if (too_short (in_disciplineName fd) 2) "disciplineName" "Discipline name is required" ++
  err_if (too_short (in_subject fd) 2) "subject" "Subject is required" ++
  err_if (too_short (in_semester fd) 1) "semester" "Semester is required" ++
  err_if (match file with None => true | Some _ => false end) "file" "Please select a PDF file".

(** [if (errors[name]) setErrors(prev => ({ ...prev, [name]: '' }))]. *)
Definition clear_error (nm : string) (errs : list (string * string)) : list (string * string) :=
  map (fun kv => if String.eqb (fst kv) nm && negb (String.eqb (snd kv) "") then (fst kv, ""%string) else kv)
    errs.

(** [[name]: value] for the text inputs and the select. *)
Definition set_text (nm v : string) (fd : upload_fields) : upload_fields :=
  let '(mkFields t d sc di su se p) := fd in
  if String.eqb nm "title" then mkFields v d sc di su se p
  else if String.eqb nm "description" then mkFields t v sc di su se p
  else if String.eqb nm "schoolName" then mkFields t d v di su se p
  else if String.eqb nm "disciplineName" then mkFields t d sc v su se p
  else if String.eqb nm "subject" then mkFields t d sc di v se p
  else if String.eqb nm "semester" then mkFields t d sc di su v p
  else fd.

(** [[name]: checked] for the [isPrivate] checkbox. *)
Definition set_check (nm : string) (b : bool) (fd : upload_fields) : upload_fields :=
  if String.eqb nm "isPrivate" then
    mkFields (in_title fd) (in_description fd) (in_schoolName fd) (in_disciplineName fd)
      (in_subject fd) (in_semester fd) b
  else fd.

Definition handleChange_text (nm v : string) (p : upload_page) : upload_page :=
  set_errors (clear_error nm (pg_errors p)) (set_formData (set_text nm v (pg_formData p)) p).
Definition handleChange_check (nm : string) (b : bool) (p : upload_page) : upload_page :=
  set_errors (clear_error nm (pg_errors p)) (set_formData (set_check nm b (pg_formData p)) p).

Definition handleFileSelect (f : option js_file) (p : upload_page) : upload_page :=
  set_errors (clear_error "file" (pg_errors p)) (set_file f p).

(** [formDataToSend.append('isPrivate', formData.isPrivate)]. *)
Definition bool_to_string (b : bool) : string := if b then "true" else "false".

Definition to_form_data (fd : upload_fields) (f : js_file) : upload_form :=
  mkForm (trim (in_title fd)) (trim (in_description fd)) (trim (in_schoolName fd))
    (trim (in_disciplineName fd)) (trim (in_subject fd)) (trim (in_semester fd))
    (bool_to_string (in_isPrivate fd)) (Some f).

(** [handleSubmit]: the new states and whether it navigates to [/notes].
    A valid form has a file, so the [None] branch is not reached. *)
Definition handleSubmit (a : app) (p : upload_page) (now : Z) : app * upload_page * bool :=
  let errs := validateForm (pg_formData p) (pg_file p) in
  let p1 := set_errors errs p in
  match errs, pg_file p with
  | _ :: _, _ | [], None => (a, p1, false)
  | [], Some f =>
    let '(a', r) := uploadNote a (to_form_data (pg_formData p) f) now in
    (a', set_page_loading false p1, is_success r)
  end.

(** ** FileUpload.jsx (with its default [maxSize] of 10485760 bytes) *)

Definition maxSize : Z := 10485760.

Definition validateFile (file : option js_file) : result unit :=
  match file with
  | None => fail: "Please select a file"
  | Some f =>
    if negb (includes (file_type f) "pdf") then fail: "Only PDF files are allowed"
    else if maxSize <? file_size f then fail: "File size must not exceed 10MB"
    else Success tt
  end.

(** [handleFile] (from a drop or the input): on success the component
    keeps the file and hands it to the page. *)
Definition handleFile (f : js_file) (p : upload_page) : upload_page :=
  match validateFile (Some f) with
  | Success _ => handleFileSelect (Some f) (set_fu (Some f) "" p)
  | Failure msg _ => set_fu (fu_selectedFile p) msg p
  end.

Definition handleRemove (p : upload_page) : upload_page :=
  handleFileSelect None (set_fu None "" p).

(** The drag events the drop zone listens to. *)
Inductive drag_kind := DragEnter | DragOver | DragLeave.

(** [handleDrag]: [dragenter] and [dragover] highlight the zone,
    [dragleave] clears it. *)
Definition handleDrag (k : drag_kind) (p : upload_page) : upload_page :=
  match k with
  | DragEnter | DragOver => set_dragActive true p
  | DragLeave => set_dragActive false p
  end.

(** [handleDrop]: clear the highlight, then [handleFile] on the first
    dropped file, if any.  The input's [accept=".pdf"] filters only the
    file picker, not a drop: [validateFile] is the check. *)
Definition handleDrop (files : list js_file) (p : upload_page) : upload_page :=
  let p1 := set_dragActive false p in
  match files with f :: _ => handleFile f p1 | [] => p1 end.

(** The input's [handleChange]: [handleFile] on the first chosen file. *)
Definition fu_handleChange (files : list js_file) (p : upload_page) : upload_page :=
  match files with f :: _ => handleFile f p | [] => p end.

(** What FileUpload renders: the drop zone's border, its content (the
    hint, or the selected file's name and size) and the error alert. *)
Inductive fu_border := BorderActive | BorderError | BorderIdle.

Inductive fu_zone := ZoneHint (limit : string) | ZoneFile (name size : string).

Record fu_view := mkFuView { fv_border : fu_border; fv_zone : fu_zone; fv_alert : option string }.

(** [(size / 1048576).toFixed(2)] in hundredths: the quotient by [2^20]
    is exact in doubles (sizes are below [2^53]), and [toFixed] takes the
    integer [n] closest to [100 * x], the larger one on a tie. *)
Definition mb_hundredths (size : Z) : Z := (100 * size + 524288) / 1048576.

(** [toFixed(2)] of [n / 100] for [n >= 0]: at least one digit before
    the point, two after. *)
Definition fixed2 (n : Z) : string :=
  number_to_string (n / 100) ++ "." ++
  (if n mod 100 <? 10 then "0" else "") ++ number_to_string (n mod 100).

(** A negative [x] is printed as ["-"] and [toFixed] of [-x]. *)
Definition size_label (size : Z) : string :=
  (if size <? 0 then "-" ++ fixed2 (mb_hundredths (- size)) else fixed2 (mb_hundredths size)) ++ " MB".

Definition fu_render (p : upload_page) : fu_view :=
  mkFuView
    (if fu_dragActive p then BorderActive
     else if negb (String.eqb (fu_error p) "") then BorderError else BorderIdle)
    (match fu_selectedFile p with
     | None => ZoneHint ("PDF files only, max " ++ number_to_string (maxSize / 1048576) ++ "MB")
     | Some f => ZoneFile (file_name f) (size_label (file_size f))
     end)
    (if String.eqb (fu_error p) "" then None else Some (fu_error p)).

(** ** The alternative [handleSubmit] (UPDATE_Upload.jsx, CHANGES_NEEDED.js) *)

Definition to_note_data (fd : upload_fields) (b64 : string) (f : js_file) : note_data :=
  mkNoteData (trim (in_title fd)) (trim (in_description fd)) (trim (in_schoolName fd))
    (trim (in_disciplineName fd)) (trim (in_subject fd)) (trim (in_semester fd))
    (in_isPrivate fd) b64 (file_name f).

(** A file the [FileReader] cannot read ([file_dataURL = None]) ends in
    the [catch] ("Failed to process file"). *)
Definition updated_handleSubmit (a : app) (p : upload_page) (now : Z) : app * upload_page * bool :=
  let errs := validateForm (pg_formData p) (pg_file p) in
  let p1 := set_errors errs p in
  match errs, pg_file p with
  | _ :: _, _ | [], None => (a, p1, false)
  | [], Some f =>
    match file_dataURL f with
    | None => (a, set_page_loading false p1, false)
    | Some b64 =>
      let '(a', r) := uploadNote_arg a (PlainObject (to_note_data (pg_formData p) b64 f)) now in
      (a', set_page_loading false p1, is_success r)
    end
  end.

(** ** The page as a transition system *)

(** The [name]s of the text inputs and the textarea Upload.jsx renders,
    each with [onChange={handleChange}], and of its checkbox. *)
Definition upload_text_inputs : list string :=
  ["title"; "description"; "schoolName"; "disciplineName"; "subject"; "semester"]%string.
Definition upload_check_inputs : list string := ["isPrivate"]%string.

(** The same inputs in UPDATE_Upload.jsx. *)
Definition updated_text_inputs : list string :=
  ["title"; "description"; "schoolName"; "disciplineName"; "subject"; "semester"]%string.
Definition updated_check_inputs : list string := ["isPrivate"]%string.

(** [formData[name]] for the text fields. *)
Definition upload_field (nm : string) (fd : upload_fields) : option string :=
  if String.eqb nm "title" then Some (in_title fd)
  else if String.eqb nm "description" then Some (in_description fd)
  else if String.eqb nm "schoolName" then Some (in_schoolName fd)
  else if String.eqb nm "disciplineName" then Some (in_disciplineName fd)
  else if String.eqb nm "subject" then Some (in_subject fd)
  else if String.eqb nm "semester" then Some (in_semester fd)
  else None.

Inductive upload_event :=
| UText (nm v : string) | UCheck (nm : string) (b : bool)
| UDrag (k : drag_kind) | UDrop (files : list js_file) | UInput (files : list js_file)
| URemoveFile | USubmit (now : Z).

Definition upload_run (a : app) (p : upload_page) (e : upload_event) : app * upload_page :=
  match e with
  | UText nm v => if existsb (String.eqb nm) upload_text_inputs then (a, handleChange_text nm v p) else (a, p)
  | UCheck nm b => if existsb (String.eqb nm) upload_check_inputs then (a, handleChange_check nm b p) else (a, p)
  | UDrag k => (a, handleDrag k p)
  | UDrop fs => (a, handleDrop fs p)
  | UInput fs => (a, fu_handleChange fs p)
  | URemoveFile => (a, handleRemove p)
  | USubmit now => let '(a', p', _) := handleSubmit a p now in (a', p')
  end.

Inductive upload_step : app * upload_page -> app * upload_page -> Prop :=
| upload_step_event a p e : upload_step (a, p) (upload_run a p e).

(** UPDATE_Upload.jsx as a page: its [validateForm], [handleChange] and
    [handleFileSelect] are those of Upload.jsx, line for line, and
    FileUpload is the same component; only [handleSubmit] differs. *)
Definition updated_run (a : app) (p : upload_page) (e : upload_event) : app * upload_page :=
  match e with
  | USubmit now => let '(a', p', _) := updated_handleSubmit a p now in (a', p')
  | UText nm v => if existsb (String.eqb nm) updated_text_inputs then (a, handleChange_text nm v p) else (a, p)
  | UCheck nm b => if existsb (String.eqb nm) updated_check_inputs then (a, handleChange_check nm b p) else (a, p)
  | _ => upload_run a p e
  end.

Definition upload_trace (a : app) (p : upload_page) (es : list upload_event) : app * upload_page :=
  fold_left (fun st e => upload_run (fst st) (snd st) e) es (a, p).
Definition updated_trace (a : app) (p : upload_page) (es : list upload_event) : app * upload_page :=
  fold_left (fun st e => updated_run (fst st) (snd st) e) es (a, p).

(** ** A session of the page: Ann is logged in, types a title with
    surrounding spaces, picks a PDF, fills the rest and ticks private. *)

Definition ex_upload_app : app :=
  mkApp (mkStorage [] [] [mkUser 1 "Ann" "ann@uni.edu" "pw" 0] (Some (mkSession 1 "Ann" "ann@uni.edu" 0)))
    init_notes_provider (mkAuthProvider (Some (mkSession 1 "Ann" "ann@uni.edu" 0)) false true).
Definition ex_upload_file : js_file :=
  mkFile "os.pdf" "application/pdf" 2048 (Some "data:application/pdf;base64,AAA").
Definition ex_upload_path : upload_page :=
  handleChange_check "isPrivate" true
    (handleChange_text "semester" "4" (handleChange_text "subject" "OS"
      (handleChange_text "disciplineName" "CS" (handleChange_text "schoolName" "MIT"
        (handleFile ex_upload_file (handleChange_text "title" "  Operating Systems " init_upload_page)))))).

(** The same session as a list of inputs, ending in a submission. *)
Definition ex_upload_inputs : list upload_event :=
  [UText "title" "  Operating Systems "; UInput [ex_upload_file]; UText "schoolName" "MIT";
   UText "disciplineName" "CS"; UText "subject" "OS"; UText "semester" "4"; UCheck "isPrivate" true;
   USubmit 5000].

(** ** Properties *)

(** Each text input of the page writes the field of its [name], and
    only that one: the [name] attributes match the keys [handleChange]
    writes. *)
Lemma upload_inputs_write_own_field nm v fd :
  In nm upload_text_inputs ->
  upload_field nm (set_text nm v fd) = Some v /\
  forall nm', In nm' upload_text_inputs -> nm' <> nm -> upload_field nm' (set_text nm v fd) = upload_field nm' fd.
Proof.
  destruct fd. intros Hin. split.
  - repeat (destruct Hin as [<-|Hin]; [reflexivity|]). done.
  - intros nm' Hin' Hne.
    repeat (destruct Hin as [<-|Hin]; [repeat (destruct Hin' as [<-|Hin']; [done|]); done|]). done.
Qed.

(** The files the page may hold: PDFs of at most [maxSize] bytes. *)
Definition file_ok (f : option js_file) : Prop :=
  forall x, f = Some x -> includes (file_type x) "pdf" = true /\ file_size x <= maxSize.

Definition page_ok (p : upload_page) : Prop := file_ok (pg_file p) /\ file_ok (fu_selectedFile p).

Lemma err_if_nil c k msg : err_if c k msg = [] <-> c = false.
Proof. unfold err_if. destruct c; split; done. Qed.

Lemma too_short_false s n : 1 <= n -> too_short s n = false <-> n <= js_length (trim s).
Proof.
  intros Hn. unfold too_short. destruct (String.eqb_spec s "") as [->|Hne]; simpl.
  - cbv [trim js_length]. simpl. split; [done|lia].
  - rewrite Z.ltb_ge. done.
Qed.

Lemma validateFile_ok f : validateFile (Some f) = Success tt <->
  includes (file_type f) "pdf" = true /\ file_size f <= maxSize.
Proof.
  unfold validateFile. destruct (includes _ _); simpl; [|split; [done|intros []; done]].
  destruct (Z.ltb_spec maxSize (file_size f)); split; try done; intros []; lia.
Qed.

Lemma bool_to_string_eqb b : String.eqb (bool_to_string b) "true" = b.
Proof. by destruct b. Qed.

Lemma page_ok_set_errors e p : page_ok p -> page_ok (set_errors e p).
Proof. done. Qed.

Lemma page_ok_handleFile f p : page_ok p -> page_ok (handleFile f p).
Proof.
  intros [Hf Hs]. unfold handleFile. destruct (validateFile (Some f)) as [[]|] eqn:Hv.
  - apply validateFile_ok in Hv. split; intros x [= <-]; done.
  - split; done.
Qed.

Lemma page_ok_run a p e : page_ok p -> page_ok (snd (upload_run a p e)).
Proof.
  intros Hp. destruct e; simpl.
  - by case_match.
  - by case_match.
  - by destruct k.
  - destruct files; [exact Hp|]. by apply page_ok_handleFile.
  - destruct files; [exact Hp|]. by apply page_ok_handleFile.
  - split; intros x Hx; discriminate.
  - unfold handleSubmit. destruct (validateForm _ _), (pg_file p); try exact Hp.
    destruct (uploadNote _ _ _). exact Hp.
Qed.

Lemma rtc_upload_ok st st' : rtc upload_step st st' -> page_ok (snd st) -> page_ok (snd st').
Proof.
  induction 1 as [|x y z Hxy _ IH]; [done|]. intros Hx. apply IH.
  destruct Hxy as [a p e]. by apply page_ok_run.
Qed.

(** C18: on every path of the Upload page from its initial state (typing,
    ticking, picking or removing a file through FileUpload, submitting),
    the file the page holds, and the one FileUpload shows, is a PDF of
    at most 10 MB. *)
Theorem upload_page_file_ok a a' p' :
  rtc upload_step (a, init_upload_page) (a', p') -> page_ok p'.
Proof.
  intros Hr. apply (rtc_upload_ok _ _ Hr). split; intros x Hx; discriminate.
Qed.

(** C19: [validateForm] reports no error exactly when the trimmed title
    has at least 3 characters, the description at most 2000, the trimmed
    school, discipline and subject at least 2, the trimmed semester at
    least 1, and a file is selected. *)
Theorem validateForm_nil fd file :
  validateForm fd file = [] <->
  3 <= js_length (trim (in_title fd)) /\
  (in_description fd = ""%string \/ js_length (in_description fd) <= 2000) /\
  2 <= js_length (trim (in_schoolName fd)) /\ 2 <= js_length (trim (in_disciplineName fd)) /\
  2 <= js_length (trim (in_subject fd)) /\ 1 <= js_length (trim (in_semester fd)) /\ file <> None.
Proof.
  unfold validateForm. rewrite !app_nil, !err_if_nil, !too_short_false by lia.
  rewrite andb_false_iff, negb_false_iff, Z.ltb_ge, String.eqb_eq.
  destruct file; split; intros; intuition congruence.
Qed.

(** C17: submitting a valid Upload form with a readable file while
    logged in uploads the note and navigates: the stored notes gain, at
    the end, a note with the trimmed fields, the checkbox's privacy (the
    ['true']/['false'] string of [FormData] read back), the file's data
    URL and name, and the session user as uploader. *)
Theorem handleSubmit_uploads a p now su f b64 :
  getCurrentUser (store a) = Some su -> validateForm (pg_formData p) (pg_file p) = [] ->
  pg_file p = Some f -> file_dataURL f = Some b64 ->
  let '(a', _, nav) := handleSubmit a p now in
  nav = true /\ exists n, notesBuddy_notes (store a') = notesBuddy_notes (store a) ++ [n] /\
    title n = trim (in_title (pg_formData p)) /\ 3 <= js_length (title n) /\
    isPrivate n = in_isPrivate (pg_formData p) /\ filePath n = b64 /\ fileName n = file_name f /\
    uploadedBy n = su_id su /\ nid n = now.
Proof.
  intros Hsu Hv Hf Hb. pose proof (proj1 (validateForm_nil _ _) Hv) as [Ht _].
  unfold handleSubmit. rewrite Hv, Hf. unfold uploadNote. rewrite Hsu. simpl. rewrite Hb. simpl.
  split; [done|]. eexists. split; [reflexivity|]. simpl. rewrite bool_to_string_eqb. done.
Qed.

Lemma updated_handleSubmit_inert a p now :
  let '(a', _, nav) := updated_handleSubmit a p now in nav = false /\ store a' = store a.
Proof.
  unfold updated_handleSubmit, uploadNote_arg.
  destruct (validateForm _ _), (pg_file p) as [f|]; try done.
  destruct (file_dataURL f); [|done]. destruct (getCurrentUser (store a)); done.
Qed.

(** Both submissions leave the page in the same state. *)
Lemma submit_same_page a a' p now :
  snd (fst (handleSubmit a p now)) = snd (fst (updated_handleSubmit a' p now)).
Proof.
  unfold handleSubmit, updated_handleSubmit, uploadNote_arg.
  destruct (validateForm _ _), (pg_file p) as [f|]; try done.
  destruct (uploadNote a _ now). destruct (file_dataURL f); [|done].
  by destruct (getCurrentUser (store a')).
Qed.

Lemma run_same_page a a' p e :
  snd (upload_run a p e) = snd (updated_run a' p e) /\ store (fst (updated_run a' p e)) = store a'.
Proof.
  destruct e as [nm v|nm b| | | | |now]; simpl; try done.
  1-2: unfold updated_text_inputs, upload_text_inputs, updated_check_inputs, upload_check_inputs;
    by case_match.
  pose proof (submit_same_page a a' p now) as Hp. pose proof (updated_handleSubmit_inert a' p now) as Hi.
  destruct (handleSubmit a p now) as [[a1 p1] n1], (updated_handleSubmit a' p now) as [[a2 p2] n2].
  simpl in *. split; [done|]. by destruct Hi.
Qed.

(** C29: UPDATE_Upload.jsx behaves as Upload.jsx on every input but never
    stores a note: on any sequence of inputs (typing, ticking, picking or
    removing a file, submitting), from the same page state, the two pages
    hold the same form, file, errors and FileUpload state at the end, and
    the storage seen by UPDATE_Upload.jsx is unchanged, whatever the
    Upload page stored. *)
Theorem updated_page_same_form a a' p es :
  snd (upload_trace a p es) = snd (updated_trace a' p es) /\ store (fst (updated_trace a' p es)) = store a'.
Proof.
  unfold upload_trace, updated_trace. revert a a' p. induction es as [|e es IH]; intros a a' p; [done|].
  simpl. destruct (run_same_page a a' p e) as [Hp Hs].
  destruct (upload_run a p e) as [a1 p1], (updated_run a' p e) as [a2 p2]. simpl in *. subst p2.
  destruct (IH a1 a2 p1) as [IHp IHs]. split; [done|]. by rewrite IHs, Hs.
Qed.

(** The size FileUpload shows is the size in MB rounded to the nearest
    hundredth. *)
Lemma mb_hundredths_bound (size : Z) :
  Z.abs (mb_hundredths size * 1048576 - 100 * size) <= 524288.
Proof.
  unfold mb_hundredths. pose proof (Z.div_mod (100 * size + 524288) 1048576 ltac:(lia)).
  pose proof (Z.mod_pos_bound (100 * size + 524288) 1048576 ltac:(lia)). lia.
Qed.

(** A file FileUpload accepted shows at most [10.00 MB]. *)
Lemma mb_hundredths_max (size : Z) : 0 <= size <= maxSize -> 0 <= mb_hundredths size <= 1000.
Proof.
  unfold maxSize, mb_hundredths. intros Hs. split; [apply Z.div_pos; lia|].
  enough ((100 * size + 524288) / 1048576 < 1001) by lia. apply Z.div_lt_upper_bound; lia.
Qed.

(** On every path of the Upload page, the file FileUpload shows has a
    size label of at most [10.00 MB], the rounding of its size. *)
Lemma fu_render_file a a' p' f :
  rtc upload_step (a, init_upload_page) (a', p') -> fu_selectedFile p' = Some f -> (0 <= file_size f) ->
  fv_zone (fu_render p') = ZoneFile (file_name f) (fixed2 (mb_hundredths (file_size f)) ++ " MB") /\
  0 <= mb_hundredths (file_size f) <= 1000.
Proof.
  intros Hr Hf Hs. assert (page_ok p') as [_ Hok].
  { apply (rtc_upload_ok _ _ Hr). split; intros x Hx; discriminate. }
  destruct (Hok f Hf) as [_ Hmax]. unfold fu_render. rewrite Hf. cbn [fv_zone]. unfold size_label.
  destruct (Z.ltb_spec (file_size f) 0); [lia|]. split; [done|]. apply mb_hundredths_max. lia.
Qed.

Example size_label_ex :
  map size_label [10485760; 524288; 5243; 0; 123456789] = ["10.00 MB"; "0.50 MB"; "0.01 MB"; "0.00 MB"; "117.74 MB"]%string.
Proof. vm_compute. reflexivity. Qed.

Example fu_render_hint : fv_zone (fu_render init_upload_page) = ZoneHint "PDF files only, max 10MB".
Proof. vm_compute. reflexivity. Qed.

Lemma upload_page_file_ok_witness : page_ok (handleFile ex_upload_file init_upload_page).
Proof.
  apply (upload_page_file_ok ex_upload_app ex_upload_app).
  eapply rtc_l; [exact (upload_step_event ex_upload_app init_upload_page (UInput [ex_upload_file]))|].
  apply rtc_refl.
Defined.

Lemma handleSubmit_uploads_witness : snd (handleSubmit ex_upload_app ex_upload_path 5000) = true.
Proof.
  pose proof (handleSubmit_uploads ex_upload_app ex_upload_path 5000 (mkSession 1 "Ann" "ann@uni.edu" 0)
    ex_upload_file "data:application/pdf;base64,AAA" eq_refl ltac:(vm_compute; reflexivity) eq_refl eq_refl) as H.
  destruct (handleSubmit ex_upload_app ex_upload_path 5000) as [[a' p'] nav]. simpl. by destruct H.
Defined.

Lemma updated_page_same_form_witness :
  notesBuddy_notes (store (fst (upload_trace ex_upload_app init_upload_page ex_upload_inputs))) <> [] /\
  notesBuddy_notes (store (fst (updated_trace ex_upload_app init_upload_page ex_upload_inputs))) = [].
Proof.
  split; [vm_compute; discriminate|].
  by rewrite (proj2 (updated_page_same_form ex_upload_app ex_upload_app init_upload_page ex_upload_inputs)).
Defined.
