(* ===== verification/Auth.v ===== *)
(** * Auth: the handlers of AuthContext.jsx, their invariant and behaviour

    [register], [login], [logout], [updateProfile], [changePassword],
    [deleteAccount] and the initialising effect, on the shared [app]
    state: the users array and the current user in the storage, and the
    AuthProvider's React state [user], [loading], [isAuthenticated].

    [updateProfile], [changePassword] and [deleteAccount] read the
    React [user] ([user.id]); when it is [null] the property access
    throws a [TypeError], which their [catch] turns into their generic
    failure message: that is the [None] branch of each.  [deleteAccount]
    also writes the notes array, which NotesContext reads. *)

From S2P Require Import Prelude Store.

(** The [data] of [updateProfile]: [name] and [email] may be absent. *)
Record profile_data := mkProfile { pd_name : option string; pd_email : option string }.

Definition set_auth (u : option session_user) (loading isAuth : bool) (a : app) : app :=
  set_auth_pv (mkAuthProvider u loading isAuth) a.

(** The effect of [AuthProvider] on mount. *)
Definition auth_init (a : app) : app :=
  let p := auth_pv a in
  match notesBuddy_currentUser (store a) with
  | Some userData => set_auth (Some userData) false true a
  | None => set_auth (au_user p) false (au_isAuthenticated p) a
  end.

(** Storing [userWithoutPassword] and the React state that follows it. *)
Definition log_in (u : user) (s : storage) (a : app) : app :=
  let su := without_password u in
  set_auth (Some su) (au_loading (auth_pv a)) true (set_store (set_current (Some su) s) a).

Definition register (a : app) (nm em pw : string) (now : Z) : app * result unit :=
  let s := store a in
  let users := notesBuddy_users s in
  match List.find (fun u => String.eqb (email u) em) users with
  | Some _ => (a, fail: "Email already registered")
  | None =>
    let newUser := mkUser now nm em pw now in
    (log_in newUser (set_users (users ++ [newUser]) s) a, Success tt)
  end.

Definition login (a : app) (em pw : string) : app * result unit :=
  let s := store a in
  match List.find (fun u => String.eqb (email u) em && String.eqb (password u) pw) (notesBuddy_users s) with
  | None => (a, fail: "Invalid credentials")
  | Some u => (log_in u s a, Success tt)
  end.

Definition logout (a : app) : app :=
  set_auth None (au_loading (auth_pv a)) false (set_store (set_current None (store a)) a).

(** [users[userIndex] = { ...users[userIndex], name: data.name || ...,
    email: data.email || ... }]. *)
Definition update_user (data : profile_data) (u : user) : user :=
  mkUser (uid u) (js_or_opt (pd_name data) (name u)) (js_or_opt (pd_email data) (email u))
    (password u) (createdAt u).

Definition updateProfile (a : app) (data : profile_data) : app * result unit :=
  let s := store a in
  match au_user (auth_pv a) with
  | None => (a, fail: "Update failed")
  | Some user =>
    let users := notesBuddy_users s in
    match find_index (fun u => uid u =? su_id user) users with
    | None => (a, fail: "User not found")
    | Some userIndex =>
      let taken :=
        match pd_email data with
        | Some e =>
          if negb (String.eqb e "") && negb (String.eqb e (su_email user)) then
            existsb (fun u => String.eqb (email u) e && negb (uid u =? su_id user)) users
          else false
        | None => false
        end in
      if taken then (a, fail: "Email already in use")
      else
        let users' := update_at userIndex (update_user data) users in
        match users' !! userIndex with
        | None => (a, fail: "User not found")
        | Some updated =>
          let updatedUser := without_password updated in
          let a' := set_store (set_current (Some updatedUser) (set_users users' s)) a in
          (set_auth (Some updatedUser) (au_loading (auth_pv a)) (au_isAuthenticated (auth_pv a)) a',
           Success tt)
        end
    end
  end.

Definition set_password (pw : string) (u : user) : user :=
  mkUser (uid u) (name u) (email u) pw (createdAt u).

Definition changePassword (a : app) (currentPassword newPassword : string) : app * result unit :=
  let s := store a in
  match au_user (auth_pv a) with
  | None => (a, fail: "Password change failed")
  | Some user =>
    let users := notesBuddy_users s in
    match find_index (fun u => uid u =? su_id user) users with
    | None => (a, fail: "User not found")
    | Some userIndex =>
      match users !! userIndex with
      | None => (a, fail: "User not found")
      | Some u =>
        if negb (String.eqb (password u) currentPassword) then
          (a, fail: "Current password is incorrect")
        else
          (set_store (set_users (update_at userIndex (set_password newPassword) users) s) a,
           Success tt)
      end
    end
  end.

Definition deleteAccount (a : app) (pw : string) : app * result unit :=
  let s := store a in
  match au_user (auth_pv a) with
  | None => (a, fail: "Account deletion failed")
  | Some user =>
    let users := notesBuddy_users s in
    match find_index (fun u => uid u =? su_id user) users with
    | None => (a, fail: "User not found")
    | Some userIndex =>
      match users !! userIndex with
      | None => (a, fail: "User not found")
      | Some u =>
        if negb (String.eqb (password u) pw) then (a, fail: "Incorrect password")
        else
          let updatedNotes :=
            List.filter (fun n => negb (uploadedBy n =? su_id user)) (notesBuddy_notes s) in
          let s1 := set_notes updatedNotes s in
          let s2 := set_users (splice1 userIndex users) s1 in
          (logout (set_store s2 a), Success tt)
      end
    end
  end.

(** ** What the AuthContext handlers guarantee

    [users_ok]: e-mails and user ids are unique in the users array.
    [session_ok]: the stored current user is a stored user without its
    password, and the AuthProvider's [user] and [isAuthenticated] agree
    with the storage.  Every handler keeps both ([register] when its
    [Date.now()] is not already a user id), and the theorems say what
    each handler does: registering then logging in with the same
    credentials logs in as the new user, a taken e-mail is refused, a
    changed password is the one [login] accepts, and [deleteAccount]
    removes the account and its notes but keeps its like records. *)

Record users_ok (s : storage) : Prop := {
  ok_emails : NoDup (email <$> notesBuddy_users s);
  ok_uids : NoDup (uid <$> notesBuddy_users s)
}.

Definition has_session (s : storage) : bool :=
  match notesBuddy_currentUser s with Some _ => true | None => false end.

Record session_ok (a : app) : Prop := {
  ok_current : forall su, notesBuddy_currentUser (store a) = Some su ->
    exists u, In u (notesBuddy_users (store a)) /\ without_password u = su;
  ok_user_sync : au_user (auth_pv a) = notesBuddy_currentUser (store a);
  ok_auth_sync : au_isAuthenticated (auth_pv a) = has_session (store a)
}.

(** ** Lemmas on the users array *)

Lemma uid_le1 (us : list user) id : NoDup (uid <$> us) -> count_where (fun u => uid u =? id) us <= 1.
Proof. intros H. apply (nodup_count_le1 uid _ id); [done|]. intros u. apply Z.eqb_eq. Qed.

(** The index [findIndex(u => u.id === user.id)] finds is the stored
    user behind the session. *)
Lemma session_user_index a su i u :
  users_ok (store a) -> session_ok a -> au_user (auth_pv a) = Some su ->
  find_index (fun u => uid u =? su_id su) (notesBuddy_users (store a)) = Some i ->
  notesBuddy_users (store a) !! i = Some u -> without_password u = su.
Proof.
  intros [He Hu] [Hc Hs _] Hsu Hi Hl. rewrite Hsu in Hs. symmetry in Hs.
  destruct (Hc su Hs) as (u' & Hin & <-).
  pose proof (find_index_Some_true _ _ _ _ Hi Hl) as Huid. simpl in Huid. nb_bool.
  apply list_elem_of_In, list_elem_of_lookup in Hin as [j Hj].
  assert (i = j) as <-.
  { apply (NoDup_lookup (uid <$> notesBuddy_users (store a)) i j (uid u)); [done| |].
    - by rewrite list_lookup_fmap, Hl.
    - rewrite list_lookup_fmap, Hj. simpl. by rewrite Huid. }
  congruence.
Qed.

Lemma NoDup_fmap_update_at {A K} (key : A -> K) (f : A -> A) (l : list A) i :
  (forall x, key (f x) = key x) -> key <$> update_at i f l = key <$> l.
Proof.
  intros Hk. unfold update_at. destruct (l !! i) eqn:Hl; [|done].
  rewrite list_fmap_insert, Hk. apply list_insert_id. by rewrite list_lookup_fmap, Hl.
Qed.

Definition auth_ok (a : app) : Prop := users_ok (store a) /\ session_ok a.

Lemma users_ok_same s s' :
  notesBuddy_users s' = notesBuddy_users s -> users_ok s -> users_ok s'.
Proof. intros Heq [He Hu]. split; by rewrite Heq. Qed.

Ltac auth_cases := repeat (case_match; simplify_eq/=); try done.

Lemma register_ok a nm em pw now :
  auth_ok a -> now ∉ (uid <$> notesBuddy_users (store a)) ->
  auth_ok (fst (register a nm em pw now)).
Proof.
  intros [[He Hu] Hs] Hfresh. unfold register. auth_cases. split; [split|split]; simpl.
  - rewrite fmap_app. apply NoDup_app. split_and!; [done| |by apply NoDup_singleton].
    intros x (u & -> & Hin)%list_elem_of_fmap Hx%list_elem_of_singleton. simpl in Hx.
    apply list_elem_of_In in Hin.
    match goal with H : List.find _ _ = None |- _ => pose proof (find_None_false _ _ H u Hin) end.
    cbv beta in *. nb_bool. congruence.
  - rewrite fmap_app. apply NoDup_app. split_and!; [done| |by apply NoDup_singleton].
    intros x Hx ->%list_elem_of_singleton. done.
  - intros su [= <-]. eexists. split; [apply in_or_app; right; by left|done].
  - done.
  - done.
Qed.

Lemma login_ok a em pw : auth_ok a -> auth_ok (fst (login a em pw)).
Proof.
  intros [Hu Hs]. unfold login. auth_cases. split; [apply (users_ok_same (store a)); [done|exact Hu]|split]; simpl; [|done|done].
  intros su [= <-]. match goal with H : List.find _ _ = Some ?u |- _ =>
    exists u; split; [by apply find_some_in in H as []|done] end.
Qed.

Lemma logout_ok a : auth_ok a -> auth_ok (logout a).
Proof. intros [Hu Hs]. split; [apply (users_ok_same (store a)); [done|exact Hu]|split]; simpl; done. Qed.

Lemma changePassword_ok a cur new : auth_ok a -> auth_ok (fst (changePassword a cur new)).
Proof.
  intros [[He Hu] Hs]. unfold changePassword. auth_cases. split; [split|split]; simpl.
  - by rewrite NoDup_fmap_update_at.
  - by rewrite NoDup_fmap_update_at.
  - intros su Hsu. destruct (ok_current _ Hs su Hsu) as (w & Hin & <-).
    match goal with H : notesBuddy_users _ !! ?i = Some _ |- _ =>
      destruct (update_at_In (set_password new) _ i w Hin) as (w' & Hin' & Hw);
      exists w'; split; [done|]; by destruct Hw as [-> | ->] end.
  - apply Hs.
  - apply Hs.
Qed.

Lemma deleteAccount_ok a pw : auth_ok a -> auth_ok (fst (deleteAccount a pw)).
Proof.
  intros [[He Hu] Hs]. unfold deleteAccount. auth_cases. split; [split|split]; simpl; try done.
  - unfold splice1. rewrite list_fmap_delete.
    eapply sublist_NoDup; [exact He|apply sublist_delete].
  - unfold splice1. rewrite list_fmap_delete.
    eapply sublist_NoDup; [exact Hu|apply sublist_delete].
Qed.

Lemma update_user_email data u :
  email (update_user data u) = js_or_opt (pd_email data) (email u).
Proof. reflexivity. Qed.

(** The e-mail check of [updateProfile] compares the new e-mail with the
    React [user.email]; [session_ok] makes it the stored one, so no two
    users end up with one e-mail. *)
Lemma updateProfile_ok a data : auth_ok a -> auth_ok (fst (updateProfile a data)).
Proof.
  intros [[He Hu] Hs]. unfold updateProfile.
  destruct (au_user (auth_pv a)) as [su|] eqn:Hsu; [|done].
  destruct (find_index _ _) as [i|] eqn:Hi; [|done].
  destruct (find_index_Some _ _ _ Hi) as (u0 & Hu0 & Hid & _). simpl in Hid. nb_bool.
  pose proof (session_user_index a su i u0 (Build_users_ok _ He Hu) Hs Hsu Hi Hu0) as Hstrip.
  destruct (match pd_email data with Some e => _ | None => false end) eqn:Htaken; [done|].
  unfold update_at. rewrite Hu0, list_lookup_insert_eq by (by apply lookup_lt_Some in Hu0).
  simpl. split; [split|split]; simpl.
  - rewrite list_fmap_insert, update_user_email.
    destruct (pd_email data) as [e|] eqn:Hpe; simpl;
      [|rewrite list_insert_id; [done|by rewrite list_lookup_fmap, Hu0]].
    unfold js_or. destruct (String.eqb_spec e "") as [->|Hne]; simpl;
      [rewrite list_insert_id; [done|by rewrite list_lookup_fmap, Hu0]|].
    destruct (String.eqb_spec e (su_email su)) as [Heq|Hne'].
    { rewrite list_insert_id; [done|]. rewrite list_lookup_fmap, Hu0. simpl.
      by rewrite Heq, <- Hstrip. }
    simpl in Htaken. apply NoDup_insert_fresh; [done|].
    intros j y Hj Hji ->. rewrite list_lookup_fmap in Hj.
    destruct (notesBuddy_users (store a) !! j) as [uj|] eqn:Huj; [|done]. injection Hj as Hej.
    assert (uid uj <> su_id su).
    { intros Huid. apply Hji. apply (NoDup_lookup (uid <$> notesBuddy_users (store a)) j i (su_id su));
        [done|rewrite list_lookup_fmap, Huj; simpl; by rewrite Huid|rewrite list_lookup_fmap, Hu0; simpl; by rewrite Hid]. }
    assert (existsb (fun u => String.eqb (email u) e && negb (uid u =? su_id su))
              (notesBuddy_users (store a)) = true) as Hex.
    { apply List.existsb_exists. exists uj. split; [apply list_elem_of_In; by eapply list_elem_of_lookup_2|].
      rewrite Hej, String.eqb_refl. simpl. apply negb_true_iff, Z.eqb_neq. done. }
    by rewrite Hex in Htaken.
  - rewrite list_fmap_insert. simpl. rewrite list_insert_id; [done|]. by rewrite list_lookup_fmap, Hu0.
  - intros su' [= <-]. exists (update_user data u0). split; [|done].
    apply list_elem_of_In, list_elem_of_lookup. exists i.
    apply list_lookup_insert_eq. by apply lookup_lt_Some in Hu0.
  - done.
  - rewrite (ok_auth_sync _ Hs). unfold has_session. by rewrite <- (ok_user_sync _ Hs), Hsu.
Qed.

(** ** What each handler does *)

(** [users.find(u => u.email === email && u.password === password)]
    when only [u] has the e-mail. *)
Lemma login_find_unique us u em pw :
  In u us -> email u = em -> (forall y, In y us -> email y = em -> y = u) ->
  List.find (fun u => String.eqb (email u) em && String.eqb (password u) pw) us =
  if String.eqb (password u) pw then Some u else None.
Proof.
  intros Hin He Hu.
  apply (find_unique_and (fun u => String.eqb (email u) em) (fun u => String.eqb (password u) pw));
    [done|by rewrite He, String.eqb_refl|].
  intros y Hy Hey. apply Hu; [done|]. by apply String.eqb_eq.
Qed.

(** With unique e-mails, [changePassword] leaves one user with the
    session's e-mail: the session user with its new password. *)
Lemma changed_user_unique a su i u0 new :
  users_ok (store a) -> without_password u0 = su -> notesBuddy_users (store a) !! i = Some u0 ->
  uid u0 = su_id su ->
  forall y, In y (map (fun x => if uid x =? su_id su then set_password new x else x)
                     (notesBuddy_users (store a))) ->
  email y = su_email su -> y = set_password new u0.
Proof.
  intros [He _] <- Hu0 Hid y (z & <- & Hz)%in_map_iff Hey.
  assert (Hez : email z = email u0) by (simpl in Hey; destruct (uid z =? uid u0); exact Hey).
  assert (z = u0) as ->.
  { apply (NoDup_fmap_inj email (notesBuddy_users (store a))); [done|done| |done].
    apply list_elem_of_In. by eapply list_elem_of_lookup_2. }
  simpl. by rewrite Hid, Z.eqb_refl.
Qed.

(** [login] after [changePassword] finds the session user exactly when
    the password given is the new one. *)
Lemma changed_login_find a su i u0 new pw :
  users_ok (store a) -> without_password u0 = su -> notesBuddy_users (store a) !! i = Some u0 ->
  uid u0 = su_id su ->
  List.find (fun u => String.eqb (email u) (su_email su) && String.eqb (password u) pw)
    (map (fun x => if uid x =? su_id su then set_password new x else x) (notesBuddy_users (store a))) =
  if String.eqb new pw then Some (set_password new u0) else None.
Proof.
  intros Hok Hw Hu0 Hid. rewrite (login_find_unique _ (set_password new u0)); [done| |by rewrite <- Hw|].
  - apply in_map_iff. exists u0. rewrite Hid, Z.eqb_refl. split; [done|].
    apply list_elem_of_In. by eapply list_elem_of_lookup_2.
  - intros y Hy Hey. exact (changed_user_unique a su i u0 new Hok Hw Hu0 Hid y Hy Hey).
Qed.

(** A store with two accounts, Alice logged in. *)
Definition ex_alice : user := mkUser 1 "Alice" "alice@uni.edu" "pw-alice" 100.
Definition ex_bob : user := mkUser 2 "Bob" "bob@uni.edu" "pw-bob" 200.
Definition ex_auth_app : app :=
  mkApp (mkStorage [] [] [ex_alice; ex_bob] (Some (without_password ex_alice)))
    init_notes_provider (mkAuthProvider (Some (without_password ex_alice)) false true).

Lemma ex_auth_app_ok : auth_ok ex_auth_app.
Proof.
  split; [split; apply (bool_decide_unpack _); vm_compute; reflexivity|split; simpl; try done].
  intros su [= <-]. exists ex_alice. split; [by left|done].
Qed.

(** C6: registering, logging out and logging in again with the same
    e-mail and password succeeds and makes the new account the current
    user, in the storage and in the AuthProvider. *)
Theorem register_logout_login a nm em pw now :
  snd (register a nm em pw now) = Success tt ->
  let a' := fst (login (logout (fst (register a nm em pw now))) em pw) in
  snd (login (logout (fst (register a nm em pw now))) em pw) = Success tt /\
  notesBuddy_currentUser (store a') = Some (mkSession now nm em now) /\
  au_user (auth_pv a') = Some (mkSession now nm em now) /\ au_isAuthenticated (auth_pv a') = true.
Proof.
  unfold register. destruct (List.find _ _) eqn:Hf; [discriminate|]. intros _.
  unfold login, logout. cbn zeta. simpl.
  rewrite find_app_Some; [done| |by rewrite !String.eqb_refl].
  apply find_all_false. intros u Hu. simpl. by rewrite (find_None_false _ _ Hf u Hu).
Qed.

Lemma register_logout_login_witness :
  snd (register ex_auth_app "Carol" "carol@uni.edu" "pw-c" 300) = Success tt /\
  snd (login (logout (fst (register ex_auth_app "Carol" "carol@uni.edu" "pw-c" 300)))
         "carol@uni.edu" "pw-c") = Success tt.
Proof.
  assert (H : snd (register ex_auth_app "Carol" "carol@uni.edu" "pw-c" 300) = Success tt)
    by reflexivity.
  split; [exact H|]. apply (register_logout_login _ _ _ _ _ H).
Defined.

(** [register] with an e-mail some stored user has fails with
    "Email already registered" and changes nothing. *)
Lemma register_email_taken a nm em pw now u :
  In u (notesBuddy_users (store a)) -> email u = em ->
  register a nm em pw now = (a, fail: "Email already registered").
Proof.
  intros Hin He. unfold register. destruct (List.find _ _) eqn:Hf; [done|].
  pose proof (find_None_false _ _ Hf u Hin) as H. simpl in H.
  by rewrite He, String.eqb_refl in H.
Qed.

Lemma register_email_taken_witness :
  register ex_auth_app "Bobby" "bob@uni.edu" "x" 300 = (ex_auth_app, fail: "Email already registered").
Proof. apply (register_email_taken _ _ _ _ _ ex_bob); [right; left|]; reflexivity. Defined.

(** The stored user behind the session, at the index [findIndex] gives. *)
Lemma session_user_found a su :
  auth_ok a -> au_user (auth_pv a) = Some su ->
  exists i u0, find_index (fun u => uid u =? su_id su) (notesBuddy_users (store a)) = Some i /\
    notesBuddy_users (store a) !! i = Some u0 /\ without_password u0 = su.
Proof.
  intros [Hu Hs] Hsu. pose proof (ok_user_sync _ Hs) as Hsync. rewrite Hsu in Hsync.
  destruct (ok_current _ Hs su (eq_sym Hsync)) as (w & Hw & Hws).
  destruct (find_index _ _) as [i|] eqn:Hi.
  - destruct (find_index_Some _ _ _ Hi) as (u0 & Hu0 & _). exists i, u0.
    split_and!; [done|done|]. by eapply session_user_index.
  - exfalso. apply find_index_None in Hi. rewrite List.Forall_forall in Hi.
    specialize (Hi w Hw). simpl in Hi. subst su. simpl in Hi. by rewrite Z.eqb_refl in Hi.
Qed.

(** C7: after [changePassword] succeeds, logging in with the session's
    e-mail and the new password logs in as the same user, and the old
    password (when it differs) is refused with "Invalid credentials". *)
Theorem changePassword_login a su cur new :
  auth_ok a -> au_user (auth_pv a) = Some su -> snd (changePassword a cur new) = Success tt ->
  let a1 := fst (changePassword a cur new) in
  snd (login a1 (su_email su) new) = Success tt /\
  notesBuddy_currentUser (store (fst (login a1 (su_email su) new))) = Some su /\
  (cur <> new -> login a1 (su_email su) cur = (a1, fail: "Invalid credentials")).
Proof.
  intros Hok Hsu. destruct (session_user_found a su Hok Hsu) as (i & u0 & Hi & Hu0 & Hw).
  pose proof (find_index_Some_true _ _ _ _ Hi Hu0) as Hid. simpl in Hid. nb_bool.
  unfold changePassword. rewrite Hsu, Hi, Hu0.
  destruct (negb _) eqn:Hpw; [discriminate|]. intros _. cbn zeta. nb_bool.
  pose proof (proj1 Hok) as Huok.
  rewrite (update_at_unique _ _ _ _ Hi (uid_le1 _ _ (ok_uids _ Huok))).
  unfold login. simpl.
  rewrite !(changed_login_find a su i u0) by done.
  rewrite String.eqb_refl. split_and!; [done|by rewrite <- Hw|].
  intros Hne. destruct (String.eqb_spec new cur); [congruence|done].
Qed.

Lemma changePassword_login_witness :
  snd (login (fst (changePassword ex_auth_app "pw-alice" "new-pw")) "alice@uni.edu" "new-pw")
    = Success tt.
Proof.
  apply (changePassword_login ex_auth_app (without_password ex_alice) "pw-alice" "new-pw");
    [exact ex_auth_app_ok|reflexivity|reflexivity].
Defined.

(** C20: when [deleteAccount] succeeds, the stored notes are those not
    uploaded by the account, the users those with another id, nobody is
    logged in, and the like records are all kept: the account's own
    likes and the likes of its deleted notes stay in the storage. *)
Theorem deleteAccount_spec a su pw :
  auth_ok a -> au_user (auth_pv a) = Some su -> snd (deleteAccount a pw) = Success tt ->
  let s' := store (fst (deleteAccount a pw)) in
  notesBuddy_notes s' = List.filter (fun n => negb (uploadedBy n =? su_id su)) (notesBuddy_notes (store a)) /\
  notesBuddy_users s' = List.filter (fun u => negb (uid u =? su_id su)) (notesBuddy_users (store a)) /\
  notesBuddy_currentUser s' = None /\ au_isAuthenticated (auth_pv (fst (deleteAccount a pw))) = false /\
  notesBuddy_likes s' = notesBuddy_likes (store a).
Proof.
  intros Hok Hsu. destruct (session_user_found a su Hok Hsu) as (i & u0 & Hi & Hu0 & Hw).
  unfold deleteAccount. rewrite Hsu, Hi, Hu0.
  destruct (negb _); [discriminate|]. intros _. simpl.
  by rewrite (splice1_unique _ _ _ Hi (uid_le1 _ _ (ok_uids _ (proj1 Hok)))).
Qed.

Lemma deleteAccount_spec_witness :
  notesBuddy_users (store (fst (deleteAccount ex_auth_app "pw-alice"))) = [ex_bob].
Proof.
  destruct (deleteAccount_spec ex_auth_app (without_password ex_alice) "pw-alice"
              ex_auth_app_ok eq_refl eq_refl) as (_ & -> & _).
  reflexivity.
Defined.

(** C25: a failing [register], [login], [updateProfile], [changePassword]
    or [deleteAccount] leaves the whole state as it was: each writes the
    storage and the React state only after all of its checks pass. *)
Theorem auth_failure_unchanged a msg st :
  (forall nm em pw now, snd (register a nm em pw now) = Failure msg st ->
     fst (register a nm em pw now) = a) /\
  (forall em pw, snd (login a em pw) = Failure msg st -> fst (login a em pw) = a) /\
  (forall d, snd (updateProfile a d) = Failure msg st -> fst (updateProfile a d) = a) /\
  (forall c n, snd (changePassword a c n) = Failure msg st -> fst (changePassword a c n) = a) /\
  (forall pw, snd (deleteAccount a pw) = Failure msg st -> fst (deleteAccount a pw) = a).
Proof.
  split_and!; intros *; unfold register, login, updateProfile, changePassword, deleteAccount;
    repeat (case_match; simpl); congruence.
Qed.

Lemma auth_failure_unchanged_witness :
  snd (login ex_auth_app "alice@uni.edu" "wrong") = fail: "Invalid credentials" /\
  fst (login ex_auth_app "alice@uni.edu" "wrong") = ex_auth_app.
Proof.
  split; [reflexivity|].
  apply (proj1 (proj2 (auth_failure_unchanged ex_auth_app "Invalid credentials" None))).
  reflexivity.
Defined.

(** [updateProfile] with a non-empty e-mail that another stored user
    has (not the session's own) fails with "Email already in use" and
    changes nothing. *)
Lemma updateProfile_email_taken a su u data e :
  auth_ok a -> au_user (auth_pv a) = Some su -> In u (notesBuddy_users (store a)) ->
  pd_email data = Some e -> e <> ""%string -> email u = e -> uid u <> su_id su ->
  updateProfile a data = (a, fail: "Email already in use").
Proof.
  intros Hok Hsu Hin He Hne Heu Hid.
  destruct (session_user_found a su Hok Hsu) as (i & u0 & Hi & Hu0 & Hw).
  assert (Hse : e <> su_email su).
  { intros ->. apply Hid. rewrite <- Hw in Heu |- *. simpl in Heu |- *. f_equal.
    apply (NoDup_fmap_inj email (notesBuddy_users (store a))); [apply Hok|done| |done].
    apply list_elem_of_In. by eapply list_elem_of_lookup_2. }
  unfold updateProfile. rewrite Hsu, Hi, He.
  destruct (String.eqb_spec e ""), (String.eqb_spec e (su_email su)); try congruence. simpl.
  replace (existsb _ _) with true; [done|]. symmetry. apply List.existsb_exists.
  exists u. split; [done|]. rewrite Heu, String.eqb_refl. simpl. by apply negb_true_iff, Z.eqb_neq.
Qed.

Lemma updateProfile_email_taken_witness :
  updateProfile ex_auth_app (mkProfile None (Some "bob@uni.edu"))
  = (ex_auth_app, fail: "Email already in use").
Proof.
  apply (updateProfile_email_taken _ (without_password ex_alice) ex_bob _ "bob@uni.edu");
    [exact ex_auth_app_ok|reflexivity|right; left; reflexivity|reflexivity|discriminate|reflexivity|discriminate].
Defined.
