(* ===== verification/App.v ===== *)
(** * App: the application as a transition system

    App.jsx mounts [AuthProvider] and [NotesProvider] over one browser
    storage.  An [event] is one call of a context handler (what the pages
    and components trigger) or a page reload, which resets the React
    state of both providers and runs [AuthProvider]'s mount effect
    ([auth_init]).  [step] runs one event; [reachable] states are those a
    first visit ([init_app], empty storage) leads to.

    The premise [clock_fresh] is the one assumption on the environment:
    the [Date.now()] an upload or a registration takes as id is not an
    id already in use (the code relies on it and does not check it).
    [updateNote] is not an event: no page or component calls it.

    Liveness: from any reachable state, the stored uploader of a stored
    note can log in and delete it ([owner_can_delete]). *)

From stdpp Require Import relations.
From S2P Require Import Prelude Store NotesStore NotesQuery Auth.

Definition reload (a : app) : app :=
  auth_init (mkApp (store a) init_notes_provider init_auth_provider).

Definition init_app : app := reload (mkApp init_storage init_notes_provider init_auth_provider).

Inductive event :=
| EvFetch (page : Z) (limit : positive)
| EvSearch (f : search_filters) (page : Z) (limit : positive)
| EvMyNotes (page : Z) (limit : positive)
| EvLiked
| EvUpload (fd : upload_form) (now : Z)
| EvGetNote (id : Z)
| EvDownload (id : Z) (t : string)
| EvDelete (id : Z)
| EvLike (id now : Z)
| EvUnlike (id : Z)
| EvToggle (id : Z)
| EvRegister (nm em pw : string) (now : Z)
| EvLogin (em pw : string)
| EvLogout
| EvUpdateProfile (d : profile_data)
| EvChangePassword (cur new : string)
| EvDeleteAccount (pw : string)
| EvReload.

Definition run (a : app) (e : event) : app :=
  match e with
  | EvFetch p l => fst (fetchNotes a p l)
  | EvSearch f p l => fst (searchNotes a f p l)
  | EvMyNotes p l => fst (getMyNotes a p l)
  | EvLiked => fst (getLikedNotes a)
  | EvUpload fd now => fst (uploadNote a fd now)
  | EvGetNote id => fst (getNoteById a id)
  | EvDownload id t => fst (downloadNote a id t)
  | EvDelete id => fst (deleteNote a id)
  | EvLike id now => fst (likeNote a id now)
  | EvUnlike id => fst (unlikeNote a id)
  | EvToggle id => fst (toggleNotePrivacy a id)
  | EvRegister nm em pw now => fst (register a nm em pw now)
  | EvLogin em pw => fst (login a em pw)
  | EvLogout => logout a
  | EvUpdateProfile d => fst (updateProfile a d)
  | EvChangePassword cur new => fst (changePassword a cur new)
  | EvDeleteAccount pw => fst (deleteAccount a pw)
  | EvReload => reload a
  end.

Definition clock_fresh (a : app) (e : event) : Prop :=
  match e with
  | EvUpload _ now =>
    (now ∉ (nid <$> notesBuddy_notes (store a))) /\
    count_where (likes_of_note now) (notesBuddy_likes (store a)) = 0
  | EvRegister _ _ _ now => now ∉ (uid <$> notesBuddy_users (store a))
  | _ => True
  end.

Inductive step : app -> app -> Prop :=
| step_event a e : clock_fresh a e -> step a (run a e).

Definition reachable (a : app) : Prop := rtc step init_app a.

Definition app_ok (a : app) : Prop := store_ok (store a) /\ auth_ok a.

(** ** Frames: what a handler does not touch *)

(** A change of the notes provider, the notes or the likes keeps the
    users, the session and the AuthProvider. *)
Lemma auth_ok_frame a a' :
  notesBuddy_users (store a') = notesBuddy_users (store a) ->
  notesBuddy_currentUser (store a') = notesBuddy_currentUser (store a) ->
  auth_pv a' = auth_pv a -> auth_ok a -> auth_ok a'.
Proof.
  intros Hu Hc Hp [[He Hi] [Hcur Hs1 Hs2]]. split; [split; by rewrite Hu|split].
  - intros su Hsu. rewrite Hc in Hsu. rewrite Hu. by apply Hcur.
  - by rewrite Hp, Hc.
  - unfold has_session. by rewrite Hp, Hc.
Qed.

Lemma store_ok_frame s s' :
  notesBuddy_notes s' = notesBuddy_notes s -> notesBuddy_likes s' = notesBuddy_likes s ->
  store_ok s -> store_ok s'.
Proof. intros Hn Hl [? ? ? ?]. constructor; by rewrite ?Hn, ?Hl. Qed.

(** [deleteAccount] drops the notes of the account and keeps the likes. *)
Lemma store_ok_filter_notes s q :
  store_ok s -> store_ok (set_notes (List.filter q (notesBuddy_notes s)) s).
Proof.
  intros [Hids Hcnt Hkeys Hctr]. constructor; simpl.
  - by apply NoDup_fmap_filter.
  - by apply Forall_filter_sub.
  - done.
  - by apply Forall_filter_sub.
Qed.

Ltac frame_cases := repeat (case_match; simplify_eq/=); auto.

Lemma notes_event_frame a e :
  match e with
  | EvRegister _ _ _ _ | EvLogin _ _ | EvLogout | EvUpdateProfile _ | EvChangePassword _ _
  | EvDeleteAccount _ | EvReload => False
  | _ => True
  end ->
  notesBuddy_users (store (run a e)) = notesBuddy_users (store a) /\
  notesBuddy_currentUser (store (run a e)) = notesBuddy_currentUser (store a) /\
  auth_pv (run a e) = auth_pv a.
Proof.
  destruct e; simpl; intros []; unfold fetchNotes, searchNotes, getMyNotes, getLikedNotes,
    uploadNote, getNoteById, downloadNote, deleteNote, likeNote, unlikeNote, toggleNotePrivacy;
    frame_cases.
Qed.

Lemma auth_event_frame a e :
  match e with
  | EvRegister _ _ _ _ | EvLogin _ _ | EvLogout | EvUpdateProfile _ | EvChangePassword _ _
  | EvReload => True
  | _ => False
  end ->
  notesBuddy_notes (store (run a e)) = notesBuddy_notes (store a) /\
  notesBuddy_likes (store (run a e)) = notesBuddy_likes (store a).
Proof.
  destruct e; simpl; intros []; unfold register, login, updateProfile, changePassword, reload, auth_init;
    frame_cases.
Qed.

Lemma reload_auth_ok a : auth_ok a -> auth_ok (reload a).
Proof.
  intros [Hu [Hcur _ _]]. unfold reload, auth_init. simpl.
  destruct (notesBuddy_currentUser (store a)) eqn:Hc; (split; [done|split]); simpl; try done;
    unfold has_session; by rewrite Hc.
Qed.

Lemma deleteAccount_store_ok a pw : store_ok (store a) -> store_ok (store (fst (deleteAccount a pw))).
Proof.
  intros Hok. unfold deleteAccount. frame_cases.
  eapply store_ok_frame; [| |eapply store_ok_filter_notes, Hok]; done.
Qed.

Lemma query_store a e :
  match e with EvFetch _ _ | EvSearch _ _ _ | EvMyNotes _ _ | EvLiked => True | _ => False end ->
  store (run a e) = store a.
Proof. destruct e; simpl; intros []; unfold fetchNotes, searchNotes, getMyNotes, getLikedNotes; frame_cases. Qed.

Lemma run_store_ok a e : store_ok (store a) -> clock_fresh a e -> store_ok (store (run a e)).
Proof.
  intros Hok Hf. destruct e; simpl in Hf;
    try (rewrite query_store; [exact Hok|exact I]);
    try (match goal with |- store_ok (store (run a ?e)) =>
           eapply store_ok_frame; [apply (proj1 (auth_event_frame a e I))|
                                   apply (proj2 (auth_event_frame a e I))|exact Hok] end).
  - destruct Hf. by apply uploadNote_ok.
  - by apply getNoteById_ok.
  - by apply downloadNote_ok.
  - by apply deleteNote_ok.
  - by apply likeNote_ok.
  - by apply unlikeNote_ok.
  - by apply toggleNotePrivacy_ok.
  - by apply deleteAccount_store_ok.
Qed.

Lemma run_auth_ok a e : auth_ok a -> clock_fresh a e -> auth_ok (run a e).
Proof.
  intros Hok Hf. destruct e; simpl in Hf;
    try (match goal with |- auth_ok (run a ?e) =>
           destruct (notes_event_frame a e I) as (? & ? & ?); by eapply auth_ok_frame end).
  - by apply register_ok.
  - by apply login_ok.
  - by apply logout_ok.
  - by apply updateProfile_ok.
  - by apply changePassword_ok.
  - by apply deleteAccount_ok.
  - by apply reload_auth_ok.
Qed.

Lemma step_ok a a' : step a a' -> app_ok a -> app_ok a'.
Proof. intros [? e Hf] [Hs Ha]. split; [by apply run_store_ok|by apply run_auth_ok]. Qed.

Lemma init_app_ok : app_ok init_app.
Proof.
  split; [constructor; simpl; constructor|].
  split; [split; simpl; constructor|split; simpl; done].
Qed.

Lemma rtc_step_ok a a' : rtc step a a' -> app_ok a -> app_ok a'.
Proof. induction 1 as [|x y z Hxy _ IH]; [done|]. intros Hx. apply IH. by eapply step_ok. Qed.

(** C1: in every state a first visit can reach through the handlers
    of both contexts (and page reloads), the note store is consistent
    (unique note ids, each [likeCount] equal to the number of like
    records of its note, at most one like per user and note, non-negative
    counters), e-mails and user ids are unique, the stored session is a
    stored user, and the AuthProvider's state agrees with the storage. *)
Theorem reachable_ok a : reachable a -> app_ok a.
Proof. intros H. apply (rtc_step_ok init_app); [done|apply init_app_ok]. Qed.

Lemma reachable_run a e : reachable a -> clock_fresh a e -> reachable (run a e).
Proof. intros Ha Hf. eapply rtc_r; [exact Ha|by constructor]. Qed.

(** A session of the application: Alice registers, uploads a note,
    likes it, Bob registers (which logs him in) and likes it too. *)
Definition ex_form : upload_form :=
  mkForm "Compilers" "parsing notes" "MIT" "CS" "Compilers" "5" "false"
    (Some (mkFile "c.pdf" "application/pdf" 1200 (Some "data:application/pdf;base64,CCC"))).

Definition trace_app : app :=
  run (run (run (run (run init_app (EvRegister "Alice" "alice@uni.edu" "pw-alice" 1000))
                    (EvUpload ex_form 2000)) (EvLike 2000 3000))
           (EvRegister "Bob" "bob@uni.edu" "pw-bob" 4000)) (EvLike 2000 5000).

Ltac clock_fresh_tac :=
  hnf; first [exact I | apply (bool_decide_unpack _); vm_compute; reflexivity].

Lemma reachable_trace_app : reachable trace_app.
Proof. unfold trace_app. do 5 (apply reachable_run; [|clock_fresh_tac]). apply rtc_refl. Qed.

Lemma reachable_ok_witness : reachable trace_app /\ app_ok trace_app.
Proof. split; [exact reachable_trace_app|]. apply reachable_ok, reachable_trace_app. Defined.

(** ** Liveness: an owner can always remove a note *)

(** With unique e-mails, a stored user's e-mail and password log that
    user in. *)
Lemma login_stored a u :
  users_ok (store a) -> In u (notesBuddy_users (store a)) ->
  login a (email u) (password u) = (log_in u (store a) a, Success tt).
Proof.
  intros [He _] Hin. unfold login.
  rewrite (login_find_unique _ u) by (done || (intros y Hy Hey; eapply (NoDup_fmap_inj email); eauto)).
  by rewrite String.eqb_refl.
Qed.

(** With unique ids, the note with the id of a stored note is that note. *)
Lemma find_stored_note s n :
  store_ok s -> In n (notesBuddy_notes s) -> List.find (has_id (nid n)) (notesBuddy_notes s) = Some n.
Proof.
  intros Hok Hin. destruct (List.find _ _) as [m|] eqn:Hf.
  - apply find_some_in in Hf as [Hm Hid]. unfold has_id in Hid. nb_bool. f_equal.
    exact (NoDup_fmap_inj nid _ m n (ok_ids _ Hok) Hm Hin Hid).
  - pose proof (find_None_false _ _ Hf n Hin) as Hx. unfold has_id in Hx. by rewrite Z.eqb_refl in Hx.
Qed.

(** C12: whatever happened before, from every reachable state the
    uploader of a stored note, if still a stored user, can remove it:
    logging in with that user's e-mail and password and deleting the
    note leads to a reachable state where no note has its id and that
    user is logged in. *)
Theorem owner_can_delete a u n :
  reachable a -> In u (notesBuddy_users (store a)) -> In n (notesBuddy_notes (store a)) ->
  uploadedBy n = uid u ->
  exists a', reachable a' /\ rtc step a a' /\
    List.find (has_id (nid n)) (notesBuddy_notes (store a')) = None /\
    notesBuddy_currentUser (store a') = Some (without_password u).
Proof.
  intros Hr Hu Hn Hup. destruct (rtc_step_ok _ _ Hr init_app_ok) as [Hok [Hus _]].
  set (a1 := run a (EvLogin (email u) (password u))).
  assert (Ha1 : a1 = log_in u (store a) a) by (unfold a1; simpl; by rewrite login_stored).
  assert (Hok1 : store_ok (store a1)) by (rewrite Ha1; exact (store_ok_frame (store a) (store (log_in u (store a) a)) eq_refl eq_refl Hok)).
  exists (run a1 (EvDelete (nid n))).
  assert (Hr1 : reachable a1) by (apply reachable_run; done).
  split_and!.
  - by apply reachable_run.
  - eapply rtc_l; [exact (step_event a (EvLogin (email u) (password u)) I)|]. apply rtc_once. exact (step_event a1 (EvDelete (nid n)) I).
  - simpl. rewrite (deleteNote_by_id_eq _ _ Hok1). unfold deleteNote_by_id. rewrite Ha1. simpl.
    rewrite (find_stored_note _ n Hok Hn), Hup, Z.eqb_refl. simpl. apply find_filter_negb.
  - simpl. rewrite (deleteNote_by_id_eq _ _ Hok1). unfold deleteNote_by_id. rewrite Ha1. simpl.
    rewrite (find_stored_note _ n Hok Hn), Hup, Z.eqb_refl. done.
Qed.

Lemma owner_can_delete_witness :
  exists a', rtc step trace_app a' /\ List.find (has_id 2000) (notesBuddy_notes (store a')) = None.
Proof.
  destruct (owner_can_delete trace_app (mkUser 1000 "Alice" "alice@uni.edu" "pw-alice" 1000)
              (mkNote 2000 "Compilers" "parsing notes" "MIT" "CS" "Compilers" "5"
                 "data:application/pdf;base64,CCC" "c.pdf" 1000 "Alice" false 0 0 2 2000) reachable_trace_app
              ltac:(vm_compute; auto) ltac:(vm_compute; auto) ltac:(vm_compute; reflexivity))
    as (a' & _ & Hs & Hf & _).
  exists a'. split; [exact Hs|exact Hf].
Defined.
