(* ===== verification/Navigation.v ===== *)
(** * Navigation: ConfirmModal, the Navbar and the Dashboard's links

    ConfirmModal.jsx renders nothing when [isOpen] is false.  Otherwise
    its confirm button runs [onConfirm()] and then [onClose()], its
    cancel button [onClose()], and a click on the backdrop itself
    ([e.target === e.currentTarget]) [onClose()].  [confirm_modal] is
    written over the state of the parent that renders the modal: the
    Navbar here, NoteCard and NoteDetails in their files.

    Navbar.jsx keeps [mobileMenuOpen] and [showLogoutModal].  Its Logout
    button (rendered only when authenticated) opens the modal, and the
    modal's confirmation runs [handleLogout]: [logout()], close the menu,
    navigate to [/login].  Its links and those of Dashboard.jsx depend on
    [isAuthenticated].  The theme toggle calls hooks/useTheme, which the
    repository does not contain, and is not modelled. *)

From stdpp Require Import relations.
From S2P Require Import Prelude Store NotesStore Auth App.

Inductive nav := Stay | GoLogin | GoNotes | GoHome.

(** ** ConfirmModal.jsx *)

Inductive modal_click := ModalConfirm | ModalCancel | ModalBackdrop (onBackdrop : bool).

Section ConfirmModal.
  Context {S : Type}.

Definition confirm_modal (isOpen : bool) (onClose onConfirm : S -> S) (click : modal_click) (s : S) : S :=
    if negb isOpen then s
    else match click with
         | ModalConfirm => onClose (onConfirm s)
         | ModalCancel => onClose s
         | ModalBackdrop onBackdrop => if onBackdrop then onClose s else s
         end.
End ConfirmModal.

(** ** Navbar.jsx *)

Record navbar := mkNavbar { mobileMenuOpen : bool; showLogoutModal : bool }.

Definition init_navbar : navbar := mkNavbar false false.

(** What the Navbar changes: the application, its own state, and where
    it navigates. *)
Definition nav_state : Type := app * navbar * nav.

Definition handleLogout (st : nav_state) : nav_state :=
  let '(a, nb, _) := st in (logout a, mkNavbar false (showLogoutModal nb), GoLogin).

Definition closeMobileMenu (st : nav_state) : nav_state :=
  let '(a, nb, n) := st in (a, mkNavbar false (showLogoutModal nb), n).

Definition close_logout_modal (st : nav_state) : nav_state :=
  let '(a, nb, n) := st in (a, mkNavbar (mobileMenuOpen nb) false, n).

(** [location.pathname === path]. *)
Definition isActive (pathname path : string) : bool := String.eqb pathname path.

(** The links of the desktop and the mobile menu, in order. *)
Definition navbar_links (isAuthenticated : bool) : list string :=
  "/notes"%string :: (if isAuthenticated then ["/upload"; "/profile"] else ["/login"; "/register"])%string.

Inductive navbar_event :=
| NToggleMenu | NCloseMenu | NLogoutButton | NLogoutModal (c : modal_click).

Definition navbar_run (st : nav_state) (e : navbar_event) : nav_state :=
  let '(a, nb, n) := st in
  match e with
  | NToggleMenu => (a, mkNavbar (negb (mobileMenuOpen nb)) (showLogoutModal nb), n)
  | NCloseMenu => closeMobileMenu st
  | NLogoutButton =>
    if au_isAuthenticated (auth_pv a) then (a, mkNavbar (mobileMenuOpen nb) true, n) else st
  | NLogoutModal c => confirm_modal (showLogoutModal nb) close_logout_modal handleLogout c st
  end.

(** ** Dashboard.jsx *)

(** The links of the hero section and, when authenticated, of the
    welcome section. *)
Definition dashboard_links (isAuthenticated : bool) : list string :=
  (if isAuthenticated then ["/notes"; "/upload"; "/profile"] else ["/register"; "/login"])%string.

(** [Welcome back, {user?.name}!], shown when authenticated. *)
Definition dashboard_greeting (p : auth_provider) : option string :=
  if au_isAuthenticated p then su_name <$> au_user p else None.

(** ** Properties *)

Lemma confirm_modal_closed {S} (onClose onConfirm : S -> S) c s :
  confirm_modal false onClose onConfirm c s = s.
Proof. reflexivity. Qed.

Lemma navbar_run_store st e :
  e <> NLogoutModal ModalConfirm -> store (fst (fst (navbar_run st e))) = store (fst (fst st)) /\
    auth_pv (fst (fst (navbar_run st e))) = auth_pv (fst (fst st)).
Proof.
  destruct st as [[a nb] n]. intros Hne. destruct e as [| | |[]]; simpl; try done;
    try (destruct (au_isAuthenticated _)); try (destruct (showLogoutModal nb)); try done.
  destruct onBackdrop; done.
Qed.

(** C35: the Navbar logs out only through the modal's confirmation:
    every other event (menu toggles, the Logout button, cancel, a click
    on the backdrop) leaves the store and the AuthProvider as they were;
    confirming the open modal logs out, closes the modal and the menu,
    navigates to [/login], and the Navbar then shows the guest links. *)
Theorem navbar_logout_confirm st :
  (forall e, e <> NLogoutModal ModalConfirm ->
     store (fst (fst (navbar_run st e))) = store (fst (fst st)) /\
     auth_pv (fst (fst (navbar_run st e))) = auth_pv (fst (fst st))) /\
  (showLogoutModal (snd (fst st)) = true ->
   let '(a', nb', n') := navbar_run st (NLogoutModal ModalConfirm) in
   notesBuddy_currentUser (store a') = None /\ au_isAuthenticated (auth_pv a') = false /\
   nb' = mkNavbar false false /\ n' = GoLogin /\
   navbar_links (au_isAuthenticated (auth_pv a')) = ["/notes"; "/login"; "/register"]%string).
Proof.
  split; [apply navbar_run_store|]. destruct st as [[a nb] n]. simpl. intros Hm. by rewrite Hm.
Qed.

Lemma navbar_logout_confirm_witness :
  let '(a', _, _) := navbar_run (navbar_run (App.trace_app, init_navbar, Stay) NLogoutButton)
                       (NLogoutModal ModalConfirm) in
  notesBuddy_currentUser (store a') = None.
Proof.
  pose proof (proj2 (navbar_logout_confirm (navbar_run (App.trace_app, init_navbar, Stay) NLogoutButton))
                eq_refl) as H.
  destruct (navbar_run _ (NLogoutModal ModalConfirm)) as [[a' nb'] n']. by destruct H.
Defined.

(** C36: in every state a first visit can reach, the Navbar and the
    Dashboard link to Upload and Profile exactly when a user is logged in
    in the storage, and the Dashboard greets that user by the name the
    storage holds. *)
Theorem links_follow_session a :
  reachable a ->
  (In "/upload"%string (navbar_links (au_isAuthenticated (auth_pv a))) <->
     notesBuddy_currentUser (store a) <> None) /\
  (In "/profile"%string (dashboard_links (au_isAuthenticated (auth_pv a))) <->
     notesBuddy_currentUser (store a) <> None) /\
  dashboard_greeting (auth_pv a) = su_name <$> notesBuddy_currentUser (store a).
Proof.
  intros Hr. destruct (rtc_step_ok _ _ Hr init_app_ok) as [_ [_ [_ Huser Hauth]]].
  unfold has_session in Hauth. unfold dashboard_greeting. rewrite Hauth, Huser.
  destruct (notesBuddy_currentUser (store a)) as [su|]; simpl; split_and!; try reflexivity.
  - split; [intros _; discriminate|intros _; right; left; reflexivity].
  - split; [intros _; discriminate|intros _; right; right; left; reflexivity].
  - split; [intros H; repeat (destruct H as [H|H]; [discriminate|]); done|intros []; reflexivity].
  - split; [intros H; repeat (destruct H as [H|H]; [discriminate|]); done|intros []; reflexivity].
Qed.

Lemma links_follow_session_witness :
  reachable trace_app /\ dashboard_greeting (auth_pv trace_app) = Some "Bob"%string.
Proof.
  split; [exact reachable_trace_app|].
  rewrite (proj2 (proj2 (links_follow_session trace_app reachable_trace_app))). reflexivity.
Defined.
