(* ===== verification/NoteCard.v ===== *)
(** * NoteCard: the card of a note, against an interface of the contexts

    NoteCard.jsx keeps [isLiked], [likeCount], [isPrivate] and
    [showPrivacyModal], and calls [downloadNote], [likeNote],
    [unlikeNote] and [toggleNotePrivacy].  It is written against the
    typeclass [NotesApi], the part of the context value it uses, and its
    events are the step function [card_run] (like, download, the
    owner-only privacy and delete buttons, the privacy [ConfirmModal]).
    Its agreement with the store is proved against the laws [LikeLaws]
    (like count) and [PrivacyLaws] (privacy badge); [app_like_laws] and
    [app_privacy_laws] prove them for the providers' store.  [useAuth]
    (hooks/useAuth, which the repository does not contain) is read as the
    AuthProvider's [user] and [isAuthenticated].  [card_render] is what
    the card shows, its [View Details] link included ([card_link]). *)

From S2P Require Import Prelude JsNumber Store NotesStore Auth Navigation.

(** ** NoteCard.jsx *)

Record card := mkCard { c_isLiked : bool; c_likeCount : Z; c_isPrivate : bool; c_showPrivacyModal : bool }.

(** [useState(note.hasLiked || false)], [useState(note.likeCount || 0)],
    [useState(note.isPrivate || false)], [useState(false)]: no handler
    returns notes with a [hasLiked] property, so a card always starts as
    not liked. *)
Definition card_init (v : note_view) : card :=
  mkCard false (likeCount (v_note v)) (isPrivate (v_note v)) false.

(** What NoteCard takes from [useAuth()] and [useNotes()]: the flag
    [isAuthenticated], the id of the [user] ([user?.id]) and the
    NotesContext handlers it calls.  NoteCard
    is written against this interface; [app_notes_api] is the one the two
    providers implement. *)
Class NotesApi (S : Type) := {
  api_isAuthenticated : S -> bool;
  api_userId : S -> option Z;
  api_likeNote : S -> Z -> Z -> S * result unit;
  api_unlikeNote : S -> Z -> S * result unit;
  api_downloadNote : S -> Z -> string -> S * result (string * string);
  api_toggleNotePrivacy : S -> Z -> S * result bool
}.

#[export] Instance app_notes_api : NotesApi app := {|
  api_isAuthenticated a := au_isAuthenticated (auth_pv a);
  api_userId a := su_id <$> au_user (auth_pv a);
  api_likeNote := likeNote; api_unlikeNote := unlikeNote;
  api_downloadNote := downloadNote; api_toggleNotePrivacy := toggleNotePrivacy
|}.

(** What a user does on a card: the like, download, privacy and delete
    buttons, and the privacy [ConfirmModal]. *)
Inductive card_event :=
| CLike (now : Z) | CDownload | CPrivacyButton | CPrivacyModal (c : modal_click) | CDelete (confirmed : bool).

Definition status_of {A} (r : result A) : option Z :=
  match r with Failure _ st => st | Success _ => None end.

Section NoteCard.
  Context {S : Type} `{NotesApi S}.

Definition card_handleLike (a : S) (v : note_view) (c : card) (now : Z) : S * card * nav :=
    if negb (api_isAuthenticated a) then (a, c, GoLogin)
    else if c_isLiked c then
      let '(a', r) := api_unlikeNote a (nid (v_note v)) in
      if is_success r then (a', mkCard false (c_likeCount c - 1) (c_isPrivate c) (c_showPrivacyModal c), Stay) else (a', c, Stay)
    else
      let '(a', r) := api_likeNote a (nid (v_note v)) now in
      if is_success r then (a', mkCard true (c_likeCount c + 1) (c_isPrivate c) (c_showPrivacyModal c), Stay) else (a', c, Stay).

Definition card_handleDownload (a : S) (v : note_view) : S * nav :=
    if negb (api_isAuthenticated a) then (a, GoLogin)
    else
      let '(a', r) := api_downloadNote a (nid (v_note v)) (title (v_note v)) in
      (a', if bool_decide (status_of r = Some 401) then GoLogin else Stay).

Definition card_handleTogglePrivacy (a : S) (v : note_view) (c : card) : S * card :=
    let '(a', r) := api_toggleNotePrivacy a (nid (v_note v)) in
    match r with
    | Success b => (a', mkCard (c_isLiked c) (c_likeCount c) b (c_showPrivacyModal c))
    | Failure _ _ => (a', c)
    end.

  (** [if (window.confirm(...)) onDelete(note.id)], with the parent's
      [handleDelete] as [onDelete]. *)
Definition card_handleDelete (onDelete : S -> Z -> S) (confirmed : bool) (a : S) (v : note_view) : S :=
    if confirmed then onDelete a (nid (v_note v)) else a.

  (** [isAuthenticated && user?.id === note.uploadedBy]. *)
Definition card_isOwner (a : S) (v : note_view) : bool :=
    api_isAuthenticated a && bool_decide (api_userId a = Some (uploadedBy (v_note v))).

Definition card_close_modal (st : S * card * nav) : S * card * nav :=
    let '(a, c, n) := st in (a, mkCard (c_isLiked c) (c_likeCount c) (c_isPrivate c) false, n).

Definition card_confirm_privacy (v : note_view) (st : S * card * nav) : S * card * nav :=
    let '(a, c, n) := st in let '(a', c') := card_handleTogglePrivacy a v c in (a', c', n).

  (** One event on the card of [v].  The privacy and delete buttons are
      rendered only for the owner.  [onLikeToggle] and [onPrivacyToggle]
      are not passed by NotesList or Profile, so they are no-ops;
      [onDelete] is the parent's [handleDelete]. *)
Definition card_run (onDelete : S -> Z -> S) (v : note_view) (st : S * card * nav) (e : card_event)
    : S * card * nav :=
    let '(a, c, n) := st in
    match e with
    | CLike now => card_handleLike a v c now
    | CDownload => let '(a', n') := card_handleDownload a v in (a', c, n')
    | CPrivacyButton =>
      if card_isOwner a v then (a, mkCard (c_isLiked c) (c_likeCount c) (c_isPrivate c) true, n) else st
    | CPrivacyModal m => confirm_modal (c_showPrivacyModal c) card_close_modal (card_confirm_privacy v) m st
    | CDelete confirmed => if card_isOwner a v then (card_handleDelete onDelete confirmed a v, c, n) else st
    end.

Definition card_trace (onDelete : S -> Z -> S) (v : note_view) (st : S * card * nav) (es : list card_event)
    : S * card * nav :=
    fold_left (card_run onDelete v) es st.
End NoteCard.

(** ** What the card renders

    The text of the card: title, description (or its placeholder), the
    tags row, the three counters, the uploader line, the [View Details]
    link, the buttons (the privacy and delete buttons for the owner
    only) and the privacy [ConfirmModal] while it is open.  Styling,
    icons and the date of [formatDate] ([toLocaleDateString]) are not
    modelled. *)

Inductive card_tag :=
| TagSchool (s : string) | TagDiscipline (s : string) | TagSubject (s : string)
| TagSemester (s : string) | TagPrivate.

Inductive card_button :=
| LikeButton (label : string) | DownloadButton | PrivacyButton (label : string) | DeleteButton.

Record card_view := mkCardView {
  cv_title : string; cv_description : string; cv_tags : list card_tag;
  cv_stats : Z * Z * Z; cv_by : string; cv_link : string;
  cv_buttons : list card_button; cv_modal : option (string * string)
}.

(** [{note.schoolName && ...}]: a tag only for a non-empty string. *)
Definition tag_if (s : string) (t : string -> card_tag) : list card_tag :=
  if String.eqb s "" then [] else [t s].

(** [to={`/notes/${note.id}`}]. *)
Definition card_link (v : note_view) : string := "/notes/" ++ number_to_string (nid (v_note v)).

Definition card_render (isOwner : bool) (v : note_view) (c : card) : card_view :=
  let n := v_note v in
  mkCardView (title n) (description n ?|| "No description provided")
    (tag_if (schoolName n) TagSchool ++ tag_if (disciplineName n) TagDiscipline ++
     [TagSubject (subject n); TagSemester ("Sem " ++ semester n)] ++
     (if c_isPrivate c then [TagPrivate] else []))
    (viewCount n, downloads n, c_likeCount c)
    ("By " ++ (uploaderName n ?|| "Anonymous"))
    (card_link v)
    ([LikeButton (if c_isLiked c then "Unlike" else "Like"); DownloadButton] ++
     (if isOwner then [PrivacyButton (if c_isPrivate c then "Make Public" else "Make Private"); DeleteButton]
      else []))
    (if c_showPrivacyModal c then
       Some (if c_isPrivate c then ("Make Note Public?", "Make Public") else ("Make Note Private?", "Make Private"))
     else None).

(** What the like handlers promise a card: on a state satisfying the
    service's invariant [ll_ok], with [ll_liked] the current user's like
    of a note and [ll_count] its stored count, a like of a note not liked
    and an unlike of a liked note succeed, keep the invariant, flip the
    like, and move the count by one. *)
Class LikeLaws (S : Type) `{NotesApi S} := {
  ll_ok : S -> Prop;
  ll_liked : S -> Z -> bool;
  ll_count : S -> Z -> option Z;
  ll_like s id now : ll_ok s -> api_isAuthenticated s = true -> ll_liked s id = false ->
    snd (api_likeNote s id now) = Success tt /\ ll_ok (fst (api_likeNote s id now)) /\
    ll_liked (fst (api_likeNote s id now)) id = true /\
    ll_count (fst (api_likeNote s id now)) id = option_map (fun k => k + 1) (ll_count s id);
  ll_unlike s id : ll_ok s -> api_isAuthenticated s = true -> ll_liked s id = true ->
    snd (api_unlikeNote s id) = Success tt /\ ll_ok (fst (api_unlikeNote s id)) /\
    ll_liked (fst (api_unlikeNote s id)) id = false /\
    ll_count (fst (api_unlikeNote s id)) id = option_map (fun k => k - 1) (ll_count s id)
}.

(** The card agrees with the service: it shows the note as liked
    exactly when the user has liked it, and the note's stored count. *)
Definition card_agrees {S} `{LikeLaws S} (s : S) (v : note_view) (c : card) : Prop :=
  c_isLiked c = ll_liked s (nid (v_note v)) /\
  forall k, ll_count s (nid (v_note v)) = Some k -> c_likeCount c = k.

(** What the handlers a card calls promise about privacy, with
    [pl_private s id] the stored privacy of note [id] ([None]: no such
    note): liking, unliking and downloading keep it; toggling keeps it
    on failure and on success stores the value it answers. *)
Class PrivacyLaws (S : Type) `{NotesApi S} := {
  pl_ok : S -> Prop;
  pl_private : S -> Z -> option bool;
  pl_like s id now : pl_ok s ->
    pl_ok (fst (api_likeNote s id now)) /\ forall j, pl_private (fst (api_likeNote s id now)) j = pl_private s j;
  pl_unlike s id : pl_ok s ->
    pl_ok (fst (api_unlikeNote s id)) /\ forall j, pl_private (fst (api_unlikeNote s id)) j = pl_private s j;
  pl_download s id t : pl_ok s ->
    pl_ok (fst (api_downloadNote s id t)) /\ forall j, pl_private (fst (api_downloadNote s id t)) j = pl_private s j;
  pl_toggle s id : pl_ok s ->
    pl_ok (fst (api_toggleNotePrivacy s id)) /\
    match snd (api_toggleNotePrivacy s id) with
    | Success b => pl_private (fst (api_toggleNotePrivacy s id)) id = Some b
    | Failure _ _ => pl_private (fst (api_toggleNotePrivacy s id)) id = pl_private s id
    end
}.

(** The card's privacy badge is the stored privacy of its note. *)
Definition card_private_agrees {S} `{PrivacyLaws S} (s : S) (v : note_view) (c : card) : Prop :=
  forall b, pl_private s (nid (v_note v)) = Some b -> c_isPrivate c = b.

Definition app_private (a : app) (id : Z) : option bool :=
  isPrivate <$> List.find (has_id id) (notesBuddy_notes (store a)).

(** The like state and counts of the two providers' store. *)
Definition app_ok_for_likes (a : app) : Prop :=
  store_ok (store a) /\ au_isAuthenticated (auth_pv a) = has_session (store a).
Definition app_liked (a : app) (id : Z) : bool :=
  match getCurrentUser (store a) with
  | Some su => existsb (like_of (su_id su) id) (notesBuddy_likes (store a))
  | None => false
  end.
Definition app_count (a : app) (id : Z) : option Z :=
  likeCount <$> List.find (has_id id) (notesBuddy_notes (store a)).

(** ** Properties *)

(** A card event makes at most one call: of a handler of the interface
    or of the parent's [onDelete].  A relation every such call satisfies
    relates the state before and after the event. *)
Section CardCalls.
  Context {S : Type} `{NotesApi S} (R : S -> S -> Prop) (onDelete : S -> Z -> S).
  Hypothesis R_refl : forall s, R s s.
  Hypothesis R_like : forall s id now, R s (fst (api_likeNote s id now)).
  Hypothesis R_unlike : forall s id, R s (fst (api_unlikeNote s id)).
  Hypothesis R_download : forall s id t, R s (fst (api_downloadNote s id t)).
  Hypothesis R_toggle : forall s id, R s (fst (api_toggleNotePrivacy s id)).
  Hypothesis R_delete : forall s id, R s (onDelete s id).

Lemma card_run_calls v s c n e : R s (fst (fst (card_run onDelete v (s, c, n) e))).
  Proof.
    destruct e as [now| | |m|conf]; simpl.
    - unfold card_handleLike. destruct (api_isAuthenticated s); simpl; [|done].
      destruct (c_isLiked c).
      + pose proof (R_unlike s (nid (v_note v))). destruct (api_unlikeNote s _) as [s' r].
        by destruct (is_success r).
      + pose proof (R_like s (nid (v_note v)) now). destruct (api_likeNote s _ _) as [s' r].
        by destruct (is_success r).
    - unfold card_handleDownload. destruct (api_isAuthenticated s); simpl; [|done].
      pose proof (R_download s (nid (v_note v)) (title (v_note v))). by destruct (api_downloadNote s _ _).
    - by destruct (card_isOwner s v).
    - unfold confirm_modal. destruct (c_showPrivacyModal c); simpl; [|done].
      destruct m as [| |[]]; simpl; try done. unfold card_handleTogglePrivacy.
      pose proof (R_toggle s (nid (v_note v))). destruct (api_toggleNotePrivacy s _) as [s' [b|msg st]]; done.
    - destruct (card_isOwner s v); simpl; [|done]. unfold card_handleDelete. by destruct conf.
  Qed.
End CardCalls.

(** A note a user liked has a positive [likeCount] in a consistent store. *)
Lemma liked_count_pos s u n :
  store_ok s -> In n (notesBuddy_notes s) -> existsb (like_of u (nid n)) (notesBuddy_likes s) = true ->
  1 <= likeCount n.
Proof.
  intros Hok Hn (l & Hl & Hul)%List.existsb_exists.
  pose proof (ok_counts _ Hok) as Hc. rewrite List.Forall_forall in Hc. rewrite (Hc n Hn).
  apply (count_where_pos _ _ l Hl). unfold like_of in Hul. by apply andb_true_iff in Hul as [_ ?].
Qed.

Lemma has_id_set_likeCount id k n : has_id id (set_likeCount k n) = has_id id n.
Proof. by destruct n. Qed.

(** The client side: NoteCard's like button keeps the card in agreement
    with any service that satisfies [LikeLaws]. *)
Section CardAgainstLaws.
  Context {S : Type} `{LikeLaws S}.

Lemma card_handleLike_agrees (s : S) v c now :
    ll_ok s -> api_isAuthenticated s = true -> card_agrees s v c ->
    ll_ok (fst (fst (card_handleLike s v c now))) /\
    card_agrees (fst (fst (card_handleLike s v c now))) v (snd (fst (card_handleLike s v c now))).
  Proof.
    intros Hok Hauth [Hl Hc]. unfold card_handleLike. rewrite Hauth. simpl.
    destruct (c_isLiked c) eqn:Hcl.
    - destruct (ll_unlike s (nid (v_note v)) Hok Hauth (eq_sym Hl)) as (Hr & Hok' & Hl' & Hc').
      destruct (api_unlikeNote s (nid (v_note v))) as [s' r]. simpl in *. subst r.
      split; [done|]. unfold card_agrees. simpl. split; [done|]. intros k Hk. rewrite Hk in Hc'.
      destruct (ll_count s _) as [k0|]; [|done]. injection Hc' as ->. by rewrite (Hc k0 eq_refl).
    - destruct (ll_like s (nid (v_note v)) now Hok Hauth (eq_sym Hl)) as (Hr & Hok' & Hl' & Hc').
      destruct (api_likeNote s (nid (v_note v)) now) as [s' r]. simpl in *. subst r.
      split; [done|]. unfold card_agrees. simpl. split; [done|]. intros k Hk. rewrite Hk in Hc'.
      destruct (ll_count s _) as [k0|]; [|done]. injection Hc' as ->. by rewrite (Hc k0 eq_refl).
  Qed.
End CardAgainstLaws.

(** The implementation side: the providers' store satisfies [LikeLaws]. *)
Lemma app_session a :
  app_ok_for_likes a -> au_isAuthenticated (auth_pv a) = true ->
  exists su, getCurrentUser (store a) = Some su.
Proof.
  intros [_ Hsync] Hauth. rewrite Hsync in Hauth. unfold has_session in Hauth. unfold getCurrentUser.
  destruct (notesBuddy_currentUser (store a)); [eauto|done].
Qed.

Lemma app_like_law a id now :
  app_ok_for_likes a -> au_isAuthenticated (auth_pv a) = true -> app_liked a id = false ->
  snd (likeNote a id now) = Success tt /\ app_ok_for_likes (fst (likeNote a id now)) /\
  app_liked (fst (likeNote a id now)) id = true /\
  app_count (fst (likeNote a id now)) id = option_map (fun k => k + 1) (app_count a id).
Proof.
  intros Hok Hauth Hl. destruct (app_session a Hok Hauth) as [su Hsu].
  pose proof (likeNote_ok a id now (proj1 Hok)) as Hok'. destruct Hok as [Hok Hsync].
  unfold app_ok_for_likes, app_liked, app_count in *. rewrite Hsu in Hl.
  rewrite (likeNote_by_id_eq _ _ _ Hok) in Hok' |- *. unfold likeNote_by_id in *. rewrite Hsu, Hl in *.
  unfold getCurrentUser in *. cbn -[like_of has_id bump_like] in *. rewrite Hsu.
  split_and!; [done|done|done| |].
  - rewrite existsb_app. simpl. unfold like_of at 2. simpl. by rewrite !Z.eqb_refl, orb_true_r.
  - rewrite find_map_if_same by (intros x; apply has_id_set_likeCount).
    destruct (List.find _ _) as [n|]; [|done]. by destruct n.
Qed.

Lemma app_unlike_law a id :
  app_ok_for_likes a -> au_isAuthenticated (auth_pv a) = true -> app_liked a id = true ->
  snd (unlikeNote a id) = Success tt /\ app_ok_for_likes (fst (unlikeNote a id)) /\
  app_liked (fst (unlikeNote a id)) id = false /\
  app_count (fst (unlikeNote a id)) id = option_map (fun k => k - 1) (app_count a id).
Proof.
  intros Hok Hauth Hl. destruct (app_session a Hok Hauth) as [su Hsu].
  pose proof (unlikeNote_ok a id (proj1 Hok)) as Hok'. destruct Hok as [Hok Hsync].
  unfold app_ok_for_likes, app_liked, app_count in *. rewrite Hsu in Hl.
  rewrite (unlikeNote_by_id_eq _ _ Hok) in Hok' |- *. unfold unlikeNote_by_id in *. rewrite Hsu, Hl in *.
  unfold getCurrentUser in *. cbn -[like_of has_id drop_like] in *. rewrite Hsu.
  split_and!; [done|done|done|by rewrite existsb_filter_negb|].
  rewrite find_map_if_same by (intros x; apply has_id_set_likeCount).
  destruct (List.find _ _) as [n|] eqn:Hf; [|done]. simpl.
  apply find_some_in in Hf as [Hin Hid]. unfold has_id in Hid. nb_bool.
  pose proof (liked_count_pos _ (su_id su) n Hok Hin) as Hpos. rewrite Hid in Hpos.
  specialize (Hpos Hl). destruct n; simpl in *. f_equal. lia.
Qed.

#[export] Instance app_like_laws : LikeLaws app := {|
  ll_ok := app_ok_for_likes; ll_liked := app_liked; ll_count := app_count;
  ll_like := app_like_law; ll_unlike := app_unlike_law
|}.

(** C15: NoteCard's optimistic update refines the store: when the card
    agrees with the store (its [isLiked] is whether the user's like
    record exists, its count the note's stored [likeCount]), clicking its
    like button, logged in and with a consistent store, leaves the card
    in agreement with the new store, which stays consistent. *)
Theorem card_handleLike_sync a v c now :
  app_ok_for_likes a -> au_isAuthenticated (auth_pv a) = true -> card_agrees a v c ->
  app_ok_for_likes (fst (fst (card_handleLike a v c now))) /\
  card_agrees (fst (fst (card_handleLike a v c now))) v (snd (fst (card_handleLike a v c now))).
Proof. exact (@card_handleLike_agrees app app_notes_api app_like_laws a v c now). Qed.

Lemma card_handleLike_sync_witness :
  card_agrees (fst (fst (card_handleLike ex_app (with_user_info ex_store note10)
                          (card_init (with_user_info ex_store note10)) 9000)))
    (with_user_info ex_store note10)
    (snd (fst (card_handleLike ex_app (with_user_info ex_store note10)
                 (card_init (with_user_info ex_store note10)) 9000))).
Proof.
  apply (card_handleLike_sync ex_app (with_user_info ex_store note10) _ 9000);
    [split; [exact ex_store_ok|reflexivity]|reflexivity|].
  split; [reflexivity|]. intros k [= <-]. reflexivity.
Defined.

(** C28: a card shown for a note the user has already liked starts as
    not liked (no handler sets [hasLiked]), and its like button then
    does nothing: [likeNote] answers "Already liked", so the note can
    never be unliked from the card. *)
Theorem card_liked_note_stuck a su v now :
  au_isAuthenticated (auth_pv a) = true -> getCurrentUser (store a) = Some su ->
  existsb (like_of (su_id su) (nid (v_note v))) (notesBuddy_likes (store a)) = true ->
  card_handleLike a v (card_init v) now = (a, card_init v, Stay) /\
  snd (likeNote a (nid (v_note v)) now) = fail: "Already liked".
Proof.
  intros Hauth Hsu He. unfold card_handleLike. simpl. rewrite Hauth. unfold likeNote. rewrite Hsu. simpl.
  destruct (List.find _ _) eqn:Hf; [done|]. by rewrite (existsb_find_None _ _ Hf) in He.
Qed.

Lemma card_liked_note_stuck_witness :
  card_handleLike ex_app_bob (with_user_info ex_store note10) (card_init (with_user_info ex_store note10)) 9000
  = (ex_app_bob, card_init (with_user_info ex_store note10), Stay).
Proof. apply (card_liked_note_stuck _ (without_password bob)); reflexivity. Defined.

(** *** NoteCard's privacy badge, against [PrivacyLaws] *)

Section CardPrivacy.
  Context {S : Type} `{PrivacyLaws S}.
  (** The parent's [onDelete] keeps the invariant, and keeps the note or
      removes it. *)
  Variable onDelete : S -> Z -> S.
  Hypothesis onDelete_ok : forall s id, pl_ok s ->
    pl_ok (onDelete s id) /\ (pl_private (onDelete s id) id = None \/ pl_private (onDelete s id) id = pl_private s id).

Lemma card_private_keep (s s' : S) v c c' :
    (forall j, pl_private s' j = pl_private s j) -> c_isPrivate c' = c_isPrivate c ->
    card_private_agrees s v c -> card_private_agrees s' v c'.
  Proof. intros Hj Hc Ha b Hb. rewrite Hc. apply Ha. by rewrite <- Hj. Qed.

Lemma card_run_private (s : S) v c n e :
    pl_ok s -> card_private_agrees s v c ->
    let '(s', c', _) := card_run onDelete v (s, c, n) e in pl_ok s' /\ card_private_agrees s' v c'.
  Proof.
    intros Hok Ha. destruct e as [now| | |m|conf]; simpl.
    - unfold card_handleLike. destruct (api_isAuthenticated s); simpl; [|done].
      destruct (c_isLiked c).
      + destruct (pl_unlike s (nid (v_note v)) Hok) as [Hok' Hj].
        destruct (api_unlikeNote s _) as [s' r]; simpl in *.
        destruct (is_success r); simpl; (split; [done|eapply card_private_keep; eauto]); done.
      + destruct (pl_like s (nid (v_note v)) now Hok) as [Hok' Hj].
        destruct (api_likeNote s _ _) as [s' r]; simpl in *.
        destruct (is_success r); simpl; (split; [done|eapply card_private_keep; eauto]); done.
    - unfold card_handleDownload. destruct (api_isAuthenticated s); simpl; [|done].
      destruct (pl_download s (nid (v_note v)) (title (v_note v)) Hok) as [Hok' Hj].
      destruct (api_downloadNote s _ _) as [s' r]; simpl in *. split; [done|]. eapply card_private_keep; eauto.
    - by destruct (card_isOwner s v).
    - unfold confirm_modal. destruct (c_showPrivacyModal c); simpl; [|done].
      destruct m as [| |[]]; simpl; try done.
      unfold card_handleTogglePrivacy. destruct (pl_toggle s (nid (v_note v)) Hok) as [Hok' Ht].
      destruct (api_toggleNotePrivacy s _) as [s' [b|msg st]]; simpl in *; split; try done.
      + intros b' Hb'. simpl. congruence.
      + intros b' Hb'. simpl. apply Ha. congruence.
    - destruct (card_isOwner s v); simpl; [|done]. unfold card_handleDelete.
      destruct conf; [|done]. destruct (onDelete_ok s (nid (v_note v)) Hok) as [Hok' [Hnone|Hsame]].
      + split; [done|]. intros b Hb. congruence.
      + split; [done|]. intros b Hb. apply Ha. congruence.
  Qed.

Lemma card_trace_private (s : S) v c n es :
    pl_ok s -> card_private_agrees s v c ->
    let '(s', c', _) := card_trace onDelete v (s, c, n) es in pl_ok s' /\ card_private_agrees s' v c'.
  Proof.
    intros Hok Ha. unfold card_trace.
    apply (fold_left_invariant _ (fun st => let '(s', c', _) := st in pl_ok s' /\ card_private_agrees s' v c'));
      [|by split].
    intros [[s' c'] n'] e [Hok' Ha']. apply card_run_private; done.
  Qed.
End CardPrivacy.

(** The implementation side: the providers' store satisfies [PrivacyLaws]. *)
Lemma app_private_by_id a a' id f :
  keeps_id_privacy f -> notes_by_id a a' id f -> forall j, app_private a' j = app_private a j.
Proof.
  intros Hf Hn j. unfold app_private. rewrite Hn, find_map_if by (intros x; unfold has_id; by rewrite (proj1 (Hf x))).
  destruct (List.find _ _) as [m|]; [|done]. simpl. f_equal. destruct (has_id id m); [apply Hf|done].
Qed.

Lemma app_private_op a a' id :
  store_ok (store a') -> (exists f, keeps_id_privacy f /\ notes_by_id a a' id f) ->
  store_ok (store a') /\ forall j, app_private a' j = app_private a j.
Proof. intros Hok' (f & Hf & Hn). split; [done|]. exact (app_private_by_id _ _ _ f Hf Hn). Qed.

Lemma app_like_privacy a id now : store_ok (store a) ->
  store_ok (store (fst (likeNote a id now))) /\ forall j, app_private (fst (likeNote a id now)) j = app_private a j.
Proof.
  intros Hok. apply (app_private_op _ _ id); [by apply likeNote_ok|by apply likeNote_notes].
Qed.

Lemma app_unlike_privacy a id : store_ok (store a) ->
  store_ok (store (fst (unlikeNote a id))) /\ forall j, app_private (fst (unlikeNote a id)) j = app_private a j.
Proof.
  intros Hok. apply (app_private_op _ _ id); [by apply unlikeNote_ok|by apply unlikeNote_notes].
Qed.

Lemma app_download_privacy a id t : store_ok (store a) ->
  store_ok (store (fst (downloadNote a id t))) /\ forall j, app_private (fst (downloadNote a id t)) j = app_private a j.
Proof.
  intros Hok. apply (app_private_op _ _ id); [by apply downloadNote_ok|by apply downloadNote_notes].
Qed.

Lemma app_toggle_law a id : store_ok (store a) ->
  store_ok (store (fst (toggleNotePrivacy a id))) /\
  match snd (toggleNotePrivacy a id) with
  | Success b => app_private (fst (toggleNotePrivacy a id)) id = Some b
  | Failure _ _ => app_private (fst (toggleNotePrivacy a id)) id = app_private a id
  end.
Proof.
  intros Hok. split; [by apply toggleNotePrivacy_ok|]. pose proof (toggleNotePrivacy_notes a id Hok) as Ht.
  destruct (toggleNotePrivacy a id) as [a' [b|msg st]]; simpl.
  - destruct Ht as (m & Hm & -> & Hn). unfold app_private. rewrite Hn, find_map_if_same, Hm by by intros [].
    done.
  - unfold app_private. by rewrite Ht.
Qed.

#[export] Instance app_privacy_laws : PrivacyLaws app := {|
  pl_ok a := store_ok (store a); pl_private := app_private;
  pl_like := app_like_privacy; pl_unlike := app_unlike_privacy; pl_download := app_download_privacy;
  pl_toggle := app_toggle_law
|}.

(** NotesList's [handleDelete] keeps the note or removes it. *)
