(* ===== verification/NoteDetails.v ===== *)
(** * NoteDetails: the page of one note

    NoteDetails.jsx keeps [note], [loading], [isPrivate] and
    [showPrivacyModal].  [details_run] is the page as a step function:
    its load effect on [id], its download and delete buttons, the
    owner-only privacy button and the privacy [ConfirmModal]; the page
    renders no button while loading or without a note.  Along any path,
    its privacy badge is the stored privacy of the note it shows. *)

From S2P Require Import Prelude Store NotesStore Auth Navigation.

(** ** NoteDetails.jsx *)

Record details := mkDetails {
  d_note : option note_view; d_loading : bool; d_isPrivate : bool; d_showPrivacyModal : bool
}.

Definition init_details : details := mkDetails None true false false.

Definition loadNote (a : app) (id : Z) (d : details) : app * details * nav :=
  let '(a', r) := getNoteById a id in
  match r with
  | Success v => (a', mkDetails (Some v) false (isPrivate (v_note v)) (d_showPrivacyModal d), Stay)
  | Failure _ _ => (a', mkDetails (d_note d) false (d_isPrivate d) (d_showPrivacyModal d), GoNotes)
  end.

(** The buttons are rendered only once [note] is loaded. *)
Definition details_handleDownload (a : app) (d : details) : app :=
  match d_note d with
  | Some v => fst (downloadNote a (nid (v_note v)) (title (v_note v)))
  | None => a
  end.

Definition details_handleDelete (confirmed : bool) (a : app) (d : details) : app * nav :=
  match d_note d with
  | Some v =>
    if confirmed then
      let '(a', r) := deleteNote a (nid (v_note v)) in (a', if is_success r then GoNotes else Stay)
    else (a, Stay)
  | None => (a, Stay)
  end.

Definition details_handleTogglePrivacy (a : app) (d : details) : app * details :=
  match d_note d with
  | Some v =>
    let '(a', r) := toggleNotePrivacy a (nid (v_note v)) in
    match r with
    | Success b => (a', mkDetails (d_note d) (d_loading d) b (d_showPrivacyModal d))
    | Failure _ _ => (a', d)
    end
  | None => (a, d)
  end.

(** [isAuthenticated && user?.id === note.uploadedBy]. *)
Definition details_isOwner (a : app) (v : note_view) : bool :=
  au_isAuthenticated (auth_pv a) &&
  bool_decide (su_id <$> au_user (auth_pv a) = Some (uploadedBy (v_note v))).

(** What the page does: the effect on [id] ([DLoad]), its buttons, the
    owner's privacy button, which opens the [ConfirmModal], and the
    modal.  [window.confirm]'s answer is the argument of [DDelete]. *)
Inductive details_event :=
| DLoad (id : Z) | DDownload | DDelete (confirmed : bool) | DPrivacyButton
| DPrivacyModal (c : modal_click).

Definition details_state : Type := app * details * nav.

Definition close_privacy_modal (st : details_state) : details_state :=
  let '(a, d, n) := st in (a, mkDetails (d_note d) (d_loading d) (d_isPrivate d) false, n).

Definition details_confirm_privacy (st : details_state) : details_state :=
  let '(a, d, n) := st in let '(a', d') := details_handleTogglePrivacy a d in (a', d', n).

(** While [loading] the page renders only the [Loader], and without a
    [note] only "Note not found": no button and no modal.  The modal's
    [onConfirm] (an async handler) and [onClose] update different state
    fields, so their order does not matter. *)
Definition details_run (st : details_state) (e : details_event) : details_state :=
  let '(a, d, n) := st in
  match e with
  | DLoad id => loadNote a id d
  | _ =>
    if d_loading d then st else
    match d_note d with
    | None => st
    | Some v =>
      match e with
      | DLoad _ => st
      | DDownload => (details_handleDownload a d, d, n)
      | DDelete c => let '(a', n') := details_handleDelete c a d in (a', d, n')
      | DPrivacyButton =>
        if details_isOwner a v then (a, mkDetails (d_note d) (d_loading d) (d_isPrivate d) true, n)
        else st
      | DPrivacyModal c =>
        confirm_modal (d_showPrivacyModal d) close_privacy_modal details_confirm_privacy c st
      end
    end
  end.

Definition details_trace (st : details_state) (es : list details_event) : details_state :=
  fold_left details_run es st.

(** The page's [isPrivate] is the stored privacy of the note it shows
    (when that note is still stored). *)
Definition details_synced (a : app) (dn : option note_view) (p : bool) : Prop :=
  forall v n, dn = Some v ->
    List.find (has_id (nid (v_note v))) (notesBuddy_notes (store a)) = Some n -> p = isPrivate n.

Definition details_inv (st : details_state) : Prop :=
  let '(a, d, _) := st in store_ok (store a) /\ details_synced a (d_note d) (d_isPrivate d).

(** *** NoteDetails keeps its privacy flag in step with the store *)

Lemma details_synced_by_id a a' dn p id f :
  keeps_id_privacy f -> notes_by_id a a' id f -> details_synced a dn p -> details_synced a' dn p.
Proof.
  intros Hf Hn Hs v n Hv Hfind. unfold notes_by_id in Hn.
  rewrite Hn, find_map_if in Hfind by (intros x; unfold has_id; by rewrite (proj1 (Hf x))).
  destruct (List.find _ (notesBuddy_notes (store a))) as [m|] eqn:Hm; [|done].
  rewrite (Hs v m Hv Hm). injection Hfind as <-. destruct (has_id id m); [symmetry; apply Hf|done].
Qed.

Lemma details_synced_same a a' dn p :
  store a' = store a -> details_synced a dn p -> details_synced a' dn p.
Proof. intros Ha. apply (details_synced_by_id a a' dn p 0 (fun n => n)); [done|]. by apply notes_by_id_same; rewrite Ha. Qed.

(** After the handler updated the note [v] shows by [f], the page holds
    the privacy of [f m]. *)
Lemma details_synced_found a a' v id f m :
  (forall n, nid (f n) = nid n) -> notes_by_id a a' id f ->
  List.find (has_id id) (notesBuddy_notes (store a)) = Some m -> nid (v_note v) = id ->
  details_synced a' (Some v) (isPrivate (f m)).
Proof.
  intros Hf Hn Hm Hid v' n' Hv' Hf'. injection Hv' as <-. rewrite Hid in Hf'. unfold notes_by_id in Hn.
  rewrite Hn, find_map_if_same, Hm in Hf' by (intros x; unfold has_id; by rewrite Hf).
  by injection Hf' as <-.
Qed.

Lemma loadNote_inv a d n id : details_inv (a, d, n) -> details_inv (loadNote a id d).
Proof.
  intros [Hok Hs]. unfold loadNote.
  destruct (getNoteById_notes a id Hok) as (f & Hf & Hn). pose proof (getNoteById_ok a id Hok) as Hok'.
  destruct (getNoteById a id) as [a1 [v|m st]] eqn:Hg; simpl in *; split; try done.
  - apply getNoteById_Success in Hg as (m & Hm & Hid & Hp). rewrite Hp, <- (proj2 (Hf m)).
    apply (details_synced_found a a1 v id f m); [apply Hf|done..].
  - by apply (details_synced_by_id a a1 _ _ id f).
Qed.

Lemma details_run_inv st e : details_inv st -> details_inv (details_run st e).
Proof.
  destruct st as [[a d] n]. intros Hi. destruct e as [id| |c| |c]; [by apply (loadNote_inv a d n)|..];
    simpl; destruct (d_loading d); try exact Hi; destruct (d_note d) as [v|] eqn:Hv; try exact Hi;
    destruct Hi as [Hok Hs].
  - unfold details_handleDownload. rewrite Hv. split; [by apply downloadNote_ok|].
    destruct (downloadNote_notes a (nid (v_note v)) (title (v_note v)) Hok) as (f & Hf & Hn).
    eapply details_synced_by_id; [exact Hf|exact Hn|exact Hs].
  - unfold details_handleDelete. rewrite Hv. destruct c; [|by split].
    pose proof (deleteNote_ok a (nid (v_note v)) Hok) as Hok'.
    destruct (deleteNote_notes a (nid (v_note v)) Hok) as [Hsame|Hfilt];
      destruct (deleteNote a (nid (v_note v))) as [a1 r]; simpl in *; split; try done.
    + by apply (details_synced_same a).
    + intros v' m Hv' Hf. rewrite Hv in Hv'. injection Hv' as <-.
      by rewrite Hfilt, find_filter_negb in Hf.
  - destruct (details_isOwner a v); split; try done. by rewrite <- Hv.
  - unfold confirm_modal. destruct (d_showPrivacyModal d); [|by split].
    destruct c as [| |[]]; simpl; try by split.
    unfold details_handleTogglePrivacy. rewrite Hv.
    pose proof (toggleNotePrivacy_ok a (nid (v_note v)) Hok) as Hok'.
    pose proof (toggleNotePrivacy_notes a (nid (v_note v)) Hok) as Ht.
    destruct (toggleNotePrivacy a (nid (v_note v))) as [a1 [b|m st]]; simpl in *; split; try done.
    + destruct Ht as (m & Hm & -> & Hn).
      exact (details_synced_found a a1 v _ (fun n => set_isPrivate (negb (isPrivate n)) n) m ltac:(by intros []) Hn Hm eq_refl).
    + by apply (details_synced_same a).
Qed.

Lemma details_trace_inv st es : details_inv st -> details_inv (details_trace st es).
Proof.
  apply fold_left_invariant, details_run_inv.
Qed.

(** C10: on every path of NoteDetails from its initial state (the load
    effect for any ids, downloads, deletions, the owner's privacy button
    and every click on the privacy ConfirmModal), in a consistent store,
    the store stays consistent and the privacy badge the page shows
    ([isPrivate]) is the stored privacy of the note it shows, as long as
    that note is stored. *)
Theorem details_privacy_sync a es :
  store_ok (store a) ->
  let '(a', d', _) := details_trace (a, init_details, Stay) es in
  store_ok (store a') /\
  forall v n, d_note d' = Some v ->
    List.find (has_id (nid (v_note v))) (notesBuddy_notes (store a')) = Some n -> d_isPrivate d' = isPrivate n.
Proof.
  intros Hok. assert (Hi0 : details_inv (a, init_details, Stay)) by (split; [done|discriminate]).
  pose proof (details_trace_inv _ es Hi0) as Hi.
  destruct (details_trace _ es) as [[a' d'] n']. exact Hi.
Qed.

Definition ex_details_path : list details_event := [DLoad 10; DPrivacyButton; DPrivacyModal ModalConfirm].

Lemma details_privacy_sync_witness :
  store_ok (store ex_app) /\
  d_isPrivate (snd (fst (details_trace (ex_app, init_details, Stay) ex_details_path))) = true.
Proof.
  split; [exact ex_store_ok|].
  pose proof (details_privacy_sync ex_app ex_details_path ex_store_ok) as H.
  destruct (details_trace _ _) as [[a' d'] n'] eqn:Ht. destruct H as [_ Hs].
  vm_compute in Ht. injection Ht as <- <- <-. simpl. reflexivity.
Defined.
