(* ===== verification/ListPage.v ===== *)
(** * ListPage: NotesList.jsx with its SearchBar.jsx and NoteCards

    SearchBar keeps the query and the filters and hands [onSearch] the
    filters object; NotesList keeps the current page and the last
    filters, calls [fetchNotes] or [searchNotes], and gives each NoteCard
    its [handleDelete] as [onDelete].  The composition of a card with
    that [onDelete] keeps the card's privacy badge in step with the
    store. *)

From S2P Require Import Prelude JsString JsSort Store Paging NotesStore NotesQuery NotesQueryProps Navigation NoteCard.

(** ** SearchBar.jsx *)

Record searchbar := mkSearchBar {
  sb_query : string; sb_userName : string; sb_subject : string; sb_semester : string;
  sb_sortBy : string; sb_sortOrder : string; sb_showFilters : bool
}.

Definition init_searchbar : searchbar := mkSearchBar "" "" "" "" "uploadedAt" "DESC" false.

(** [{ q: query.trim(), ...filters }]. *)
Definition sb_handleSubmit (sb : searchbar) : search_filters :=
  mkFilters (Some (trim (sb_query sb))) (Some (sb_subject sb)) (Some (sb_semester sb)) None None
    (Some (sb_userName sb)) (Some (sb_sortBy sb)) (Some (sb_sortOrder sb)).

(** [handleClear] resets the query and the filters (not [showFilters])
    and searches with [{ q: '' }]. *)
Definition sb_handleClear (sb : searchbar) : searchbar * search_filters :=
  (mkSearchBar "" "" "" "" "uploadedAt" "DESC" (sb_showFilters sb),
   mkFilters (Some "") None None None None None None None).

Definition sb_handleFilterChange (nm v : string) (sb : searchbar) : searchbar :=
  let '(mkSearchBar q u su se srt o sf) := sb in
  if String.eqb nm "userName" then mkSearchBar q v su se srt o sf
  else if String.eqb nm "subject" then mkSearchBar q u v se srt o sf
  else if String.eqb nm "semester" then mkSearchBar q u su v srt o sf
  else if String.eqb nm "sortBy" then mkSearchBar q u su se v o sf
  else if String.eqb nm "sortOrder" then mkSearchBar q u su se srt v sf
  else sb.

(** The [name]s of the filter inputs and selects, each with
    [onChange={handleFilterChange}], rendered when [showFilters]. *)
Definition sb_filter_inputs : list string := ["userName"; "subject"; "semester"; "sortBy"; "sortOrder"]%string.

(** The [sortOrder] select's options. *)
Definition sortOrder_options : list string := ["DESC"; "ASC"]%string.

(** [onChange={(e) => setQuery(e.target.value)}]. *)
Definition sb_setQuery (v : string) (sb : searchbar) : searchbar :=
  mkSearchBar v (sb_userName sb) (sb_subject sb) (sb_semester sb) (sb_sortBy sb) (sb_sortOrder sb)
    (sb_showFilters sb).

(** [onClick={() => setShowFilters(!showFilters)}]. *)
Definition sb_toggleFilters (sb : searchbar) : searchbar :=
  mkSearchBar (sb_query sb) (sb_userName sb) (sb_subject sb) (sb_semester sb) (sb_sortBy sb) (sb_sortOrder sb)
    (negb (sb_showFilters sb)).

(** The Clear button is rendered when
    [query || filters.userName || filters.subject || filters.semester]. *)
Definition sb_showsClear (sb : searchbar) : bool :=
  negb (String.eqb (sb_query sb) "" && String.eqb (sb_userName sb) "" &&
        String.eqb (sb_subject sb) "" && String.eqb (sb_semester sb) "").

(** ** NotesList.jsx *)

Record list_page := mkListPage {
  lp_currentPage : Z; lp_searchQuery : option search_filters; lp_isSearching : bool
}.

Definition init_list_page : list_page := mkListPage 1 None false.

(** The effect on [currentPage]: search again, or fetch. *)
Definition list_effect (a : app) (lp : list_page) : app :=
  match lp_isSearching lp, lp_searchQuery lp with
  | true, Some f => fst (searchNotes a f (lp_currentPage lp) 20)
  | _, _ => fst (fetchNotes a (lp_currentPage lp) 20)
  end.

(** [filters.q || filters.userName || filters.subject || filters.semester]. *)
Definition has_criteria (f : search_filters) : bool :=
  match truthy (q f), truthy (f_userName f), truthy (f_subject f), truthy (f_semester f) with
  | None, None, None, None => false
  | _, _, _, _ => true
  end.

(** [handleSearch]; when the page was not 1, [setCurrentPage(1)] runs
    the effect again afterwards. *)
Definition list_handleSearch (a : app) (lp : list_page) (f : search_filters) : app * list_page :=
  let has := has_criteria f in
  let lp1 := mkListPage 1 (Some f) has in
  let a1 := if has then fst (searchNotes a f 1 20) else fst (fetchNotes a 1 20) in
  (if lp_currentPage lp =? 1 then a1 else list_effect a1 lp1, lp1).

Definition list_handlePageChange (a : app) (lp : list_page) (page : Z) : app * list_page :=
  let lp1 := mkListPage page (lp_searchQuery lp) (lp_isSearching lp) in
  (if lp_currentPage lp =? page then a else list_effect a lp1, lp1).

Definition list_handleDelete (a : app) (id : Z) : app := fst (deleteNote a id).

(** Submitting the SearchBar of the NotesList page. *)
Definition search_submit (a : app) (lp : list_page) (sb : searchbar) : app * list_page :=
  list_handleSearch a lp (sb_handleSubmit sb).

(** [Pagination] is rendered when [!loading && notes.length > 0] and
    [pagination.totalPages > 1]. *)
Definition list_pagination_shown (a : app) : bool :=
  negb (pv_loading (notes_pv a)) &&
  match pv_notes (notes_pv a) with [] => false | _ => true end &&
  (1 <? totalPages (pv_pagination (notes_pv a))).

(** What a user does on NotesList: the mount effect, the SearchBar's
    input, filter toggle, filter fields, submit and Clear, a Pagination
    button (on a mobile screen or not), and an event on a NoteCard, whose
    [onDelete] is [handleDelete].  The card's own state is an argument of
    the event: any card state is allowed. *)
Inductive list_event :=
| LMount | LQuery (v : string) | LToggleFilters | LFilter (nm v : string) | LSubmit | LClear
| LPage (isMobile : bool) (p : Z)
| LCard (v : note_view) (c : card) (e : card_event).

Definition list_state : Type := app * list_page * searchbar.

Definition list_run (st : list_state) (e : list_event) : list_state :=
  let '(a, lp, sb) := st in
  match e with
  | LMount => (list_effect a lp, lp, sb)
  | LQuery v => (a, lp, sb_setQuery v sb)
  | LToggleFilters => (a, lp, sb_toggleFilters sb)
  | LFilter nm v =>
    if sb_showFilters sb && existsb (String.eqb nm) sb_filter_inputs then (a, lp, sb_handleFilterChange nm v sb)
    else st
  | LSubmit => let '(a', lp') := search_submit a lp sb in (a', lp', sb)
  | LClear =>
    if sb_showsClear sb then
      let '(sb', f) := sb_handleClear sb in let '(a', lp') := list_handleSearch a lp f in (a', lp', sb')
    else st
  | LPage isMobile p =>
    if list_pagination_shown a &&
       existsb (Z.eqb p) (clickable_pages isMobile (lp_currentPage lp) (totalPages (pv_pagination (notes_pv a))))
    then let '(a', lp') := list_handlePageChange a lp p in (a', lp', sb)
    else st
  | LCard v c ce => (fst (fst (card_run list_handleDelete v (a, c, Stay) ce)), lp, sb)
  end.

Definition list_trace (st : list_state) (es : list list_event) : list_state := fold_left list_run es st.

(** The empty state: [!loading && notes.length === 0], with its message. *)
Definition list_empty_message (a : app) (lp : list_page) : option string :=
  if pv_loading (notes_pv a) then None
  else match pv_notes (notes_pv a) with
       | [] => Some (if lp_isSearching lp then "Try adjusting your search query" else "Be the first to upload notes!")%string
       | _ => None
       end.

(** The page shown is one that exists: [currentPage] is at least 1, and
    at most [totalPages] while notes are shown. *)
Definition list_page_ok (st : list_state) : Prop :=
  let '(a, lp, _) := st in
  1 <= lp_currentPage lp /\
  (pv_notes (notes_pv a) <> [] -> lp_currentPage lp <= totalPages (pv_pagination (notes_pv a))).

Lemma searchNotes_newest a sb page :
  sb_sortBy sb = "uploadedAt"%string -> (sb_sortOrder sb = "ASC"%string \/ sb_sortOrder sb = "DESC"%string) ->
  Sorted newest_first (shown (searchNotes a (sb_handleSubmit sb) page 20)).
Proof.
  intros Hb Ho. pose proof (searchNotes_order_gen a (sb_handleSubmit sb) page 20) as H.
  simpl in H. rewrite Hb in H. specialize (H eq_refl). destruct Ho as [Ho|Ho]; rewrite Ho in H; exact H.
Qed.

(** C16: however the SearchBar of the notes list is filled, with its
    sort field on "Date Uploaded" both choices of its order select
    ("Highest First" = 'DESC', "Lowest First" = 'ASC') show the notes
    newest first: with criteria [searchNotes] does not recognise 'ASC',
    and without criteria NotesList calls [fetchNotes], which ignores
    the sort. *)
Theorem searchbar_newest_first a lp sb :
  sb_sortBy sb = "uploadedAt"%string -> (sb_sortOrder sb = "ASC"%string \/ sb_sortOrder sb = "DESC"%string) ->
  Sorted newest_first (pv_notes (notes_pv (fst (search_submit a lp sb)))).
Proof.
  intros Hb Ho. unfold search_submit, list_handleSearch, list_effect. simpl.
  destruct (has_criteria _), (lp_currentPage lp =? 1); simpl;
    first [by apply searchNotes_newest | apply fetchNotes_sorted].
Qed.

Lemma searchbar_newest_first_witness :
  Sorted newest_first (pv_notes (notes_pv (fst (search_submit ex_app init_list_page
    (mkSearchBar "" "" "" "" "uploadedAt" "ASC" false))))).
Proof. apply searchbar_newest_first; [reflexivity|left; reflexivity]. Defined.

Lemma list_handleDelete_private a id : store_ok (store a) ->
  store_ok (store (list_handleDelete a id)) /\
  (app_private (list_handleDelete a id) id = None \/ app_private (list_handleDelete a id) id = app_private a id).
Proof.
  intros Hok. unfold list_handleDelete. split; [by apply deleteNote_ok|].
  unfold app_private. destruct (deleteNote_notes a id Hok) as [Hsame|Hfilt].
  - right. by rewrite Hsame.
  - left. by rewrite Hfilt, find_filter_negb.
Qed.

(** C11: NoteCard's privacy badge refines the store: for a card of
    NotesList created from a note whose privacy it shows correctly, in a
    consistent store, after any sequence of clicks (like, download, the
    owner's privacy button, every answer to the privacy ConfirmModal, the
    owner's delete with any answer to [window.confirm]) the store stays
    consistent and the badge shows the stored privacy of the note, as
    long as the note is stored.  Proved against [PrivacyLaws], which the
    providers' store implements. *)
Theorem card_privacy_sync a v es :
  store_ok (store a) ->
  (forall b, app_private a (nid (v_note v)) = Some b -> isPrivate (v_note v) = b) ->
  let '(a', c', _) := card_trace list_handleDelete v (a, card_init v, Stay) es in
  store_ok (store a') /\ forall b, app_private a' (nid (v_note v)) = Some b -> c_isPrivate c' = b.
Proof.
  intros Hok Hv.
  exact (card_trace_private (S := app) list_handleDelete list_handleDelete_private a v (card_init v) Stay es Hok Hv).
Qed.

Definition ex_card_path : list card_event := [CPrivacyButton; CPrivacyModal ModalConfirm; CLike 9000; CDownload].

Lemma card_privacy_sync_witness :
  app_private ex_app 10 = Some false /\
  c_isPrivate (snd (fst (card_trace list_handleDelete (with_user_info ex_store note10)
                           (ex_app, card_init (with_user_info ex_store note10), Stay) ex_card_path))) = true.
Proof.
  split; [reflexivity|].
  pose proof (card_privacy_sync ex_app (with_user_info ex_store note10) ex_card_path ex_store_ok
                (fun b Hb => ltac:(vm_compute in Hb |- *; congruence))) as H.
  destruct (card_trace _ _ _ _) as [[a' c'] n'] eqn:Ht. vm_compute in Ht. injection Ht as <- <- <-.
  reflexivity.
Defined.

(** *** The pages NotesList shows and offers exist *)

Lemma fetch_page_ok a p limit : 1 <= p ->
  pv_notes (notes_pv (fst (fetchNotes a p limit))) <> [] ->
  p <= totalPages (pv_pagination (notes_pv (fst (fetchNotes a p limit)))).
Proof.
  unfold fetchNotes. intros Hp. match goal with |- context [calculatePagination ?l p limit] =>
    pose proof (calculatePagination_nonempty l p limit Hp) as Hn; destruct (calculatePagination l p limit) end.
  exact Hn.
Qed.

Lemma search_page_ok a f p limit : 1 <= p ->
  pv_notes (notes_pv (fst (searchNotes a f p limit))) <> [] ->
  p <= totalPages (pv_pagination (notes_pv (fst (searchNotes a f p limit)))).
Proof.
  unfold searchNotes. intros Hp. match goal with |- context [calculatePagination ?l p limit] =>
    pose proof (calculatePagination_nonempty l p limit Hp) as Hn; destruct (calculatePagination l p limit) end.
  exact Hn.
Qed.

Lemma list_effect_ok a lp : 1 <= lp_currentPage lp -> list_page_ok (list_effect a lp, lp, init_searchbar).
Proof.
  intros Hp. split; [done|]. unfold list_effect.
  destruct (lp_isSearching lp), (lp_searchQuery lp); auto using fetch_page_ok, search_page_ok.
Qed.

Lemma list_handleSearch_ok a lp f sb : list_page_ok (fst (list_handleSearch a lp f), snd (list_handleSearch a lp f), sb).
Proof.
  unfold list_handleSearch. split; [simpl; lia|]. simpl.
  destruct (lp_currentPage lp =? 1); [|apply (list_effect_ok _ (mkListPage 1 (Some f) (has_criteria f))); simpl; lia].
  destruct (has_criteria f); [apply search_page_ok|apply fetch_page_ok]; lia.
Qed.

(** A card's calls keep the provider's pagination and only remove notes
    from its list. *)
Definition pv_shrinks (a a' : app) : Prop :=
  pv_pagination (notes_pv a') = pv_pagination (notes_pv a) /\
  (pv_notes (notes_pv a') <> [] -> pv_notes (notes_pv a) <> []).

Lemma list_card_shrinks a v c n e :
  pv_shrinks a (fst (fst (card_run list_handleDelete v (a, c, n) e))).
Proof.
  apply (card_run_calls pv_shrinks list_handleDelete); intros; unfold pv_shrinks; simpl.
  - done.
  - unfold likeNote. op_cases.
  - unfold unlikeNote. op_cases.
  - unfold downloadNote. op_cases.
  - unfold toggleNotePrivacy. op_cases.
  - unfold list_handleDelete, deleteNote. op_cases. split; [done|].
    intros Hne Hnil. apply Hne. rewrite Hnil. done.
Qed.

Lemma list_run_ok st e : list_page_ok st -> list_page_ok (list_run st e).
Proof.
  destruct st as [[a lp] sb]. intros [Hp Hn].
  destruct e as [| | | | | |isMobile p|v c ce];
    cbn -[search_submit list_handleSearch list_effect list_handlePageChange card_run sb_handleClear
          list_pagination_shown clickable_pages].
  - apply (list_effect_ok a lp Hp).
  - by split.
  - by split.
  - by destruct (sb_showFilters sb && _).
  - unfold search_submit. pose proof (list_handleSearch_ok a lp (sb_handleSubmit sb) sb) as H.
    destruct (list_handleSearch _ _ _). exact H.
  - destruct (sb_showsClear sb); [|by split].
    pose proof (list_handleSearch_ok a lp (mkFilters (Some "") None None None None None None None)
                  (fst (sb_handleClear sb))) as H.
    unfold sb_handleClear in *. cbn -[list_handleSearch] in *. destruct (list_handleSearch _ _ _). exact H.
  - destruct (list_pagination_shown a && _) eqn:Hg; [|by split].
    apply andb_prop in Hg as [Hs Hin]. apply existsb_exists in Hin as (q & Hq & Hpq). nb_bool. subst q.
    unfold list_pagination_shown in Hs. nb_bool.
    destruct (pv_notes (notes_pv a)) as [|x xs] eqn:Hl; [done|].
    match goal with H : (1 <? _) = true |- _ => apply Z.ltb_lt in H end.
    pose proof (clickable_pages_bounds isMobile (lp_currentPage lp) (totalPages (pv_pagination (notes_pv a))) ltac:(lia) ltac:(split; [done|apply Hn; discriminate])
                  p Hq) as Hb.
    unfold list_handlePageChange. destruct (Z.eqb_spec (lp_currentPage lp) p); simpl.
    + split; [lia|]. rewrite Hl. intros _. lia.
    + apply (list_effect_ok a (mkListPage p (lp_searchQuery lp) (lp_isSearching lp))). simpl. lia.
  - destruct (list_card_shrinks a v c Stay ce) as [Hpg Hsh]. split; [done|]. rewrite Hpg. auto.
Qed.

(** C23: NotesList with its SearchBar, its Pagination and its NoteCards
    keeps its page within the provider's pagination: from its initial
    state, on any path (the mount effect, typing, filters, submit, Clear,
    any Pagination button on any screen, any card event), the current
    page is at least 1 and, while notes are shown, at most the provider's
    [totalPages]; and every page a Pagination button offers is between 1
    and that [totalPages].  [totalPages] is the one of the last fetch or
    search: after a card deletion it is stale ([list_delete_stale_pagination]),
    so an offered page may then hold no note. *)
Theorem list_pages_in_range a es :
  (pv_notes (notes_pv a) <> [] -> 1 <= totalPages (pv_pagination (notes_pv a))) ->
  let '(a', lp', _) := list_trace (a, init_list_page, init_searchbar) es in
  1 <= lp_currentPage lp' /\
  (pv_notes (notes_pv a') <> [] -> lp_currentPage lp' <= totalPages (pv_pagination (notes_pv a'))) /\
  (list_pagination_shown a' = true -> forall isMobile p,
     In p (clickable_pages isMobile (lp_currentPage lp') (totalPages (pv_pagination (notes_pv a')))) ->
     1 <= p <= totalPages (pv_pagination (notes_pv a'))).
Proof.
  intros H0. pose proof (fold_left_invariant list_run list_page_ok list_run_ok es
                           (a, init_list_page, init_searchbar) (conj (Z.le_refl 1) H0)) as H.
  unfold list_trace. destruct (fold_left _ _ _) as [[a' lp'] sb']. destruct H as [Hp Hn].
  split_and!; [done|done|]. intros Hs isMobile p. unfold list_pagination_shown in Hs. nb_bool.
  destruct (pv_notes (notes_pv a')) eqn:Hl; [done|].
  match goal with H : (1 <? _) = true |- _ => apply Z.ltb_lt in H end.
  apply clickable_pages_bounds; [lia|]. split; [done|]. apply Hn. discriminate.
Qed.

(** 21 public notes of Ann, who is logged in: two pages of 20. *)
Definition ex_many_app : app :=
  mkApp (mkStorage (map (fun i => ex_q_note i i 0) (seqZ 1 21)) []
           [mkUser 1 "Ann" "ann@uni.edu" "pw" 0] (Some (mkSession 1 "Ann" "ann@uni.edu" 0)))
    init_notes_provider (mkAuthProvider (Some (mkSession 1 "Ann" "ann@uni.edu" 0)) false true).
Definition ex_note21 : note_view := with_user_info (store ex_many_app) (ex_q_note 21 21 0).

Lemma list_pages_in_range_witness :
  lp_currentPage (snd (fst (list_trace (ex_many_app, init_list_page, init_searchbar)
                              [LMount; LPage false 2; LPage true 1]))) = 1.
Proof.
  pose proof (list_pages_in_range ex_many_app [LMount; LPage false 2; LPage true 1]
                (fun H => False_ind _ (H eq_refl))) as Hw.
  vm_compute. reflexivity.
Defined.

(** C24: a NoteCard's deletion on NotesList removes the note from the
    store and from the list shown, but leaves the provider's pagination
    as it was: [totalItems] and [totalPages] still count the deleted
    note (NotesList does not fetch again). *)
Theorem list_delete_stale_pagination a lp sb v c su n :
  store_ok (store a) -> card_isOwner a v = true -> getCurrentUser (store a) = Some su ->
  List.find (has_id (nid (v_note v))) (notesBuddy_notes (store a)) = Some n -> uploadedBy n = su_id su ->
  let '(a', _, _) := list_run (a, lp, sb) (LCard v c (CDelete true)) in
  List.find (has_id (nid (v_note v))) (notesBuddy_notes (store a')) = None /\
  (forall w, In w (pv_notes (notes_pv a')) -> nid (v_note w) <> nid (v_note v)) /\
  pv_pagination (notes_pv a') = pv_pagination (notes_pv a).
Proof.
  intros Hok Hown Hsu Hf Hup. simpl. rewrite Hown. simpl. unfold list_handleDelete.
  rewrite (deleteNote_by_id_eq _ _ Hok). unfold deleteNote_by_id. rewrite Hsu, Hf, Hup, Z.eqb_refl. simpl.
  split_and!; [apply find_filter_negb| |done].
  intros w (_ & Hw)%List.filter_In. nb_bool. done.
Qed.

Lemma list_delete_stale_pagination_witness :
  totalItems (pv_pagination (notes_pv (fst (fst (list_run (list_run (ex_many_app, init_list_page, init_searchbar) LMount)
     (LCard ex_note21 (card_init ex_note21) (CDelete true))))))) = 21.
Proof.
  pose proof (list_delete_stale_pagination (fst (fst (list_run (ex_many_app, init_list_page, init_searchbar) LMount)))
     init_list_page init_searchbar ex_note21 (card_init ex_note21) (mkSession 1 "Ann" "ann@uni.edu" 0)
     (ex_q_note 21 21 0) ltac:(apply (bool_decide_unpack _); vm_compute; reflexivity)
     ltac:(vm_compute; reflexivity) ltac:(vm_compute; reflexivity) ltac:(vm_compute; reflexivity)
     ltac:(vm_compute; reflexivity)) as Hw.
  vm_compute. reflexivity.
Defined.

(** The consequence: after that deletion on page 1, the Pagination still
    offers page 2, which no longer exists; clicking it shows the empty
    state "Be the first to upload notes!" and no Pagination any more,
    although 20 notes are stored and visible. *)
Example list_stranded_after_delete :
  let '(a', lp', _) := list_trace (ex_many_app, init_list_page, init_searchbar)
                         [LMount; LCard ex_note21 (card_init ex_note21) (CDelete true); LPage false 2] in
  list_empty_message a' lp' = Some "Be the first to upload notes!"%string /\
  list_pagination_shown a' = false /\
  length (List.filter (can_view (getCurrentUser (store a'))) (notesBuddy_notes (store a'))) = 20%nat.
Proof. vm_compute. auto. Qed.
