(* ===== verification/ProfilePage.v ===== *)
(** * ProfilePage: Profile.jsx

    Profile calls [getMyNotes] on mount and [deleteNote] then
    [getMyNotes] for a card's [onDelete].  It calls [authAPI], which it
    neither defines nor imports: evaluating it throws a
    [ReferenceError], which the handlers' [catch] turns into their
    failure toast, the only outcome of the password change and the
    account deletion. *)

From S2P Require Import Prelude JsString Store NotesStore NotesQuery NotesQueryProps Auth App Navigation NoteCard.

(** ** Profile.jsx *)

Inductive toast := ToastSuccess (m : string) | ToastError (m : string).

Record password_form := mkPasswordForm {
  currentPassword : string; newPassword : string; confirmPassword : string
}.

(** [authAPI.changePassword(...)] throws before anything is changed. *)
Definition profile_handlePasswordChange (a : app) (pd : password_form) : app * toast :=
  if negb (String.eqb (newPassword pd) (confirmPassword pd)) then (a, ToastError "New passwords do not match")
  else if js_length (newPassword pd) <? 6 then (a, ToastError "Password must be at least 6 characters long")
  else (a, ToastError "Failed to change password").

(** [authAPI.deleteAccount(...)] throws before [logout()]. *)
Definition profile_handleAccountDeletion (a : app) (deletePassword : string) : app * toast * nav :=
  if String.eqb deletePassword "" then (a, ToastError "Please enter your password", Stay)
  else (a, ToastError "Failed to delete account", Stay).

(** [await deleteNote(id); await getMyNotes();]. *)
Definition profile_handleDelete (a : app) (id : Z) : app :=
  fst (getMyNotes (fst (deleteNote a id)) 1 20).

(** The mount effect: [loadProfile()] (whose [authAPI.getProfile()]
    throws, leaving [stats] null) and [getMyNotes()]. *)
Definition profile_mount (a : app) : app := fst (getMyNotes a 1 20).

(** ** The page's own state *)

(** [stats.totalNotesUploaded], [stats.totalDownloads],
    [stats.totalViews], [stats.totalLikes]. *)
Record profile_stats := mkStats {
  totalNotesUploaded : Z; totalDownloads : Z; totalViews : Z; totalLikes : Z
}.

Record profile_page := mkProfilePage {
  pf_stats : option profile_stats; pf_loadingStats : bool;
  pf_showPasswordForm : bool; pf_showDeleteConfirm : bool;
  pf_passwordData : password_form; pf_deletePassword : string
}.

Definition empty_password_form : password_form := mkPasswordForm "" "" "".

Definition init_profile_page : profile_page :=
  mkProfilePage None true false false empty_password_form "".

(** [loadProfile]: [authAPI.getProfile()] throws, the [catch] logs, and
    [finally] clears [loadingStats]; [stats] stays [null]. *)
Definition loadProfile (p : profile_page) : profile_page :=
  mkProfilePage None false (pf_showPasswordForm p) (pf_showDeleteConfirm p) (pf_passwordData p)
    (pf_deletePassword p).

(** The browser's constraint validation of the password form: every
    input is [required], and the two new-password inputs have
    [minLength={6}].  A form that fails it is not submitted: [onSubmit]
    does not run. *)
Definition password_form_valid (pd : password_form) : bool :=
  negb (String.eqb (currentPassword pd) "") &&
  negb (String.eqb (newPassword pd) "") && (6 <=? js_length (newPassword pd)) &&
  negb (String.eqb (confirmPassword pd) "") && (6 <=? js_length (confirmPassword pd)).

(** The deletion form's password input is [required]. *)
Definition delete_form_valid (pw : string) : bool := negb (String.eqb pw "").

(** What a user does on the page: the mount effect, the two buttons of
    the account panel, the inputs, submit and cancel of the two forms,
    and an event on the NoteCard of a note, whose [onDelete] is
    [handleDelete].  The card's own state is an argument of the event:
    any card state is allowed. *)
Inductive profile_event :=
| PMount
| PTogglePasswordForm | POpenDeleteConfirm
| PCurrentPassword (v : string) | PNewPassword (v : string) | PConfirmPassword (v : string)
| PPasswordSubmit | PPasswordCancel
| PDeletePassword (v : string) | PDeleteSubmit | PDeleteCancel
| PCard (v : note_view) (c : card) (e : card_event).

(** The application, the page, and the toasts Profile's own handlers
    have shown so far (newest last); the NotesContext handlers' toasts
    are not modelled. *)
Definition profile_state : Type := app * profile_page * list toast.

Definition set_passwordData (pd : password_form) (p : profile_page) : profile_page :=
  mkProfilePage (pf_stats p) (pf_loadingStats p) (pf_showPasswordForm p) (pf_showDeleteConfirm p) pd
    (pf_deletePassword p).

Definition set_deletePassword (pw : string) (p : profile_page) : profile_page :=
  mkProfilePage (pf_stats p) (pf_loadingStats p) (pf_showPasswordForm p) (pf_showDeleteConfirm p)
    (pf_passwordData p) pw.

Definition profile_run (st : profile_state) (e : profile_event) : profile_state :=
  let '(a, p, ts) := st in
  let pd := pf_passwordData p in
  match e with
  | PMount => (profile_mount a, loadProfile p, ts)
  | PTogglePasswordForm =>
    (a, mkProfilePage (pf_stats p) (pf_loadingStats p) (negb (pf_showPasswordForm p)) (pf_showDeleteConfirm p)
          pd (pf_deletePassword p), ts)
  | POpenDeleteConfirm =>
    (a, mkProfilePage (pf_stats p) (pf_loadingStats p) (pf_showPasswordForm p) true pd (pf_deletePassword p), ts)
  | PCurrentPassword v =>
    if pf_showPasswordForm p
    then (a, set_passwordData (mkPasswordForm v (newPassword pd) (confirmPassword pd)) p, ts) else st
  | PNewPassword v =>
    if pf_showPasswordForm p
    then (a, set_passwordData (mkPasswordForm (currentPassword pd) v (confirmPassword pd)) p, ts) else st
  | PConfirmPassword v =>
    if pf_showPasswordForm p
    then (a, set_passwordData (mkPasswordForm (currentPassword pd) (newPassword pd) v) p, ts) else st
  | PPasswordSubmit =>
    if pf_showPasswordForm p && password_form_valid pd
    then let '(a', t) := profile_handlePasswordChange a pd in (a', p, ts ++ [t]) else st
  | PPasswordCancel =>
    if pf_showPasswordForm p
    then (a, mkProfilePage (pf_stats p) (pf_loadingStats p) false (pf_showDeleteConfirm p)
               empty_password_form (pf_deletePassword p), ts)
    else st
  | PDeletePassword v => if pf_showDeleteConfirm p then (a, set_deletePassword v p, ts) else st
  | PDeleteSubmit =>
    if pf_showDeleteConfirm p && delete_form_valid (pf_deletePassword p)
    then let '(a', t, _) := profile_handleAccountDeletion a (pf_deletePassword p) in (a', p, ts ++ [t])
    else st
  | PDeleteCancel =>
    if pf_showDeleteConfirm p
    then (a, mkProfilePage (pf_stats p) (pf_loadingStats p) (pf_showPasswordForm p) false pd "", ts)
    else st
  | PCard v c ce => (fst (fst (card_run profile_handleDelete v (a, c, Stay) ce)), p, ts)
  end.

Definition profile_trace (st : profile_state) (es : list profile_event) : profile_state :=
  fold_left profile_run es st.

(** What AuthContext owns: the users, the session in storage, and the
    AuthProvider's state. *)
Definition auth_unchanged (a a' : app) : Prop :=
  notesBuddy_users (store a') = notesBuddy_users (store a) /\
  notesBuddy_currentUser (store a') = notesBuddy_currentUser (store a) /\ auth_pv a' = auth_pv a.

(** The toasts the page can show. *)
Definition profile_toast_ok (t : toast) : Prop :=
  t = ToastError "New passwords do not match" \/ t = ToastError "Failed to change password" \/
  t = ToastError "Failed to delete account".

Ltac my_notes Hv Hsu :=
  destruct (getMyNotes_shown _ 1 20 _ _ Hv Hsu) as (m & Hm & Hmu & ->).

(** C31: after Profile's [handleDelete] (delete, then reload the user's
    notes), the list the page shows holds only notes of the logged-in
    user and none with the deleted id, whether the deletion succeeded,
    was refused (a note of another user) or found no note. *)
Theorem profile_handleDelete_gone a su id :
  store_ok (store a) -> getCurrentUser (store a) = Some su ->
  forall v, In v (pv_notes (notes_pv (profile_handleDelete a id))) ->
    nid (v_note v) <> id /\ uploadedBy (v_note v) = su_id su.
Proof.
  intros Hok Hsu v Hv. unfold profile_handleDelete in Hv.
  rewrite (deleteNote_by_id_eq _ _ Hok) in Hv. unfold deleteNote_by_id in Hv. rewrite Hsu in Hv.
  destruct (List.find (has_id id) _) as [n|] eqn:Hf; [destruct (uploadedBy n =? su_id su) eqn:Ho|].
  - my_notes Hv Hsu. simpl in Hm.
    apply filter_In in Hm as [_ Hm]. unfold has_id in Hm. simpl. split; [|done]. nb_bool. done.
  - my_notes Hv Hsu. simpl. split; [|done].
    intros Hid. apply find_some_in in Hf as [Hn Hnid]. unfold has_id in Hnid. nb_bool.
    assert (m = n) as -> by (apply (NoDup_fmap_inj nid (notesBuddy_notes (store a))); [apply Hok|done|done|lia]).
    nb_bool. lia.
  - my_notes Hv Hsu. simpl. split; [|done].
    intros Hid. pose proof (find_None_false _ _ Hf m Hm) as H. unfold has_id in H. nb_bool. lia.
Qed.

Lemma profile_handleDelete_gone_witness :
  Forall (fun v => nid (v_note v) <> 10 /\ uploadedBy (v_note v) = 1)
    (pv_notes (notes_pv (profile_handleDelete ex_app 10))).
Proof.
  apply List.Forall_forall. apply (profile_handleDelete_gone ex_app (without_password alice) 10);
    [exact ex_store_ok|reflexivity].
Defined.

(** *** No path of the Profile page reaches AuthContext *)

Lemma auth_unchanged_trans a b c : auth_unchanged a b -> auth_unchanged b c -> auth_unchanged a c.
Proof. intros (H1 & H2 & H3) (H4 & H5 & H6). unfold auth_unchanged. by rewrite H4, H5, H6. Qed.

(** A NotesContext handler call is one [event] of [App] that is no
    AuthContext event. *)
Lemma notes_call_unchanged a e :
  match e with
  | EvRegister _ _ _ _ | EvLogin _ _ | EvLogout | EvUpdateProfile _ | EvChangePassword _ _
  | EvDeleteAccount _ | EvReload => False
  | _ => True
  end -> auth_unchanged a (run a e).
Proof. intros He. destruct (notes_event_frame a e He) as (? & ? & ?). by split_and!. Qed.

Lemma profile_handleDelete_unchanged a id : auth_unchanged a (profile_handleDelete a id).
Proof.
  apply (auth_unchanged_trans _ (run a (EvDelete id))); [by apply notes_call_unchanged|].
  exact (notes_call_unchanged (run a (EvDelete id)) (EvMyNotes 1 20) I).
Qed.

Lemma profile_card_unchanged a v c n e :
  auth_unchanged a (fst (fst (card_run profile_handleDelete v (a, c, n) e))).
Proof.
  apply (card_run_calls auth_unchanged profile_handleDelete); intros.
  - by split_and!.
  - exact (notes_call_unchanged s (EvLike id now) I).
  - exact (notes_call_unchanged s (EvUnlike id) I).
  - exact (notes_call_unchanged s (EvDownload id t) I).
  - exact (notes_call_unchanged s (EvToggle id) I).
  - apply profile_handleDelete_unchanged.
Qed.

(** The submit handlers, behind the browser's validation, show only the
    three failures. *)
Lemma password_submit_toast a pd :
  password_form_valid pd = true -> profile_toast_ok (snd (profile_handlePasswordChange a pd)).
Proof.
  unfold password_form_valid, profile_handlePasswordChange. intros Hv. nb_bool.
  destruct (String.eqb _ _); simpl; [|by left].
  destruct (Z.ltb_spec (js_length (newPassword pd)) 6) as [Hlt|]; [|by right; left].
  match goal with H : (6 <=? _) = true |- _ => apply Z.leb_le in H end. lia.
Qed.

Lemma delete_submit_toast a pw :
  delete_form_valid pw = true -> profile_toast_ok (snd (fst (profile_handleAccountDeletion a pw))).
Proof. unfold delete_form_valid, profile_handleAccountDeletion. intros Hv. apply negb_true_iff in Hv. rewrite Hv. by right; right. Qed.

Definition profile_inv (a0 : app) (st : profile_state) : Prop :=
  let '(a, _, ts) := st in auth_unchanged a0 a /\ Forall profile_toast_ok ts.

Lemma profile_run_inv a0 st e : profile_inv a0 st -> profile_inv a0 (profile_run st e).
Proof.
  destruct st as [[a p] ts]. intros [Hu Ht].
  destruct e as [| | |x|x|x| | |x| | |v c ce].
  12: { split; [|exact Ht]. eapply auth_unchanged_trans; [exact Hu|]. apply profile_card_unchanged. }
  all: simpl; repeat case_match; simplify_eq/=; try (split; [exact Hu|exact Ht]).
  - split; [|exact Ht]. apply (auth_unchanged_trans _ a); [exact Hu|].
    exact (notes_call_unchanged a (EvMyNotes 1 20) I).
  - match goal with H : profile_handlePasswordChange _ _ = (?a1, _) |- _ =>
      assert (a1 = a) as -> by (unfold profile_handlePasswordChange in H; repeat case_match; congruence) end.
    split; [exact Hu|]. apply Forall_app. split; [exact Ht|]. constructor; [|constructor].
    match goal with H : profile_handlePasswordChange _ _ = _ |- _ =>
      pose proof (password_submit_toast a (pf_passwordData p)) as Hs; rewrite H in Hs end.
    apply Hs. by apply andb_prop in H as [_ ?].
  - match goal with H : profile_handleAccountDeletion _ _ = (?a1, _, _) |- _ =>
      assert (a1 = a) as -> by (unfold profile_handleAccountDeletion in H; repeat case_match; congruence) end.
    split; [exact Hu|]. apply Forall_app. split; [exact Ht|]. constructor; [|constructor].
    match goal with H : profile_handleAccountDeletion _ _ = _ |- _ =>
      pose proof (delete_submit_toast a (pf_deletePassword p)) as Hs; rewrite H in Hs end.
    apply Hs. by apply andb_prop in H as [_ ?].
Qed.

(** C32: no path of the Profile page reaches AuthContext: from its
    initial state, whatever the user does (the mount effect, opening,
    filling, submitting and cancelling the password and deletion forms,
    any event on a NoteCard of the page), the users and the session in
    storage and the AuthProvider's state are those the page started
    with, and the only toasts Profile's own handlers raise are "New
    passwords do not match", "Failed to change password" and "Failed to
    delete account": the browser's [required]/[minLength] validation
    keeps the handlers' other messages from ever appearing, and
    [authAPI] is not defined.  The toasts NotesContext raises for card
    events and [getMyNotes] (e.g. "Note liked!") are not recorded in
    [ts]. *)
Theorem profile_never_reaches_auth a es :
  let '(a', _, ts) := profile_trace (a, init_profile_page, []) es in
  notesBuddy_users (store a') = notesBuddy_users (store a) /\
  notesBuddy_currentUser (store a') = notesBuddy_currentUser (store a) /\ auth_pv a' = auth_pv a /\
  Forall profile_toast_ok ts.
Proof.
  pose proof (fold_left_invariant profile_run (profile_inv a) (profile_run_inv a) es
                (a, init_profile_page, []) ltac:(split; [by split_and!|constructor])) as H.
  unfold profile_trace. destruct (fold_left _ _ _) as [[a' p'] ts]. destruct H as [(? & ? & ?) ?].
  by split_and!.
Qed.

(** Alice changes her password to a valid one, tries to delete her
    account without a password (the browser blocks the submission),
    then with her password. *)
Definition ex_profile_path : list profile_event :=
  [PMount; PTogglePasswordForm; PCurrentPassword "pw-alice"; PNewPassword "secret42";
   PConfirmPassword "secret42"; PPasswordSubmit; POpenDeleteConfirm; PDeleteSubmit;
   PDeletePassword "pw-alice"; PDeleteSubmit].

Lemma profile_never_reaches_auth_witness :
  snd (profile_trace (ex_app, init_profile_page, []) ex_profile_path) =
    [ToastError "Failed to change password"; ToastError "Failed to delete account"] /\
  notesBuddy_currentUser (store (fst (fst (profile_trace (ex_app, init_profile_page, []) ex_profile_path)))) =
    Some (without_password alice).
Proof.
  pose proof (profile_never_reaches_auth ex_app ex_profile_path) as H.
  split; [vm_compute; reflexivity|].
  destruct (profile_trace _ _) as [[a' p'] ts]. destruct H as (_ & Hc & _). exact Hc.
Defined.
