(* ===== verification/Routing.v ===== *)
(** * Routing: App.jsx's routes, the links that reach them, useNotes

    App.jsx renders, under [BrowserRouter], [AuthProvider] and
    [NotesProvider], the Navbar and a [<Routes>] of eight routes: five
    public pages, [/upload] and [/profile] wrapped in [ProtectedRoute]
    (components/ProtectedRoute, which the repository does not contain,
    so the wrapper is recorded and not interpreted), and the fallback
    [*], a [<Navigate to="/" replace />].

    The matching is react-router v6's, which the routes rely on:
    - [compile_path]: its [compilePath]: trailing slashes ignored, a
      leading slash added, a [:name] segment is a parameter; [*] alone
      matches every path;
    - [match_path]: the compiled expression [^/w1/w2.../wn\/*$] with the
      [i] flag: static segments compare without case, a parameter takes
      a non-empty segment, trailing slashes are allowed;
    - [computeScore] and [rank_branches]: routes are tried by decreasing
      score (static segment 10, parameter 3, empty segment 1, [*] -2),
      ties in the order of the routes;
    - [matchRoutes]: the first ranked route whose path matches.
    The pathname given to the matcher is the decoded one (react-router
    decodes the location's pathname first); the links of the code
    contain no escapes.  [visit] follows a [Navigate] element to its
    target: the fallback is the only one, so one redirect is enough, and
    the theorems use fuel 2.

    [useNotes] (hooks/useNotes.js) returns the context of the nearest
    [NotesProvider] and throws outside one. *)

From S2P Require Import Prelude JsString JsSort JsNumber Store NotesStore Auth App Navigation NoteCard NoteDetails.
From Stdlib Require Import Ascii String DecimalString DecimalPos.

(** ** react-router's path patterns *)

(** [s.split("/")]. *)
Fixpoint split_slash (s : string) : list string :=
  match s with
  | EmptyString => [EmptyString]
  | String c s' =>
    let parts := split_slash s' in
    if Ascii.eqb c "/" then EmptyString :: parts
    else match parts with
         | p :: ps => String c p :: ps
         | [] => [String c EmptyString]
         end
  end.

(** [paths.join("/").replace(/\/\/+/g, "/")]: runs of slashes become one. *)
Fixpoint collapse_slashes (prev_slash : bool) (s : string) : string :=
  match s with
  | EmptyString => EmptyString
  | String c s' =>
    if Ascii.eqb c "/" then
      if prev_slash then collapse_slashes true s' else String c (collapse_slashes true s')
    else String c (collapse_slashes false s')
  end.

Fixpoint drop_slashes (s : string) : string :=
  match s with
  | String c s' => if Ascii.eqb c "/" then drop_slashes s' else s
  | EmptyString => EmptyString
  end.

Definition is_word_char (c : ascii) : bool :=
  let n := nat_of_ascii c in
  ((48 <=? n) && (n <=? 57) || (65 <=? n) && (n <=? 90) || (97 <=? n) && (n <=? 122)
   || (n =? 95) || (n =? 45))%nat.

(** [/^:[\w-]+$/]. *)
Definition param_name (seg : string) : option string :=
  match seg with
  | String c name =>
    if Ascii.eqb c ":" && negb (String.eqb name "") && forallb is_word_char (list_ascii_of_string name)
    then Some name else None
  | EmptyString => None
  end.

Inductive pat_seg := PLit (w : string) | PParam (name : string).

(** A compiled path: [*] (or [/*]) matches every path; otherwise the
    segments after the leading slash. *)
Inductive pattern := PAll | PSegs (segs : list pat_seg).

Definition pat_seg_of (seg : string) : pat_seg :=
  match param_name seg with Some name => PParam name | None => PLit seg end.

(** [compilePath(path)]: [path.replace(/\/*\*?$/, "").replace(/^\/*/, "/")]
    then one segment per [/]. *)
Definition compile_path (path : string) : pattern :=
  if String.eqb path "*" || String.eqb path "/*" then PAll
  else
    let body := rev_string (drop_slashes (rev_string path)) in
    PSegs (map pat_seg_of (split_slash (drop_slashes body))).

(** A static segment with the [i] flag. *)
Fixpoint strip_prefix_ci (w s : string) : option string :=
  match w, s with
  | EmptyString, _ => Some s
  | String c w', String d s' =>
    if Ascii.eqb (lower_ascii c) (lower_ascii d) then strip_prefix_ci w' s' else None
  | String _ _, EmptyString => None
  end.

(** [([^\/]+)]: the longest prefix without a slash. *)
Fixpoint span_segment (s : string) : string * string :=
  match s with
  | EmptyString => (EmptyString, EmptyString)
  | String c s' =>
    if Ascii.eqb c "/" then (EmptyString, s)
    else let '(v, r) := span_segment s' in (String c v, r)
  end.

Fixpoint all_slashes (s : string) : bool :=
  match s with
  | EmptyString => true
  | String c s' => Ascii.eqb c "/" && all_slashes s'
  end.

Definition params := list (string * string).

Definition match_seg (seg : pat_seg) (s : string) : option (params * string) :=
  match seg with
  | PLit w => (fun r => ([], r)) <$> strip_prefix_ci w s
  | PParam name =>
    let '(v, r) := span_segment s in
    if String.eqb v "" then None else Some ([(name, v)], r)
  end.

(** [/w1/w2.../wn] followed by [\/*$]. *)
Fixpoint match_segs (segs : list pat_seg) (s : string) : option params :=
  match segs with
  | [] => if all_slashes s then Some [] else None
  | seg :: segs' =>
    match s with
    | String c s1 =>
      if Ascii.eqb c "/" then
        match match_seg seg s1 with
        | Some (ps, s2) => (ps ++.) <$> match_segs segs' s2
        | None => None
        end
      else None
    | EmptyString => None
    end
  end.

(** [matchPath({ path, caseSensitive: false, end: true }, pathname)]. *)
Definition match_path (pat : pattern) (pathname : string) : option params :=
  match pat with
  | PAll => match pathname with String c _ => if Ascii.eqb c "/" then Some [] else None | _ => None end
  | PSegs segs => match_segs segs pathname
  end.

(** [computeScore(path)] of the flattened path. *)
Definition computeScore (path : string) : Z :=
  let segments := split_slash path in
  let initial := Z.of_nat (List.length segments) + (if existsb (String.eqb "*") segments then -2 else 0) in
  fold_left (fun score seg =>
      score + match param_name seg with Some _ => 3 | None => if String.eqb seg "" then 1 else 10 end)
    (filter (fun seg => negb (String.eqb seg "*")) segments) initial.

(** ** App.jsx *)

Inductive page := Dashboard | Login | Register | NotesList | NoteDetails | Upload | Profile.

#[export] Instance page_eq_dec : EqDecision page.
Proof. solve_decision. Defined.

(** A route's [element]: a page, a page inside [ProtectedRoute], or a
    [<Navigate to replace />]. *)
Inductive element := Page (p : page) | Protected (p : page) | NavigateTo (to : string).

Record route := mkRoute { route_path : string; route_element : element }.

Definition app_routes : list route := [
  mkRoute "/" (Page Dashboard); mkRoute "/login" (Page Login);
  mkRoute "/register" (Page Register); mkRoute "/notes" (Page NotesList);
  mkRoute "/notes/:id" (Page NoteDetails);
  mkRoute "/upload" (Protected Upload); mkRoute "/profile" (Protected Profile);
  mkRoute "*" (NavigateTo "/")
]%string.

(** [flattenRoutes]: the path joined to the root's. *)
Definition flat_path (r : route) : string := collapse_slashes false ("/" ++ route_path r).

(** [rankRouteBranches]: by decreasing score; the sort is stable, which
    gives the tie-break [compareIndexes] of sibling routes. *)
Definition rank_branches (routes : list route) : list route :=
  js_sort (by_key_desc (fun r => computeScore (flat_path r))) routes.

Fixpoint match_first (branches : list route) (pathname : string) : option (route * params) :=
  match branches with
  | [] => None
  | r :: bs =>
    match match_path (compile_path (route_path r)) pathname with
    | Some ps => Some (r, ps)
    | None => match_first bs pathname
    end
  end.

Definition matchRoutes (routes : list route) (pathname : string) : option (route * params) :=
  match_first (rank_branches routes) pathname.

(** What the screen shows below the Navbar: a page, whether
    [ProtectedRoute] wraps it, and the route's parameters. *)
Record screen := mkScreen { sc_page : page; sc_protected : bool; sc_params : params }.

(** Render the [<Routes>] at [pathname], following a [Navigate] (with
    [replace]) to its target; [None] when nothing matches or the fuel
    runs out. *)
Fixpoint visit (fuel : nat) (pathname : string) : option (string * screen) :=
  match fuel with
  | O => None
  | S fuel' =>
    match matchRoutes app_routes pathname with
    | None => None
    | Some (r, ps) =>
      match route_element r with
      | Page p => Some (pathname, mkScreen p false ps)
      | Protected p => Some (pathname, mkScreen p true ps)
      | NavigateTo to => visit fuel' to
      end
    end
  end.

(** Where [navigate(...)] of a handler goes. *)
Definition nav_path (n : nav) : option string :=
  match n with
  | Stay => None
  | GoLogin => Some "/login"%string
  | GoNotes => Some "/notes"%string
  | GoHome => Some "/"%string
  end.

(** ** NoteDetails on its URL *)

(** [const { id } = useParams()]: an absent parameter is [undefined],
    which [parseInt] reads as the text ["undefined"]. *)
Definition param (ps : params) (k : string) : string :=
  match List.find (fun kv => String.eqb (fst kv) k) ps with
  | Some kv => snd kv
  | None => "undefined"%string
  end.

(** The load effect of NoteDetails on the [id] of its URL:
    [getNoteById(id)] compares each stored id with [parseInt(id)]; [NaN]
    equals no id, which takes the not-found branches of [getNoteById]
    and of [loadNote]. *)
Definition loadNote_param (a : app) (id : string) (d : details) : app * details * nav :=
  match parseInt id with
  | Some z => loadNote a z d
  | None => (stop_loading a, mkDetails (d_note d) false (d_isPrivate d) (d_showPrivacyModal d), GoNotes)
  end.

Definition details_open (a : app) (ps : params) (d : details) : app * details * nav :=
  loadNote_param a (param ps "id") d.

(** ** hooks/useNotes.js *)

Inductive provider := BrowserRouter | AuthProvider | NotesProvider.

#[export] Instance provider_eq_dec : EqDecision provider.
Proof. solve_decision. Defined.

(** App.jsx's providers, outermost first; the Navbar and the routed page
    are rendered inside all three. *)
Definition app_providers : list provider := [BrowserRouter; AuthProvider; NotesProvider].

(** [useContext(NotesContext)]: the value of the nearest provider. *)
Definition notes_context {A} (providers : list provider) (value : A) : option A :=
  if bool_decide (NotesProvider ∈ providers) then Some value else None.

Definition useNotes {A} (context : option A) : result A :=
  match context with
  | Some c => Success c
  | None => fail: "useNotes must be used within a NotesProvider"
  end.

(** ** Lemmas *)

Lemma rank_app_routes : rank_branches app_routes = [
  mkRoute "/notes/:id" (Page NoteDetails); mkRoute "/login" (Page Login);
  mkRoute "/register" (Page Register); mkRoute "/notes" (Page NotesList);
  mkRoute "/upload" (Protected Upload); mkRoute "/profile" (Protected Profile);
  mkRoute "/" (Page Dashboard); mkRoute "*" (NavigateTo "/")]%string.
Proof. vm_compute. reflexivity. Qed.

Lemma match_first_In rs p r ps : match_first rs p = Some (r, ps) -> In r rs.
Proof.
  induction rs as [|r' rs IH]; [done|]. cbn [match_first].
  destruct (match_path _ p); [intros [= -> _]; by left|intros H; right; auto].
Qed.

Lemma matchRoutes_In p r ps : matchRoutes app_routes p = Some (r, ps) -> In r app_routes.
Proof. intros H. apply match_first_In in H. by apply js_sort_In in H. Qed.

(** The fallback [*] matches every pathname, so [matchRoutes] always
    finds a route. *)
Lemma matchRoutes_total rest :
  exists r ps, matchRoutes app_routes (String "/" rest) = Some (r, ps).
Proof.
  unfold matchRoutes. rewrite rank_app_routes. cbn [match_first route_path].
  assert (match_path (compile_path "*") (String "/" rest) = Some []) as -> by reflexivity.
  repeat (destruct (match_path _ _); [by eexists _, _|]). by eexists _, _.
Qed.

(** Every screen [visit] shows is the element of a route of App.jsx. *)
Lemma visit_route fuel p f sc :
  visit fuel p = Some (f, sc) ->
  exists r, In r app_routes /\
    (route_element r = Page (sc_page sc) /\ sc_protected sc = false \/
     route_element r = Protected (sc_page sc) /\ sc_protected sc = true).
Proof.
  revert p. induction fuel as [|fuel IH]; intros p; [done|]. cbn [visit].
  destruct (matchRoutes app_routes p) as [[r ps]|] eqn:Hm; [|done].
  apply matchRoutes_In in Hm.
  destruct (route_element r) eqn:He; [intros [= <- <-]..|apply IH]; exists r; simpl; auto.
Qed.

Lemma span_uint_app (u : Decimal.uint) (t : string) :
  span_segment (NilEmpty.string_of_uint u ++ t) =
  let '(v, r) := span_segment t in ((NilEmpty.string_of_uint u ++ v)%string, r).
Proof.
  induction u; cbn [NilEmpty.string_of_uint];
    [change (EmptyString ++ t)%string with t; by destruct (span_segment t)|rewrite string_app_cons; cbn [span_segment]; rewrite IHu;
     destruct (span_segment t); reflexivity ..].
Qed.

(** A printed number followed by [t] spans as far as [t] does. *)
Lemma span_number_app (z : Z) (t : string) :
  span_segment (number_to_string z ++ t) =
  let '(v, r) := span_segment t in ((number_to_string z ++ v)%string, r).
Proof.
  unfold number_to_string. destruct z; cbn [Z.to_int NilEmpty.string_of_int]; [apply span_uint_app..|].
  rewrite string_app_cons. cbn [span_segment]. rewrite span_uint_app. by destruct (span_segment t).
Qed.

Lemma number_to_string_nonempty (z : Z) (t : string) : (number_to_string z ++ t)%string <> EmptyString.
Proof.
  unfold number_to_string. pose proof (Unsigned.to_uint_nonnil) as Hn.
  destruct z as [|p|p]; cbn [Z.to_int NilEmpty.string_of_int]; [done| |done].
  specialize (Hn p). destruct (Pos.to_uint p); [done|..]; cbn [NilEmpty.string_of_uint]; done.
Qed.

(** The route of [/notes/<s>] for a non-empty [s] without a slash. *)
Lemma match_notes_id (s : string) :
  span_segment s = (s, EmptyString) -> s <> EmptyString ->
  matchRoutes app_routes ("/notes/" ++ s) = Some (mkRoute "/notes/:id" (Page NoteDetails), [("id", s)])%string.
Proof.
  intros H1 H2. unfold matchRoutes. rewrite rank_app_routes.
  cbv [String.append]. simpl. rewrite H1. by destruct (String.eqb_spec s "").
Qed.

Lemma visit_notes_id (s : string) :
  span_segment s = (s, EmptyString) -> s <> EmptyString ->
  visit 2 ("/notes/" ++ s) = Some (("/notes/" ++ s)%string, mkScreen NoteDetails false [("id", s)])%string.
Proof. intros H1 H2. cbn [visit]. by rewrite match_notes_id. Qed.

Lemma details_open_id (a : app) (s : string) (d : details) :
  details_open a [("id", s)]%string d = loadNote_param a s d.
Proof. reflexivity. Qed.

(** A [NaN] id behaves as an id that no stored note has. *)
Lemma loadNote_param_nan (a : app) (id : string) (z : Z) (d : details) :
  parseInt id = None -> List.find (has_id z) (notesBuddy_notes (store a)) = None ->
  loadNote_param a id d = loadNote a z d.
Proof. intros Hp Hz. unfold loadNote_param, loadNote, getNoteById. by rewrite Hp, Hz. Qed.

(** The Navbar and the routed page are rendered inside [NotesProvider]:
    their [useNotes()] returns the provider's value. *)
Lemma useNotes_in_app {A} (value : A) : useNotes (notes_context app_providers value) = Success value.
Proof. reflexivity. Qed.

Lemma useNotes_outside {A} (value : A) :
  useNotes (notes_context [BrowserRouter; AuthProvider] value) =
  fail: "useNotes must be used within a NotesProvider".
Proof. reflexivity. Qed.

(** ** Properties *)

(** C21: a NoteCard's [View Details] link opens NoteDetails with the id
    parameter, with no redirect, and the page's load effect on that
    parameter is [loadNote] of the card's note: printing the id into the
    URL, matching [/notes/:id] and [parseInt] in [getNoteById] compose to
    loading the note by its id. *)
Theorem card_link_opens_note (isOwner : bool) (v : note_view) (c : card) (a : app) (d : details) :
  let link := cv_link (card_render isOwner v c) in
  let id := number_to_string (nid (v_note v)) in
  visit 2 link = Some (link, mkScreen NoteDetails false [("id", id)])%string /\
  details_open a [("id", id)]%string d = loadNote a (nid (v_note v)) d.
Proof.
  cbn [cv_link card_render]. unfold card_link. split.
  - apply visit_notes_id; [|rewrite <- (string_app_nil_r (number_to_string _)); apply number_to_string_nonempty].
    rewrite <- (string_app_nil_r (number_to_string _)), span_number_app. reflexivity.
  - rewrite details_open_id. unfold loadNote_param.
    rewrite <- (string_app_nil_r (number_to_string _)), parseInt_number_app; [done|done|].
    destruct (Z.eq_dec (nid (v_note v)) 0); [right|left]; done.
Qed.

(** C38: every pathname settles on a page within one redirect: the page
    of its route, or the fallback's [Navigate] to [/] and the Dashboard;
    Upload and Profile are shown exactly when [ProtectedRoute] wraps the
    page; and the Navbar's logo and links, the Dashboard's links and every
    target of [navigate] open their page directly. *)
Theorem every_url_settles (rest : string) (isAuthenticated : bool) :
  (exists f sc, visit 2 (String "/" rest) = Some (f, sc) /\
     (f = String "/" rest \/ (f = "/"%string /\ sc = mkScreen Dashboard false []))) /\
  (forall p f sc, visit 2 p = Some (f, sc) ->
     sc_protected sc = true <-> sc_page sc = Upload \/ sc_page sc = Profile) /\
  (forall p, In p ("/"%string :: navbar_links isAuthenticated ++ dashboard_links isAuthenticated) \/
       (exists n, nav_path n = Some p) -> exists sc, visit 1 p = Some (p, sc)).
Proof.
  split_and!.
  - destruct (matchRoutes_total rest) as (r & ps & Hm). cbn [visit]. rewrite Hm.
    pose proof (matchRoutes_In _ _ _ Hm) as Hin.
    repeat destruct Hin as [<-|Hin]; try done; cbn; eexists _, _; (split; [reflexivity|]); auto.
  - intros p f sc Hv. destruct (visit_route _ _ _ _ Hv) as (r & Hin & [[He ->]|[He ->]]);
      repeat destruct Hin as [<-|Hin]; try done; simplify_eq/=; rewrite <- He; intuition congruence.
  - intros p [Hin|[n Hn]].
    + destruct isAuthenticated; repeat destruct Hin as [<-|Hin]; try done; eexists; reflexivity.
    + destruct n; simplify_eq/=; eexists; reflexivity.
Qed.

Lemma every_url_settles_witness : exists sc, visit 1 "/profile" = Some ("/profile"%string, sc).
Proof. apply (proj2 (proj2 (every_url_settles "profile" true))). left. simpl. auto 10. Defined.

(** An id followed by text that starts with no digit and holds no slash
    still opens the note: [parseInt] stops at the first non-digit. *)
Lemma notes_url_suffix (z : Z) (t : string) (a : app) (d : details) :
  0 < z -> scan_digits 10 t = [] -> span_segment t = (t, EmptyString) ->
  visit 2 ("/notes/" ++ number_to_string z ++ t) =
    Some (("/notes/" ++ number_to_string z ++ t)%string,
          mkScreen NoteDetails false [("id", number_to_string z ++ t)])%string /\
  details_open a [("id", number_to_string z ++ t)]%string d = loadNote a z d.
Proof.
  intros Hz Ht Hs. split.
  - apply visit_notes_id; [|apply number_to_string_nonempty]. by rewrite span_number_app, Hs.
  - rewrite details_open_id. unfold loadNote_param. rewrite parseInt_number_app; [done|done|left; lia].
Qed.

Example notes_url_junk (a : app) (d : details) :
  visit 2 "/notes/12abc" = Some ("/notes/12abc"%string, mkScreen NoteDetails false [("id", "12abc")])%string /\
  details_open a [("id", "12abc")]%string d = loadNote a 12 d.
Proof. apply (notes_url_suffix 12 "abc"); [lia|reflexivity..]. Qed.

(** [/notes/abc]: [parseInt] is [NaN], no note has that id, and the page
    navigates back to [/notes]. *)
Example notes_url_nan (a : app) (d : details) :
  visit 2 "/notes/abc" = Some ("/notes/abc"%string, mkScreen NoteDetails false [("id", "abc")])%string /\
  snd (details_open a [("id", "abc")]%string d) = GoNotes.
Proof. split; reflexivity. Qed.
